(** * HAL_TLS_itls.c: the iTLS adapter of the HAL, embedded and verified

    The adapter exposes four calls (establish, read, write, destroy) over an
    external TLS library.  Everything it does is a sequence of calls into that
    library, the C library and the operating system, steered by the values
    those calls return.  The embedding therefore runs each function of the
    source against a [world]:

    - [answers]: the values the external calls will return, in the order in
      which the calls are made (the environment's side of the execution);
    - [trace]: the external calls made so far, oldest first, each with the
      value it returned when the adapter reads that value;
    - [net_status]: the [static int net_status] of [_network_ssl_read];
    - [ctx_fd]: the stores into the [fd] member of the network context of a
      handle, latest first; it is the only field of [TLSDataParams_t] the
      source itself writes.

    A run is undefined ([None]) only when the calls outnumber the recorded
    [answers]: the loops of the source end only on what the library returns.

    The trace records the calls that allocate, connect, configure,
    transfer and release: [HAL_Malloc] and [HAL_Free], [memset], the socket
    interface and the [mbedtls_*] functions.  It does not record the
    instrumentation, which runs on every path: [SSL_LOG] ([HAL_Printf] and
    [fflush]) and the [gettimeofday] calls under [CONFIG_ITLS_TIME_TEST];
    nor the optional [mbedtls_debug_set_threshold] under [MBEDTLS_DEBUG_C].
    [sprintf] and [strlen] are the functions [sprintf_u] and [strlen], not
    events.  The bytes held by the buffers are not modelled.  Of the two
    callbacks, which the library, not the adapter, invokes, [_ssl_random]
    is embedded on its own and [_ssl_debug] only prints. *)

From Stdlib Require Import ZArith List String Ascii Bool Lia.
Import ListNotations.
Local Open Scope Z_scope.

(** ** Machine integers *)

(** [uint32_t] conversion: reduction modulo 2^32. *)
Definition to_uint32 (z : Z) : Z := z mod 2 ^ 32.

(** Conversion to [int] / [int32_t]: two's complement wrap-around. *)
Definition to_int (z : Z) : Z := (z + 2 ^ 31) mod 2 ^ 32 - 2 ^ 31.

Definition INT_MIN : Z := - 2 ^ 31.
Definition INT_MAX : Z := 2 ^ 31 - 1.

(** [(uintptr_t)NULL]. *)
Definition NULL : Z := 0.

(** ** Constants of the wrapped library

    The error codes come from [itls/ssl.h] and [itls/net.h], which are not
    among the sources; they are parameters of the development.  All that is
    assumed is what every mbedTLS-derived header guarantees: each code is a
    negative [int], the five codes [_network_ssl_read] tells apart are
    pairwise distinct, and so are the three codes of the connect step. *)
Class itls_codes : Type := {
  MBEDTLS_ERR_SSL_PEER_CLOSE_NOTIFY : Z;
  MBEDTLS_ERR_SSL_TIMEOUT : Z;
  MBEDTLS_ERR_SSL_CONN_EOF : Z;
  MBEDTLS_ERR_SSL_SESSION_TICKET_EXPIRED : Z;
  MBEDTLS_ERR_SSL_NON_FATAL : Z;
  MBEDTLS_ERR_SSL_WANT_READ : Z;
  MBEDTLS_ERR_SSL_WANT_WRITE : Z;
  MBEDTLS_ERR_NET_SOCKET_FAILED : Z;
  MBEDTLS_ERR_NET_CONNECT_FAILED : Z;
  MBEDTLS_ERR_NET_UNKNOWN_HOST : Z;
  codes_negative :
    Forall (fun c => INT_MIN <= c < 0)
      [MBEDTLS_ERR_SSL_PEER_CLOSE_NOTIFY; MBEDTLS_ERR_SSL_TIMEOUT;
       MBEDTLS_ERR_SSL_CONN_EOF; MBEDTLS_ERR_SSL_SESSION_TICKET_EXPIRED;
       MBEDTLS_ERR_SSL_NON_FATAL; MBEDTLS_ERR_SSL_WANT_READ;
       MBEDTLS_ERR_SSL_WANT_WRITE; MBEDTLS_ERR_NET_SOCKET_FAILED;
       MBEDTLS_ERR_NET_CONNECT_FAILED; MBEDTLS_ERR_NET_UNKNOWN_HOST];
  read_codes_distinct :
    NoDup
      [MBEDTLS_ERR_SSL_PEER_CLOSE_NOTIFY; MBEDTLS_ERR_SSL_TIMEOUT;
       MBEDTLS_ERR_SSL_CONN_EOF; MBEDTLS_ERR_SSL_SESSION_TICKET_EXPIRED;
       MBEDTLS_ERR_SSL_NON_FATAL];
  net_codes_distinct :
    NoDup
      [MBEDTLS_ERR_NET_SOCKET_FAILED; MBEDTLS_ERR_NET_CONNECT_FAILED;
       MBEDTLS_ERR_NET_UNKNOWN_HOST]
}.

(** Modelled from the spec: [MBEDTLS_SSL_MAJOR_VERSION_3] and
    [MBEDTLS_SSL_MINOR_VERSION_3] are macros of [itls/ssl.h], which is not
    among the sources; the value 3 is the one their names carry and the one
    the specification gives for the pinned version (TLS 1.2, major 3 /
    minor 3). *)
Definition MBEDTLS_SSL_MAJOR_VERSION_3 : Z := 3.
Definition MBEDTLS_SSL_MINOR_VERSION_3 : Z := 3.

(** [#define SEND_TIMEOUT_SECONDS (10)] *)
Definition SEND_TIMEOUT_SECONDS : Z := 10.

(** ** Symbolic constants of the socket interface *)

Inductive net_proto : Set := MBEDTLS_NET_PROTO_TCP | MBEDTLS_NET_PROTO_UDP.
Inductive address_family : Set := AF_UNSPEC | AF_INET | AF_INET6.
Inductive socket_type : Set := SOCK_STREAM | SOCK_DGRAM.
Inductive ip_protocol : Set := IPPROTO_TCP | IPPROTO_UDP.

Definition net_proto_eqb (a b : net_proto) : bool :=
  match a, b with
  | MBEDTLS_NET_PROTO_TCP, MBEDTLS_NET_PROTO_TCP => true
  | MBEDTLS_NET_PROTO_UDP, MBEDTLS_NET_PROTO_UDP => true
  | _, _ => false
  end.

(** One entry of the list [getaddrinfo] builds. *)
Record addrinfo : Set := mk_addrinfo {
  ai_family : address_family;
  ai_socktype : socket_type;
  ai_protocol : ip_protocol;
  ai_addr : string
}.

(** ** External calls *)

(** The calls the adapter makes into the TLS library, the C library, the
    operating system and the rest of the HAL.  A handle [p] stands for the
    [TLSDataParams_t] it points to; a call on [&(p->ssl)], [&(p->fd)] or
    [&(p->conf)] is recorded with [p].  Arguments that are the same at
    every call are left out: the size [sizeof(TLSDataParams_t)], the client
    / stream / default preset of [mbedtls_ssl_config_defaults], the
    callbacks given to [mbedtls_ssl_conf_rng], [mbedtls_ssl_conf_dbg] and
    [mbedtls_ssl_set_bio], and the [SOL_SOCKET] level of [setsockopt]. *)
Inductive call : Type :=
| HAL_Malloc
| HAL_Free (p : Z)
| memset (p : Z) (c : Z)
| signal_SIGPIPE_SIG_IGN
| getaddrinfo (host port : string) (family : address_family)
              (socktype : socket_type) (protocol : ip_protocol)
| freeaddrinfo
| socket (family : address_family) (socktype : socket_type)
         (protocol : ip_protocol)
| setsockopt_SO_SNDTIMEO (fd : Z) (tv_sec tv_usec : Z)
| connect (fd : Z) (addr : string)
| close (fd : Z)
| mbedtls_ssl_init (p : Z)
| mbedtls_net_init (p : Z)
| mbedtls_ssl_config_init (p : Z)
| mbedtls_net_connect (p : Z) (host port : string) (proto : net_proto)
| mbedtls_ssl_config_defaults (p : Z)
| mbedtls_ssl_conf_max_version (p : Z) (major minor : Z)
| mbedtls_ssl_conf_min_version (p : Z) (major minor : Z)
| mbedtls_ssl_conf_rng (p : Z)
| mbedtls_ssl_conf_dbg (p : Z)
| mbedtls_ssl_conf_auth_extra (p : Z) (extra : string) (len : Z)
| mbedtls_ssl_setup (p : Z)
| mbedtls_ssl_set_bio (p : Z)
| mbedtls_ssl_handshake (p : Z)
| mbedtls_ssl_conf_read_timeout (p : Z) (timeout : Z)
| mbedtls_ssl_read (p : Z) (buf : Z) (len : Z)
| mbedtls_ssl_write (p : Z) (buf : Z) (len : Z)
| mbedtls_ssl_close_notify (p : Z)
| mbedtls_net_free (p : Z)
| mbedtls_ssl_free (p : Z)
| mbedtls_ssl_config_free (p : Z).

(** An entry of the trace: a call whose result the adapter does not read
    ([Void], also used for functions returning [void]), or a call together
    with the value it returned ([Ret]). *)
Inductive event : Type :=
| Void (c : call)
| Ret (c : call) (r : Z).

Definition call_of (e : event) : call :=
  match e with Void c => c | Ret c _ => c end.

(** ** The world *)

Record world : Type := mk_world {
  net_status : Z;
  answers : list Z;
  resolver : string -> string -> list addrinfo;
  ctx_fd : list (Z * Z);
  trace : list event
}.

Definition set_net_status (v : Z) (w : world) : world :=
  mk_world v (answers w) (resolver w) (ctx_fd w) (trace w).

Definition set_ctx_fd (p fd : Z) (w : world) : world :=
  mk_world (net_status w) (answers w) (resolver w) ((p, fd) :: ctx_fd w) (trace w).

(** The call [c] is made and its result is not read. *)
Definition called (c : call) (w : world) : world :=
  mk_world (net_status w) (answers w) (resolver w) (ctx_fd w) (trace w ++ [Void c]).

(** The call [c] is made and returns [r]; [rest] are the answers left. *)
Definition returned (c : call) (r : Z) (rest : list Z) (w : world) : world :=
  mk_world (net_status w) rest (resolver w) (ctx_fd w) (trace w ++ [Ret c r]).

(** ** The monad of adapter code: state over [world], undefined when the
    answers run out *)

Definition M (A : Type) : Type := world -> option (A * world).

Definition Return {A : Type} (a : A) : M A := fun w => Some (a, w).

Definition bind {A B : Type} (m : M A) (k : A -> M B) : M B :=
  fun w => match m w with
           | Some (a, w') => k a w'
           | None => None
           end.

Notation "x <- c ;; k" := (bind c (fun x => k))
  (at level 61, c at next level, right associativity).
Notation "c ;;; k" := (bind c (fun _ => k))
  (at level 61, right associativity).

Definition emit (c : call) : M unit := fun w => Some (tt, called c w).

Definition ask (c : call) : M Z :=
  fun w => match answers w with
           | [] => None
           | r :: rest => Some (r, returned c r rest w)
           end.

Definition store_fd (p fd : Z) : M unit := fun w => Some (tt, set_ctx_fd p fd w).

(** ** [sprintf(port_str, "%u", port)] and [strlen] *)

Definition digit_char (d : Z) : ascii := ascii_of_nat (48 + Z.to_nat d).

(** Decimal digits of [n], most significant first, prepended to [acc];
    [fuel] bounds the number of digits. *)
Fixpoint utoa (fuel : nat) (n : Z) (acc : string) : string :=
  match fuel with
  | O => acc
  | S fuel' =>
    let acc' := String (digit_char (n mod 10)) acc in
    if n / 10 =? 0 then acc' else utoa fuel' (n / 10) acc'
  end.

(** What ["%u"] prints for an [unsigned int]: at most ten digits. *)
Definition sprintf_u (n : Z) : string := utoa 10 (to_uint32 n) EmptyString.

(** [strlen] of a C string held without its terminator. *)
Definition strlen (s : string) : Z := Z.of_nat (String.length s).

(** Bytes [sprintf] writes for a result [s]: the characters and the
    terminating NUL. *)
Definition bytes_stored (s : string) : Z := strlen s + 1.

(** [char port_str[6]] *)
Definition sizeof_port_str : Z := 6.

(** ** The functions of HAL_TLS_itls.c *)

Section Adapter.

Context {codes : itls_codes}.

(** [true] when the file is compiled with [_PLATFORM_IS_LINUX_]. *)
Variable PLATFORM_IS_LINUX : bool.

(** [net_prepare], outside Windows and EFI: ignore [SIGPIPE]. *)
Definition net_prepare : M Z :=
  emit signal_SIGPIPE_SIG_IGN ;;;
  Return 0.

(** The [for (cur = addr_list; cur != NULL; cur = cur->ai_next)] loop of
    [mbedtls_net_connect_timeout]; [ret] is the value of the variable
    [ret] on entry to the iteration. *)
Fixpoint connect_loop (ctx : Z) (timeout : Z) (cur : list addrinfo) (ret : Z)
  : M Z :=
  match cur with
  | [] => Return ret
  | a :: next =>
    fd <- ask (socket (ai_family a) (ai_socktype a) (ai_protocol a)) ;;
    store_fd ctx fd ;;;
    if fd <? 0 then
      connect_loop ctx timeout next MBEDTLS_ERR_NET_SOCKET_FAILED
    else
      _ <- ask (setsockopt_SO_SNDTIMEO fd timeout 0) ;;
      c <- ask (connect fd (ai_addr a)) ;;
      if c =? 0 then Return 0
      else
        emit (close fd) ;;;
        connect_loop ctx timeout next MBEDTLS_ERR_NET_CONNECT_FAILED
  end.

Definition mbedtls_net_connect_timeout
    (ctx : Z) (host port : string) (proto : net_proto) (timeout : Z) : M Z :=
  ret <- net_prepare ;;
  if negb (ret =? 0) then Return ret
  else
    let udp := net_proto_eqb proto MBEDTLS_NET_PROTO_UDP in
    r <- ask (getaddrinfo host port AF_UNSPEC
                (if udp then SOCK_DGRAM else SOCK_STREAM)
                (if udp then IPPROTO_UDP else IPPROTO_TCP)) ;;
    if negb (r =? 0) then Return MBEDTLS_ERR_NET_UNKNOWN_HOST
    else
      ret <- (fun w => connect_loop ctx timeout (resolver w host port)
                         MBEDTLS_ERR_NET_UNKNOWN_HOST w) ;;
      emit freeaddrinfo ;;;
      Return ret.

(** The handshake loop of [_TLSConnectNetwork]:
    [while ((ret = mbedtls_ssl_handshake(..)) != 0)], left either with
    [ret = 0] or, through [goto _out], with the first code that is neither
    WANT_READ nor WANT_WRITE.  [script] is [answers w]. *)
Fixpoint handshake_loop (p : Z) (script : list Z) (w : world)
  : option (Z * world) :=
  match script with
  | [] => None
  | ret :: script' =>
    let w := returned (mbedtls_ssl_handshake p) ret script' w in
    if negb (ret =? 0) then
      if negb (ret =? MBEDTLS_ERR_SSL_WANT_READ)
         && negb (ret =? MBEDTLS_ERR_SSL_WANT_WRITE)
      then Some (ret, w)
      else handshake_loop p script' w
    else Some (ret, w)
  end.

(** The code at the label [_out] of [_TLSConnectNetwork]. *)
Definition _out (p : Z) (ret : Z) : M Z :=
  if negb (ret =? 0) then
    emit (mbedtls_net_free p) ;;;
    emit (mbedtls_ssl_free p) ;;;
    emit (mbedtls_ssl_config_free p) ;;;
    Return ret
  else Return ret.

(** Step 1 of [_TLSConnectNetwork], "Start the connection": the
    [#if defined(_PLATFORM_IS_LINUX_)] alternative. *)
Definition start_connection (pTlsData : Z) (addr port : string) : M Z :=
  if PLATFORM_IS_LINUX
  then mbedtls_net_connect_timeout pTlsData addr port
         MBEDTLS_NET_PROTO_TCP SEND_TIMEOUT_SECONDS
  else ask (mbedtls_net_connect pTlsData addr port MBEDTLS_NET_PROTO_TCP).

(** Steps 2 and 3 of [_TLSConnectNetwork], "Setup stuff" and "Handshake",
    down to the label [_out]. *)
Definition setup_and_handshake (pTlsData : Z) (product_key : string) : M Z :=
  ret <- ask (mbedtls_ssl_config_defaults pTlsData) ;;
  if negb (ret =? 0) then _out pTlsData ret
  else
    emit (mbedtls_ssl_conf_max_version pTlsData
            MBEDTLS_SSL_MAJOR_VERSION_3 MBEDTLS_SSL_MINOR_VERSION_3) ;;;
    emit (mbedtls_ssl_conf_min_version pTlsData
            MBEDTLS_SSL_MAJOR_VERSION_3 MBEDTLS_SSL_MINOR_VERSION_3) ;;;
    emit (mbedtls_ssl_conf_rng pTlsData) ;;;
    emit (mbedtls_ssl_conf_dbg pTlsData) ;;;
    ret <- ask (mbedtls_ssl_conf_auth_extra pTlsData product_key
                  (strlen product_key)) ;;
    if negb (ret =? 0) then _out pTlsData ret
    else
      ret <- ask (mbedtls_ssl_setup pTlsData) ;;
      if negb (ret =? 0) then _out pTlsData ret
      else
        emit (mbedtls_ssl_set_bio pTlsData) ;;;
        ret <- (fun w => handshake_loop pTlsData (answers w) w) ;;
        _out pTlsData ret.

(** A failed connect step returns at once ([return ret;]); every later
    failure leaves through [_out]. *)
Definition _TLSConnectNetwork
    (pTlsData : Z) (addr port product_key : string) : M Z :=
  emit (mbedtls_ssl_init pTlsData) ;;;
  emit (mbedtls_net_init pTlsData) ;;;
  emit (mbedtls_ssl_config_init pTlsData) ;;;
  ret <- start_connection pTlsData addr port ;;
  if negb (0 =? ret) then Return ret
  else setup_and_handshake pTlsData product_key.

(** How a loop of [_network_ssl_read] / [_network_ssl_write] is left:
    by a [return] inside the loop, or by falling out of it (the loop
    condition or a [break]) with the current byte count. *)
Inductive loop_exit : Type :=
| Returns (v : Z)
| Falls (count : Z).

(** The [while (readLen < len)] loop of [_network_ssl_read].  [readLen]
    is a [uint32_t], so the comparison and the subtraction are done on
    unsigned 32-bit values.  [script] is [answers w]. *)
Fixpoint read_loop (p buffer len : Z) (script : list Z) (readLen : Z)
    (w : world) : option (loop_exit * world) :=
  if readLen <? to_uint32 len then
    match script with
    | [] => None
    | ret :: script' =>
      let w := returned (mbedtls_ssl_read p (buffer + readLen)
                           (to_uint32 (len - readLen))) ret script' w in
      if 0 <? ret then
        read_loop p buffer len script' (to_uint32 (readLen + ret))
          (set_net_status 0 w)
      else if ret =? 0 then
        Some (Returns (to_int (if net_status w =? -2
                               then to_uint32 (net_status w)
                               else readLen)), w)
      else if MBEDTLS_ERR_SSL_PEER_CLOSE_NOTIFY =? ret then
        Some (Falls readLen, set_net_status (-2) w)
      else if (MBEDTLS_ERR_SSL_TIMEOUT =? ret)
              || (MBEDTLS_ERR_SSL_CONN_EOF =? ret)
              || (MBEDTLS_ERR_SSL_SESSION_TICKET_EXPIRED =? ret)
              || (MBEDTLS_ERR_SSL_NON_FATAL =? ret)
      then Some (Returns (to_int readLen), w)
      else Some (Returns (-1), set_net_status (-1) w)
    end
  else Some (Falls readLen, w).

Definition _network_ssl_read (pTlsData buffer len timeout_ms : Z) : M Z :=
  emit (mbedtls_ssl_conf_read_timeout pTlsData timeout_ms) ;;;
  x <- (fun w => read_loop pTlsData buffer len (answers w) 0 w) ;;
  match x with
  | Returns v => Return v
  | Falls readLen =>
    fun w => Some (to_int (if 0 <? readLen then readLen
                           else to_uint32 (net_status w)), w)
  end.

(** The [while (writtenLen < len)] loop of [_network_ssl_write]. *)
Fixpoint write_loop (p buffer len : Z) (script : list Z) (writtenLen : Z)
    (w : world) : option (loop_exit * world) :=
  if writtenLen <? to_uint32 len then
    match script with
    | [] => None
    | ret :: script' =>
      let w := returned (mbedtls_ssl_write p (buffer + writtenLen)
                           (to_uint32 (len - writtenLen))) ret script' w in
      if 0 <? ret then
        write_loop p buffer len script' (to_uint32 (writtenLen + ret)) w
      else if ret =? 0 then Some (Returns 0, w)
      else Some (Returns (-1), w)
    end
  else Some (Falls writtenLen, w).

(** [timeout_ms] is a parameter the body never reads. *)
Definition _network_ssl_write (pTlsData buffer len timeout_ms : Z) : M Z :=
  x <- (fun w => write_loop pTlsData buffer len (answers w) 0 w) ;;
  match x with
  | Returns v => Return v
  | Falls writtenLen => Return (to_int writtenLen)
  end.

Definition _network_ssl_disconnect (pTlsData : Z) : M unit :=
  emit (mbedtls_ssl_close_notify pTlsData) ;;;
  emit (mbedtls_net_free pTlsData) ;;;
  emit (mbedtls_ssl_free pTlsData) ;;;
  emit (mbedtls_ssl_config_free pTlsData).

Definition HAL_iTLS_Establish (host : string) (port : Z)
    (product_key : string) : M Z :=
  pTlsData <- ask HAL_Malloc ;;
  if NULL =? pTlsData then Return NULL
  else
    emit (memset pTlsData 0) ;;;
    let port_str := sprintf_u port in
    r <- _TLSConnectNetwork pTlsData host port_str product_key ;;
    if negb (0 =? r) then
      emit (HAL_Free pTlsData) ;;;
      Return NULL
    else Return pTlsData.

Definition HAL_iTLS_Destroy (handle : Z) : M Z :=
  if NULL =? handle then Return 0
  else
    _network_ssl_disconnect handle ;;;
    emit (HAL_Free handle) ;;;
    Return 0.

Definition HAL_iTLS_Write (handle buf len timeout_ms : Z) : M Z :=
  r <- _network_ssl_write handle buf len timeout_ms ;;
  Return (to_int r).

Definition HAL_iTLS_Read (handle buf len timeout_ms : Z) : M Z :=
  r <- _network_ssl_read handle buf len timeout_ms ;;
  Return (to_int r).

End Adapter.

(** ** The random-number callback *)

(** [unsigned char] / [uint8_t] conversion. *)
Definition to_uint8 (z : Z) : Z := z mod 2 ^ 8.

(** [*(output + i) = v]: undefined outside the buffer. *)
Fixpoint store (output : list Z) (i : nat) (v : Z) : option (list Z) :=
  match output, i with
  | [], _ => None
  | _ :: rest, O => Some (v :: rest)
  | b :: rest, S i' =>
    match store rest i' v with
    | Some rest' => Some (b :: rest')
    | None => None
    end
  end.

(** [_avRandom]: [((unsigned int)rand() << 16) + rand()].  [rands] are the
    values the successive calls of [rand] return.  C leaves the order of
    the two calls open; [shifted_first] says whether the call whose value
    is shifted is made first. *)
Definition _avRandom (shifted_first : bool) (rands : list Z)
  : option (Z * list Z) :=
  match rands with
  | r1 :: r2 :: rest =>
    let hi := if shifted_first then r1 else r2 in
    let lo := if shifted_first then r2 else r1 in
    Some (to_uint32 (Z.shiftl (to_uint32 hi) 16 + lo), rest)
  | _ => None
  end.

(** The loop [while (rnglen > 0) { ...; rngoffset++; rnglen--; }] of
    [_ssl_random]: [rnglen] counts down to 0, [rngoffset] is a
    [uint8_t]. *)
Fixpoint ssl_random_loop (shifted_first : bool) (rnglen : nat)
    (rngoffset : Z) (rands : list Z) (output : list Z)
  : option (list Z * list Z) :=
  match rnglen with
  | O => Some (output, rands)
  | S rnglen' =>
    match _avRandom shifted_first rands with
    | None => None
    | Some (v, rands') =>
      match store output (Z.to_nat rngoffset) (to_uint8 v) with
      | None => None
      | Some output' =>
        ssl_random_loop shifted_first rnglen' (to_uint8 (rngoffset + 1))
          rands' output'
      end
    end
  end.

(** [_ssl_random(p_rng, output, output_len)]: the result, the buffer and
    the values of [rand] left.  [p_rng] is not used. *)
Definition _ssl_random (shifted_first : bool) (rands : list Z)
    (output : list Z) (output_len : Z) : option (Z * list Z * list Z) :=
  match ssl_random_loop shifted_first (Z.to_nat (to_uint32 output_len)) 0
          rands output with
  | Some (output', rands') => Some (0, output', rands')
  | None => None
  end.

(** ** Vocabulary of the statements *)

(** The codes of mbedTLS 2.x ([ssl.h], [net_sockets.h]), from which the
    iTLS headers derive; they instantiate [itls_codes] in the examples. *)
Definition mbedtls_codes : itls_codes :=
  {| MBEDTLS_ERR_SSL_PEER_CLOSE_NOTIFY := -0x7880;
     MBEDTLS_ERR_SSL_TIMEOUT := -0x6800;
     MBEDTLS_ERR_SSL_CONN_EOF := -0x7280;
     MBEDTLS_ERR_SSL_SESSION_TICKET_EXPIRED := -0x6D80;
     MBEDTLS_ERR_SSL_NON_FATAL := -0x6680;
     MBEDTLS_ERR_SSL_WANT_READ := -0x6900;
     MBEDTLS_ERR_SSL_WANT_WRITE := -0x6880;
     MBEDTLS_ERR_NET_SOCKET_FAILED := -0x0042;
     MBEDTLS_ERR_NET_CONNECT_FAILED := -0x0044;
     MBEDTLS_ERR_NET_UNKNOWN_HOST := -0x0052;
     codes_negative := ltac:(repeat constructor; unfold INT_MIN; lia);
     read_codes_distinct := ltac:(repeat constructor; simpl; intuition lia);
     net_codes_distinct := ltac:(repeat constructor; simpl; intuition lia) |}.

(** The value a run returns, when it is defined. *)
Definition value {A : Type} (o : option (A * world)) : option A :=
  option_map fst o.

(** Sum of the byte counts of a sequence of partial transfers. *)
Fixpoint total (l : list Z) : Z :=
  match l with
  | [] => 0
  | x :: l' => x + total l'
  end.

(** The library kept its contract at this call: [mbedtls_ssl_read] and
    [mbedtls_ssl_write] never report more bytes than were requested. *)
Definition within_request (e : event) : Prop :=
  match e with
  | Ret (mbedtls_ssl_read _ _ n) r => r <= n
  | Ret (mbedtls_ssl_write _ _ n) r => r <= n
  | _ => True
  end.

(** Bytes the library accepted over a stretch of the trace: the sum of the
    positive results of [mbedtls_ssl_write]. *)
Fixpoint bytes_written (evs : list event) : Z :=
  match evs with
  | [] => 0
  | Ret (mbedtls_ssl_write _ _ _) r :: evs' =>
    (if 0 <? r then r else 0) + bytes_written evs'
  | _ :: evs' => bytes_written evs'
  end.

(** The timeout a call hands to the library or to the socket layer. *)
Definition timeout_argument (c : call) : option Z :=
  match c with
  | mbedtls_ssl_conf_read_timeout _ t => Some t
  | setsockopt_SO_SNDTIMEO _ sec _ => Some sec
  | _ => None
  end.

Definition is_ssl_read (p : Z) (e : event) : Prop :=
  match e with
  | Ret (mbedtls_ssl_read q _ _) _ => q = p
  | _ => False
  end.

(** The trace of successive transfers of [chunks] bytes through [io]
    (either [mbedtls_ssl_read p] or [mbedtls_ssl_write p]), starting with
    [done] bytes already transferred out of [len]. *)
Fixpoint chunk_events (io : Z -> Z -> call) (buffer len done : Z)
    (chunks : list Z) : list event :=
  match chunks with
  | [] => []
  | c :: cs =>
    Ret (io (buffer + done) (len - done)) c
      :: chunk_events io buffer len (done + c) cs
  end.

(** [net_status] holds one of the values the source assigns to it: its
    initial 0, -1 (connection error) or -2 (connection closed). *)
Definition status_ok (ns : Z) : Prop := ns = 0 \/ ns = -1 \/ ns = -2.

Definition is_ssl_write (p : Z) (e : event) : Prop :=
  match e with
  | Ret (mbedtls_ssl_write q _ _) _ => q = p
  | _ => False
  end.

(** The trace a run ends with ([[]] when the run is undefined). *)
Definition events_of {A : Type} (o : option (A * world)) : list event :=
  match o with
  | Some (_, w') => trace w'
  | None => []
  end.

(** *** Resources held after a stretch of the trace

    A block is held from the [HAL_Malloc] that returned it to its
    [HAL_Free]; a context is held from its [mbedtls_*_init] to its
    [mbedtls_*_free]. *)
Inductive resource : Set :=
| Block (p : Z)
| SslContext (p : Z)
| NetContext (p : Z)
| ConfigContext (p : Z).

Definition resource_eqb (a b : resource) : bool :=
  match a, b with
  | Block p, Block q => p =? q
  | SslContext p, SslContext q => p =? q
  | NetContext p, NetContext q => p =? q
  | ConfigContext p, ConfigContext q => p =? q
  | _, _ => false
  end.

Definition release (r : resource) (held : list resource) : list resource :=
  filter (fun x => negb (resource_eqb r x)) held.

Definition hold_step (held : list resource) (e : event) : list resource :=
  match e with
  | Ret HAL_Malloc p => if NULL =? p then held else Block p :: held
  | Void (HAL_Free p) => release (Block p) held
  | Void (mbedtls_ssl_init p) => SslContext p :: held
  | Void (mbedtls_net_init p) => NetContext p :: held
  | Void (mbedtls_ssl_config_init p) => ConfigContext p :: held
  | Void (mbedtls_ssl_free p) => release (SslContext p) held
  | Void (mbedtls_net_free p) => release (NetContext p) held
  | Void (mbedtls_ssl_config_free p) => release (ConfigContext p) held
  | _ => held
  end.

Definition held_after (evs : list event) : list resource :=
  fold_left hold_step evs [].

(** *** Outcomes of trying one resolved address without connecting *)

Inductive failed_attempt : Set :=
| socket_failed (fd : Z)
| connect_failed (fd so c : Z).

Definition failed_attempt_ok (t : failed_attempt) : Prop :=
  match t with
  | socket_failed fd => fd < 0
  | connect_failed fd _ c => 0 <= fd /\ c <> 0
  end.

(** What [socket], [setsockopt] and [connect] answer in the attempt. *)
Definition attempt_answers (t : failed_attempt) : list Z :=
  match t with
  | socket_failed fd => [fd]
  | connect_failed fd so c => [fd; so; c]
  end.

Definition attempt_fd (t : failed_attempt) : Z :=
  match t with
  | socket_failed fd => fd
  | connect_failed fd _ _ => fd
  end.

Definition attempt_events (timeout : Z) (a : addrinfo) (t : failed_attempt)
  : list event :=
  match t with
  | socket_failed fd =>
    [Ret (socket (ai_family a) (ai_socktype a) (ai_protocol a)) fd]
  | connect_failed fd so c =>
    [Ret (socket (ai_family a) (ai_socktype a) (ai_protocol a)) fd;
     Ret (setsockopt_SO_SNDTIMEO fd timeout 0) so;
     Ret (connect fd (ai_addr a)) c;
     Void (close fd)]
  end.

(** Events of the failed attempts [ts] on the addresses [addrs], in order. *)
Fixpoint attempts_events (timeout : Z) (addrs : list addrinfo)
    (ts : list failed_attempt) : list event :=
  match addrs, ts with
  | a :: addrs', t :: ts' =>
    attempt_events timeout a t ++ attempts_events timeout addrs' ts'
  | _, _ => []
  end.

(** *** The connect step and the set-up of the TLS context *)

(** The value [ret] takes when the attempt [t] on an address fails. *)
Definition attempt_error {codes : itls_codes} (t : failed_attempt) : Z :=
  match t with
  | socket_failed _ => MBEDTLS_ERR_NET_SOCKET_FAILED
  | connect_failed _ _ _ => MBEDTLS_ERR_NET_CONNECT_FAILED
  end.

(** The value of [ret] after the failed attempts [ts], [ret0] before them:
    the error of the last attempt. *)
Definition last_error {codes : itls_codes} (ts : list failed_attempt)
    (ret0 : Z) : Z :=
  last (map attempt_error ts) ret0.

(** The stores into [ctx->fd] made by the attempts [ts], latest first. *)
Definition stored_fds (ctx : Z) (ts : list failed_attempt) : list (Z * Z) :=
  rev (map (fun t => (ctx, attempt_fd t)) ts).

(** Calls of the connect step: the socket interface on Linux,
    [mbedtls_net_connect] elsewhere. *)
Definition connect_event (e : event) : Prop :=
  match call_of e with
  | signal_SIGPIPE_SIG_IGN | getaddrinfo _ _ _ _ _ | freeaddrinfo
  | socket _ _ _ | setsockopt_SO_SNDTIMEO _ _ _ | connect _ _ | close _
  | mbedtls_net_connect _ _ _ _ => True
  | _ => False
  end.

(** Calls that configure the TLS context between connect and handshake. *)
Definition setup_event (e : event) : Prop :=
  match call_of e with
  | mbedtls_ssl_config_defaults _ | mbedtls_ssl_conf_max_version _ _ _
  | mbedtls_ssl_conf_min_version _ _ _ | mbedtls_ssl_conf_rng _
  | mbedtls_ssl_conf_dbg _ | mbedtls_ssl_conf_auth_extra _ _ _
  | mbedtls_ssl_setup _ | mbedtls_ssl_set_bio _ => True
  | _ => False
  end.

Definition is_handshake (p : Z) (e : event) : Prop :=
  match e with
  | Ret (mbedtls_ssl_handshake q) _ => q = p
  | _ => False
  end.

(** The three initialisations [_TLSConnectNetwork] starts with and the
    three releases after its label [_out]. *)
Definition init_events (p : Z) : list event :=
  [Void (mbedtls_ssl_init p); Void (mbedtls_net_init p);
   Void (mbedtls_ssl_config_init p)].

Definition cleanup_events (p : Z) : list event :=
  [Void (mbedtls_net_free p); Void (mbedtls_ssl_free p);
   Void (mbedtls_ssl_config_free p)].

Definition is_handshake_call (e : event) : Prop :=
  match call_of e with
  | mbedtls_ssl_handshake _ => True
  | _ => False
  end.

(** A call that hands a context back to the library. *)
Definition context_free_call (e : event) : bool :=
  match call_of e with
  | mbedtls_net_free _ | mbedtls_ssl_free _ | mbedtls_ssl_config_free _ => true
  | _ => false
  end.

(** The world in which [_TLSConnectNetwork] starts its connect step: the
    block [p] was allocated and cleared and the three contexts in it were
    initialised; [ans] are the answers left. *)
Definition after_init (w : world) (p : Z) (ans : list Z) : world :=
  mk_world (net_status w) ans (resolver w) (ctx_fd w)
    (trace w ++ [Ret HAL_Malloc p; Void (memset p 0)] ++ init_events p).

(** *** Concrete worlds for the examples *)

(** A world in which nothing has happened yet: [net_status] has its
    initial value 0, the trace is empty, and the external calls will
    answer [ans]; [addrs] is what the resolver knows. *)
Definition initial_world (ans : list Z) (addrs : list addrinfo) : world :=
  mk_world 0 ans (fun _ _ => addrs) [] [].

Definition addr_v4 : addrinfo :=
  mk_addrinfo AF_INET SOCK_STREAM IPPROTO_TCP "192.0.2.1".
Definition addr_v6 : addrinfo :=
  mk_addrinfo AF_INET6 SOCK_STREAM IPPROTO_TCP "2001:db8::1".

(** The calls of an establish on Linux whose only resolved address
    refuses the connection. *)
Definition refused_connect_events : list event :=
  [Ret HAL_Malloc 4096; Void (memset 4096 0);
   Void (mbedtls_ssl_init 4096); Void (mbedtls_net_init 4096);
   Void (mbedtls_ssl_config_init 4096);
   Void signal_SIGPIPE_SIG_IGN;
   Ret (getaddrinfo "iot.example.com" "443" AF_UNSPEC SOCK_STREAM IPPROTO_TCP) 0;
   Ret (socket AF_INET SOCK_STREAM IPPROTO_TCP) 5;
   Ret (setsockopt_SO_SNDTIMEO 5 10 0) 0;
   Ret (connect 5 "192.0.2.1") (-1);
   Void (close 5);
   Void freeaddrinfo;
   Void (HAL_Free 4096)].

(** The calls of an establish outside Linux whose handshake asks once to
    be called again and then succeeds. *)
Definition successful_establish_events : list event :=
  [Ret HAL_Malloc 4096; Void (memset 4096 0);
   Void (mbedtls_ssl_init 4096); Void (mbedtls_net_init 4096);
   Void (mbedtls_ssl_config_init 4096);
   Ret (mbedtls_net_connect 4096 "iot.example.com" "443" MBEDTLS_NET_PROTO_TCP) 0;
   Ret (mbedtls_ssl_config_defaults 4096) 0;
   Void (mbedtls_ssl_conf_max_version 4096 3 3);
   Void (mbedtls_ssl_conf_min_version 4096 3 3);
   Void (mbedtls_ssl_conf_rng 4096); Void (mbedtls_ssl_conf_dbg 4096);
   Ret (mbedtls_ssl_conf_auth_extra 4096 "a1AbCdEfGhI" 11) 0;
   Ret (mbedtls_ssl_setup 4096) 0; Void (mbedtls_ssl_set_bio 4096);
   Ret (mbedtls_ssl_handshake 4096) (@MBEDTLS_ERR_SSL_WANT_READ mbedtls_codes);
   Ret (mbedtls_ssl_handshake 4096) 0].

(** *** Vocabulary of the further properties *)

(** The value of [rand] that reaches byte [i] of the output when no
    offset is used twice: the one that is not shifted, of the [i]-th pair. *)
Definition unshifted (shifted_first : bool) (rands : list Z) (i : nat) : Z :=
  nth (2 * i + (if shifted_first then 1 else 0)) rands 0.

(** *** Sockets open after a stretch of the trace

    A descriptor is open from the [socket] call that returned it (when it
    is not negative) to its [close]. *)
Fixpoint remove_one (fd : Z) (l : list Z) : list Z :=
  match l with
  | [] => []
  | x :: l' => if x =? fd then l' else x :: remove_one fd l'
  end.

Definition socket_step (opened : list Z) (e : event) : list Z :=
  match e with
  | Ret (socket _ _ _) fd => if fd <? 0 then opened else fd :: opened
  | Void (close fd) => remove_one fd opened
  | _ => opened
  end.

Definition open_sockets (opened : list Z) (evs : list event) : list Z :=
  fold_left socket_step evs opened.

(** Calls made while trying one address. *)
Definition attempt_event (e : event) : Prop :=
  match call_of e with
  | socket _ _ _ | setsockopt_SO_SNDTIMEO _ _ _ | connect _ _ | close _ => True
  | _ => False
  end.

(** Bytes the library delivered over a stretch of the trace: the sum of
    the positive results of [mbedtls_ssl_read]. *)
Fixpoint bytes_read (evs : list event) : Z :=
  match evs with
  | [] => 0
  | Ret (mbedtls_ssl_read _ _ _) r :: evs' =>
    (if 0 <? r then r else 0) + bytes_read evs'
  | _ :: evs' => bytes_read evs'
  end.

(** A transfer is asked to stay inside the caller's buffer of [len] bytes
    at [buf]: it starts inside it and ends exactly at its end. *)
Definition inside_buffer (buf len : Z) (e : event) : Prop :=
  match e with
  | Ret (mbedtls_ssl_read _ b n) _ => buf <= b /\ 0 < n /\ b + n = buf + len
  | Ret (mbedtls_ssl_write _ b n) _ => buf <= b /\ 0 < n /\ b + n = buf + len
  | _ => True
  end.

(** The handshake asks to be called again. *)
Definition is_want {codes : itls_codes} (c : Z) : Prop :=
  c = MBEDTLS_ERR_SSL_WANT_READ \/ c = MBEDTLS_ERR_SSL_WANT_WRITE.

(** Successive calls of [mbedtls_ssl_handshake] returning [rets]. *)
Definition handshake_events (p : Z) (rets : list Z) : list event :=
  map (fun c => Ret (mbedtls_ssl_handshake p) c) rets.

(** The set-up of the TLS context when every step of it succeeds. *)
Definition setup_events (p : Z) (product_key : string) : list event :=
  [Ret (mbedtls_ssl_config_defaults p) 0;
   Void (mbedtls_ssl_conf_max_version p MBEDTLS_SSL_MAJOR_VERSION_3
           MBEDTLS_SSL_MINOR_VERSION_3);
   Void (mbedtls_ssl_conf_min_version p MBEDTLS_SSL_MAJOR_VERSION_3
           MBEDTLS_SSL_MINOR_VERSION_3);
   Void (mbedtls_ssl_conf_rng p); Void (mbedtls_ssl_conf_dbg p);
   Ret (mbedtls_ssl_conf_auth_extra p product_key (strlen product_key)) 0;
   Ret (mbedtls_ssl_setup p) 0; Void (mbedtls_ssl_set_bio p)].

(** The calls of a destroy on a non-null handle. *)
Definition destroy_events (p : Z) : list event :=
  [Void (mbedtls_ssl_close_notify p); Void (mbedtls_net_free p);
   Void (mbedtls_ssl_free p); Void (mbedtls_ssl_config_free p);
   Void (HAL_Free p)].

(** * Proofs *)

Ltac world_simpl :=
  unfold returned, called, set_net_status, set_ctx_fd;
  cbn [net_status answers resolver ctx_fd trace].

(** Side conditions of the examples. *)
Ltac side :=
  first [ unfold INT_MAX; simpl; lia | repeat constructor | discriminate ].

Ltac world_eq :=
  repeat (world_simpl; try change (0 =? 0) with true; cbv beta iota);
  rewrite <- ?app_assoc; cbn [app]; reflexivity.

Tactic Notation "world_simpl" "in" hyp(H) :=
  unfold returned, called, set_net_status, set_ctx_fd in H;
  cbn [net_status answers resolver ctx_fd trace] in H.

(** ** Machine integers and sums *)

Lemma to_uint32_small (z : Z) : 0 <= z < 2 ^ 32 -> to_uint32 z = z.
Proof. intros H. unfold to_uint32. apply Z.mod_small. exact H. Qed.

Lemma to_int_small (z : Z) : INT_MIN <= z <= INT_MAX -> to_int z = z.
Proof.
  unfold to_int, INT_MIN, INT_MAX. intros H.
  rewrite Z.mod_small by lia. lia.
Qed.

Lemma to_int_to_uint32 (z : Z) : to_int (to_uint32 z) = to_int z.
Proof.
  unfold to_int, to_uint32.
  rewrite Zplus_mod_idemp_l. reflexivity.
Qed.

Lemma total_pos_nonneg (l : list Z) : Forall (fun c => 0 < c) l -> 0 <= total l.
Proof. induction 1; simpl; lia. Qed.

Lemma total_pos_cons (l : list Z) :
  Forall (fun c => 0 < c) l -> l <> [] -> 0 < total l.
Proof.
  intros H Hne. destruct H as [|x l Hx Hl]; [congruence|].
  simpl. pose proof (total_pos_nonneg l Hl). lia.
Qed.

(** ** The read and write loops *)

Section ReadWrite.
Context {codes : itls_codes}.

Lemma code_facts :
  MBEDTLS_ERR_SSL_PEER_CLOSE_NOTIFY < 0 /\ MBEDTLS_ERR_SSL_TIMEOUT < 0 /\
  MBEDTLS_ERR_SSL_CONN_EOF < 0 /\ MBEDTLS_ERR_SSL_SESSION_TICKET_EXPIRED < 0 /\
  MBEDTLS_ERR_SSL_NON_FATAL < 0 /\
  MBEDTLS_ERR_SSL_PEER_CLOSE_NOTIFY <> MBEDTLS_ERR_SSL_TIMEOUT /\
  MBEDTLS_ERR_SSL_PEER_CLOSE_NOTIFY <> MBEDTLS_ERR_SSL_CONN_EOF /\
  MBEDTLS_ERR_SSL_PEER_CLOSE_NOTIFY <> MBEDTLS_ERR_SSL_SESSION_TICKET_EXPIRED /\
  MBEDTLS_ERR_SSL_PEER_CLOSE_NOTIFY <> MBEDTLS_ERR_SSL_NON_FATAL.
Proof.
  pose proof codes_negative as N. pose proof read_codes_distinct as D.
  repeat match goal with H : Forall _ (_ :: _) |- _ => inversion H; clear H; subst end.
  inversion D as [|? ? Hn _]; subst. simpl in Hn.
  repeat split; try lia; intro E; apply Hn; rewrite E; auto.
Qed.

(** Reading a run of partial transfers. *)
Lemma read_loop_chunks (p buffer len : Z) :
  0 <= len <= INT_MAX ->
  forall (chunks rest : list Z) (readLen : Z) (w : world),
    0 <= readLen ->
    Forall (fun c => 0 < c) chunks ->
    readLen + total chunks <= len ->
    exists w',
      read_loop p buffer len (chunks ++ rest) readLen w
      = read_loop p buffer len rest (readLen + total chunks) w'
      /\ net_status w' = (match chunks with [] => net_status w | _ => 0 end)
      /\ answers w' = (match chunks with [] => answers w | _ => rest end)
      /\ trace w'
         = trace w ++ chunk_events (mbedtls_ssl_read p) buffer len readLen chunks
      /\ resolver w' = resolver w /\ ctx_fd w' = ctx_fd w.
Proof.
  intros Hlen chunks. induction chunks as [|c cs IH]; intros rest readLen w Hr Hpos Hsum.
  - exists w. simpl. rewrite Z.add_0_r, app_nil_r. repeat split; reflexivity.
  - inversion Hpos as [|? ? Hc Hcs]; subst. simpl in Hsum.
    pose proof (total_pos_nonneg cs Hcs) as Hnn.
    unfold INT_MAX in Hlen.
    destruct (IH rest (readLen + c)
                (set_net_status 0
                   (returned (mbedtls_ssl_read p (buffer + readLen) (len - readLen))
                      c (cs ++ rest) w)))
      as (w' & Heq & Hns & Hans & Htr & Hres & Hfd); try lia; try assumption.
    exists w'. simpl.
    rewrite (to_uint32_small len) by lia.
    replace (readLen <? len) with true by (symmetry; apply Z.ltb_lt; lia).
    replace (0 <? c) with true by (symmetry; apply Z.ltb_lt; lia).
    rewrite (to_uint32_small (len - readLen)) by lia.
    rewrite (to_uint32_small (readLen + c)) by lia.
    rewrite Heq, Z.add_assoc. split; [reflexivity|].
    split; [destruct cs; exact Hns|].
    split; [destruct cs; [exact Hans | exact Hans]|].
    split; [rewrite Htr; simpl; rewrite <- app_assoc; reflexivity|].
    split; assumption.
Qed.


Lemma read_loop_step (p buffer len r : Z) (rest : list Z) (readLen : Z) (w : world) :
  0 <= readLen < len -> len <= INT_MAX ->
  read_loop p buffer len (r :: rest) readLen w
  = let w1 := returned (mbedtls_ssl_read p (buffer + readLen) (len - readLen)) r rest w in
    if 0 <? r then
      read_loop p buffer len rest (to_uint32 (readLen + r)) (set_net_status 0 w1)
    else if r =? 0 then
      Some (Returns (to_int (if net_status w1 =? -2 then to_uint32 (net_status w1)
                             else readLen)), w1)
    else if MBEDTLS_ERR_SSL_PEER_CLOSE_NOTIFY =? r then
      Some (Falls readLen, set_net_status (-2) w1)
    else if (MBEDTLS_ERR_SSL_TIMEOUT =? r)
            || (MBEDTLS_ERR_SSL_CONN_EOF =? r)
            || (MBEDTLS_ERR_SSL_SESSION_TICKET_EXPIRED =? r)
            || (MBEDTLS_ERR_SSL_NON_FATAL =? r)
    then Some (Returns (to_int readLen), w1)
    else Some (Returns (-1), set_net_status (-1) w1).
Proof.
  unfold INT_MAX. intros H1 H2. simpl.
  rewrite (to_uint32_small len) by lia.
  rewrite (to_uint32_small (len - readLen)) by lia.
  replace (readLen <? len) with true by (symmetry; apply Z.ltb_lt; lia).
  reflexivity.
Qed.

Lemma read_loop_full (p buffer len : Z) (script : list Z) (readLen : Z) (w : world) :
  0 <= len <= INT_MAX -> len <= readLen ->
  read_loop p buffer len script readLen w = Some (Falls readLen, w).
Proof.
  unfold INT_MAX. intros H1 H2.
  destruct script; simpl; rewrite (to_uint32_small len) by lia;
    replace (readLen <? len) with false by (symmetry; apply Z.ltb_ge; lia);
    reflexivity.
Qed.

(** C1 (amended).  For [0 < len <= INT_MAX], when the library first
    delivers the positive byte counts [chunks] (at most [len] bytes in all)
    and then answers [r], [HAL_iTLS_Read] returns:
    - [len] when the buffer was filled;
    - the bytes read so far, [total chunks], when [r] is 0 or one of
      TIMEOUT, CONN_EOF, SESSION_TICKET_EXPIRED, NON_FATAL (so 0 on a
      timeout with no data), and also when [r] is PEER_CLOSE_NOTIFY and
      some byte was read: the close is then only recorded;
    - -2 when no byte was read and [r] is PEER_CLOSE_NOTIFY, or [r] is 0
      and a close was recorded before ([net_status = -2]);
    - -1 when [r] is any other negative code, whatever was read before. *)
Theorem HAL_iTLS_Read_outcomes
    (handle buf len timeout_ms : Z) (w : world) (chunks rest : list Z) :
  0 < len <= INT_MAX ->
  Forall (fun c => 0 < c) chunks ->
  total chunks <= len ->
  answers w = chunks ++ rest ->
  (total chunks = len ->
   value (HAL_iTLS_Read handle buf len timeout_ms w) = Some len)
  /\ (total chunks < len -> forall r rest', rest = r :: rest' ->
      (r = 0 ->
       value (HAL_iTLS_Read handle buf len timeout_ms w)
       = Some (if (total chunks =? 0) && (net_status w =? -2) then -2
               else total chunks))
      /\ (r = MBEDTLS_ERR_SSL_PEER_CLOSE_NOTIFY ->
          value (HAL_iTLS_Read handle buf len timeout_ms w)
          = Some (if total chunks =? 0 then -2 else total chunks))
      /\ (r = MBEDTLS_ERR_SSL_TIMEOUT \/ r = MBEDTLS_ERR_SSL_CONN_EOF
          \/ r = MBEDTLS_ERR_SSL_SESSION_TICKET_EXPIRED
          \/ r = MBEDTLS_ERR_SSL_NON_FATAL ->
          value (HAL_iTLS_Read handle buf len timeout_ms w)
          = Some (total chunks))
      /\ (r < 0 -> r <> MBEDTLS_ERR_SSL_PEER_CLOSE_NOTIFY ->
          r <> MBEDTLS_ERR_SSL_TIMEOUT -> r <> MBEDTLS_ERR_SSL_CONN_EOF ->
          r <> MBEDTLS_ERR_SSL_SESSION_TICKET_EXPIRED ->
          r <> MBEDTLS_ERR_SSL_NON_FATAL ->
          value (HAL_iTLS_Read handle buf len timeout_ms w) = Some (-1))).
Proof.
  intros Hlen Hpos Hsum Hans.
  pose proof (total_pos_nonneg chunks Hpos) as Hnn.
  pose proof code_facts as (Npc & Nto & Neof & Ntk & Nnf & D1 & D2 & D3 & D4).
  assert (Hlen' : 0 <= len <= INT_MAX) by lia.
  destruct (read_loop_chunks handle buf len Hlen' chunks rest 0
              (called (mbedtls_ssl_conf_read_timeout handle timeout_ms) w))
    as (w' & Heq & Hns & _ & _); try lia; try assumption.
  assert (Hrun : forall x w2,
            read_loop handle buf len rest (total chunks) w' = Some (x, w2) ->
            value (HAL_iTLS_Read handle buf len timeout_ms w)
            = Some (to_int (match x with
                            | Returns v => v
                            | Falls readLen =>
                              to_int (if 0 <? readLen then readLen
                                      else to_uint32 (net_status w2))
                            end))).
  { intros x w2 Hx. unfold HAL_iTLS_Read, _network_ssl_read, bind, emit, value.
    cbn [answers called]. rewrite Hans, Heq. cbn [Z.add]. rewrite Hx.
    destruct x; reflexivity. }
  unfold INT_MAX in *.
  split.
  - intros Hfull. erewrite Hrun by (apply read_loop_full; unfold INT_MAX; lia). cbv beta iota.
    replace (0 <? total chunks) with true by (symmetry; apply Z.ltb_lt; lia).
    rewrite !(to_int_small (total chunks)) by (unfold INT_MIN, INT_MAX; lia). congruence.
  - intros Hlt r rest' ->.
    pose proof (read_loop_step handle buf len r rest' (total chunks) w') as Hstep.
    cbv zeta in Hstep. rewrite Hstep in Hrun by (unfold INT_MAX; lia). clear Hstep.
    cbn [net_status returned set_net_status] in Hrun.
    repeat split.
    + intros ->. cbn [Z.ltb Z.eqb Z.compare] in Hrun.
      erewrite Hrun by reflexivity. cbv beta iota.
      destruct chunks as [|c cs].
      * cbn [total Z.eqb andb]. rewrite Hns. cbn [net_status called].
        destruct (net_status w =? -2) eqn:E.
        -- apply Z.eqb_eq in E. rewrite E. reflexivity.
        -- reflexivity.
      * rewrite Hns. cbn [Z.eqb].
        assert (0 < total (c :: cs)) by (apply total_pos_cons; [assumption|discriminate]).
        replace (total (c :: cs) =? 0) with false by (symmetry; apply Z.eqb_neq; lia).
        cbn [andb]. rewrite !(to_int_small (total (c :: cs))) by (unfold INT_MIN, INT_MAX; lia). reflexivity.
    + intros ->.
      replace (0 <? MBEDTLS_ERR_SSL_PEER_CLOSE_NOTIFY) with false in Hrun
        by (symmetry; apply Z.ltb_ge; lia).
      replace (MBEDTLS_ERR_SSL_PEER_CLOSE_NOTIFY =? 0) with false in Hrun
        by (symmetry; apply Z.eqb_neq; lia).
      rewrite Z.eqb_refl in Hrun. erewrite Hrun by reflexivity. cbv beta iota.
      cbn [net_status set_net_status].
      destruct (total chunks =? 0) eqn:E.
      * apply Z.eqb_eq in E. rewrite E. reflexivity.
      * apply Z.eqb_neq in E.
        replace (0 <? total chunks) with true by (symmetry; apply Z.ltb_lt; lia).
        rewrite !(to_int_small (total chunks)) by (unfold INT_MIN, INT_MAX; lia). reflexivity.
    + intros Hr.
      assert (Hneg : r < 0) by (destruct Hr as [ -> | [ -> | [ -> | -> ] ] ]; lia).
      assert (Hnpc : MBEDTLS_ERR_SSL_PEER_CLOSE_NOTIFY <> r)
        by (destruct Hr as [ -> | [ -> | [ -> | -> ] ] ]; assumption).
      replace (0 <? r) with false in Hrun by (symmetry; apply Z.ltb_ge; lia).
      replace (r =? 0) with false in Hrun by (symmetry; apply Z.eqb_neq; lia).
      replace (MBEDTLS_ERR_SSL_PEER_CLOSE_NOTIFY =? r) with false in Hrun
        by (symmetry; apply Z.eqb_neq; assumption).
      replace ((MBEDTLS_ERR_SSL_TIMEOUT =? r) || (MBEDTLS_ERR_SSL_CONN_EOF =? r)
               || (MBEDTLS_ERR_SSL_SESSION_TICKET_EXPIRED =? r)
               || (MBEDTLS_ERR_SSL_NON_FATAL =? r)) with true in Hrun.
      2:{ symmetry. rewrite !orb_true_iff, !Z.eqb_eq. intuition congruence. }
      erewrite Hrun by reflexivity. cbv beta iota.
      rewrite !(to_int_small (total chunks)) by (unfold INT_MIN, INT_MAX; lia). reflexivity.
    + intros Hneg H1 H2 H3 H4 H5.
      replace (0 <? r) with false in Hrun by (symmetry; apply Z.ltb_ge; lia).
      replace (r =? 0) with false in Hrun by (symmetry; apply Z.eqb_neq; lia).
      replace (MBEDTLS_ERR_SSL_PEER_CLOSE_NOTIFY =? r) with false in Hrun
        by (symmetry; apply Z.eqb_neq; congruence).
      replace ((MBEDTLS_ERR_SSL_TIMEOUT =? r) || (MBEDTLS_ERR_SSL_CONN_EOF =? r)
               || (MBEDTLS_ERR_SSL_SESSION_TICKET_EXPIRED =? r)
               || (MBEDTLS_ERR_SSL_NON_FATAL =? r)) with false in Hrun.
      2:{ symmetry. rewrite !orb_false_iff, !Z.eqb_neq. intuition congruence. }
      erewrite Hrun by reflexivity. cbv beta iota. reflexivity.
Qed.



Lemma read_loop_sound (p buffer len : Z) :
  0 <= len <= INT_MAX ->
  forall (script : list Z) (readLen : Z) (w : world) x w',
    0 <= readLen <= len ->
    read_loop p buffer len script readLen w = Some (x, w') ->
    exists evs,
      trace w' = trace w ++ evs
      /\ Forall (is_ssl_read p) evs
      /\ (Forall within_request evs -> status_ok (net_status w) ->
          status_ok (net_status w')
          /\ match x with
             | Returns v =>
               0 <= v <= len \/ (v = net_status w' /\ (v = -1 \/ v = -2))
             | Falls c => 0 <= c <= len
             end).
Proof.
  intros Hlen script. unfold INT_MAX in Hlen.
  induction script as [|r script IH]; intros readLen w x w' Hr Hrun.
  - simpl in Hrun. rewrite (to_uint32_small len) in Hrun by lia.
    destruct (readLen <? len); [discriminate|].
    injection Hrun as <- <-. exists []. rewrite app_nil_r.
    split; [reflexivity|]. split; [constructor|]. intros _ Hs. split; [exact Hs|lia].
  - destruct (Z.lt_ge_cases readLen len) as [Hlt|Hge].
    2:{ rewrite read_loop_full in Hrun by (unfold INT_MAX; lia).
        injection Hrun as <- <-. exists []. rewrite app_nil_r.
        split; [reflexivity|]. split; [constructor|]. intros _ Hs. split; [exact Hs|lia]. }
    rewrite read_loop_step in Hrun by (unfold INT_MAX; lia). cbv zeta in Hrun.
    set (w1 := returned (mbedtls_ssl_read p (buffer + readLen) (len - readLen))
                 r script w) in *.
    set (e := Ret (mbedtls_ssl_read p (buffer + readLen) (len - readLen)) r).
    assert (Htr1 : trace w1 = trace w ++ [e]) by reflexivity.
    destruct (0 <? r) eqn:Hpos.
    + apply Z.ltb_lt in Hpos.
      destruct (Z.le_gt_cases r (len - readLen)) as [Hin|Hout].
      * rewrite (to_uint32_small (readLen + r)) in Hrun by lia.
        apply IH in Hrun; [|lia].
        destruct Hrun as (evs & Htr & Hrd & Hok).
        exists (e :: evs). split; [|split].
        -- rewrite Htr. cbn [trace set_net_status]. rewrite Htr1, <- app_assoc.
           reflexivity.
        -- constructor; [reflexivity|assumption].
        -- intros Hc _. inversion Hc; subst. apply Hok; [assumption|left; reflexivity].
      * (* the library reported more than requested: nothing is claimed *)
        assert (Hex : exists evs, trace w' = trace w1 ++ evs /\ Forall (is_ssl_read p) evs).
        { destruct (Z.lt_ge_cases (to_uint32 (readLen + r)) len) as [Hs|Hs].
          - assert (H0 : 0 <= to_uint32 (readLen + r)) by (apply Z.mod_pos_bound; lia).
            apply IH in Hrun; [|lia].
            destruct Hrun as (evs & Htr & Hrd & _). exists evs. split; assumption.
          - rewrite read_loop_full in Hrun by (unfold INT_MAX; lia).
            injection Hrun as <- <-. exists []. rewrite app_nil_r. split; [reflexivity|constructor]. }
        destruct Hex as (evs & Htr & Hrd).
        exists (e :: evs). split; [|split].
        -- rewrite Htr, Htr1, <- app_assoc. reflexivity.
        -- constructor; [reflexivity|assumption].
        -- intros Hc _. inversion Hc as [|? ? He _]; subst. simpl in He. lia.
    + apply Z.ltb_ge in Hpos.
      assert (Hone : forall y wy, Some (y, wy) = Some (x, w') ->
                trace wy = trace w1 ->
                (status_ok (net_status w) -> status_ok (net_status wy)
                   /\ match y with
                      | Returns v =>
                        0 <= v <= len \/ (v = net_status wy /\ (v = -1 \/ v = -2))
                      | Falls c => 0 <= c <= len
                      end) ->
                exists evs, trace w' = trace w ++ evs /\ Forall (is_ssl_read p) evs
                  /\ (Forall within_request evs -> status_ok (net_status w) ->
                      status_ok (net_status w')
                      /\ match x with
                         | Returns v =>
                           0 <= v <= len \/ (v = net_status w' /\ (v = -1 \/ v = -2))
                         | Falls c => 0 <= c <= len
                         end)).
      { intros y wy Hy Ht Hp. injection Hy as <- <-. exists [e].
        split; [rewrite Ht; exact Htr1|]. split; [repeat constructor|].
        intros _ Hs. apply Hp, Hs. }
      destruct (r =? 0).
      { eapply Hone; [exact Hrun|reflexivity|]. intros Hs. split; [exact Hs|].
        cbn [net_status w1 returned].
        destruct (net_status w =? -2) eqn:E.
        - apply Z.eqb_eq in E. right. rewrite E. split; [reflexivity|right; reflexivity].
        - left. rewrite to_int_small by (unfold INT_MIN, INT_MAX; lia). lia. }
      destruct (MBEDTLS_ERR_SSL_PEER_CLOSE_NOTIFY =? r).
      { eapply Hone; [exact Hrun|reflexivity|]. intros _.
        split; [right; right; reflexivity|lia]. }
      destruct ((MBEDTLS_ERR_SSL_TIMEOUT =? r) || (MBEDTLS_ERR_SSL_CONN_EOF =? r)
                || (MBEDTLS_ERR_SSL_SESSION_TICKET_EXPIRED =? r)
                || (MBEDTLS_ERR_SSL_NON_FATAL =? r)).
      { eapply Hone; [exact Hrun|reflexivity|]. intros Hs. split; [exact Hs|].
        left. rewrite to_int_small by (unfold INT_MIN, INT_MAX; lia). lia. }
      eapply Hone; [exact Hrun|reflexivity|]. intros _.
      split; [right; left; reflexivity|].
      right. split; [reflexivity|left; reflexivity].
Qed.


Lemma HAL_iTLS_Read_unfold (handle buf len timeout_ms : Z) (w : world) :
  HAL_iTLS_Read handle buf len timeout_ms w
  = match read_loop handle buf len (answers w) 0
            (called (mbedtls_ssl_conf_read_timeout handle timeout_ms) w) with
    | None => None
    | Some (Returns v, w1) => Some (to_int v, w1)
    | Some (Falls c, w1) =>
      Some (to_int (to_int (if 0 <? c then c else to_uint32 (net_status w1))), w1)
    end.
Proof.
  unfold HAL_iTLS_Read, _network_ssl_read, bind, emit. cbn [answers called].
  destruct (read_loop _ _ _ _ _ _) as [[[v|c] w1]|]; reflexivity.
Qed.

Lemma HAL_iTLS_Write_unfold (handle buf len timeout_ms : Z) (w : world) :
  HAL_iTLS_Write handle buf len timeout_ms w
  = match write_loop handle buf len (answers w) 0 w with
    | None => None
    | Some (Returns v, w1) => Some (to_int v, w1)
    | Some (Falls c, w1) => Some (to_int (to_int c), w1)
    end.
Proof.
  unfold HAL_iTLS_Write, _network_ssl_write, bind.
  destruct (write_loop _ _ _ _ _ _) as [[[v|c] w1]|]; reflexivity.
Qed.

Lemma write_loop_step (p buffer len r : Z) (rest : list Z) (writtenLen : Z) (w : world) :
  0 <= writtenLen < len -> len <= INT_MAX ->
  write_loop p buffer len (r :: rest) writtenLen w
  = let w1 := returned (mbedtls_ssl_write p (buffer + writtenLen) (len - writtenLen))
                r rest w in
    if 0 <? r then write_loop p buffer len rest (to_uint32 (writtenLen + r)) w1
    else if r =? 0 then Some (Returns 0, w1)
    else Some (Returns (-1), w1).
Proof.
  unfold INT_MAX. intros H1 H2. simpl.
  rewrite (to_uint32_small len) by lia.
  rewrite (to_uint32_small (len - writtenLen)) by lia.
  replace (writtenLen <? len) with true by (symmetry; apply Z.ltb_lt; lia).
  reflexivity.
Qed.

Lemma write_loop_full (p buffer len : Z) (script : list Z) (writtenLen : Z) (w : world) :
  0 <= len <= INT_MAX -> len <= writtenLen ->
  write_loop p buffer len script writtenLen w = Some (Falls writtenLen, w).
Proof.
  unfold INT_MAX. intros H1 H2.
  destruct script; simpl; rewrite (to_uint32_small len) by lia;
    replace (writtenLen <? len) with false by (symmetry; apply Z.ltb_ge; lia);
    reflexivity.
Qed.

(** The events of a read loop are calls of [mbedtls_ssl_read] on the
    handle, whatever the length and the answers. *)
Lemma read_loop_trace (p buffer len : Z) :
  forall (script : list Z) (readLen : Z) (w : world) x w',
    read_loop p buffer len script readLen w = Some (x, w') ->
    exists evs, trace w' = trace w ++ evs /\ Forall (is_ssl_read p) evs.
Proof.
  induction script as [|r script IH]; intros readLen w x w' Hrun; simpl in Hrun.
  - destruct (readLen <? to_uint32 len); [discriminate|].
    injection Hrun as <- <-. exists []. rewrite app_nil_r. split; [reflexivity|constructor].
  - destruct (readLen <? to_uint32 len).
    2:{ injection Hrun as <- <-. exists []. rewrite app_nil_r.
        split; [reflexivity|constructor]. }
    set (e := Ret (mbedtls_ssl_read p (buffer + readLen) (to_uint32 (len - readLen))) r) in *.
    destruct (0 <? r).
    + apply IH in Hrun. destruct Hrun as (evs & Htr & Hrd).
      exists (e :: evs). split.
      * rewrite Htr. cbn [trace set_net_status returned]. rewrite <- app_assoc. reflexivity.
      * constructor; [reflexivity|assumption].
    + assert (Hone : forall y wy, Some (y, wy) = Some (x, w') ->
                trace wy = trace w ++ [e] ->
                exists evs, trace w' = trace w ++ evs /\ Forall (is_ssl_read p) evs).
      { intros y wy Hy Ht. injection Hy as <- <-. exists [e].
        split; [exact Ht|repeat constructor]. }
      destruct (r =? 0); [eapply Hone; [exact Hrun|reflexivity]|].
      destruct (MBEDTLS_ERR_SSL_PEER_CLOSE_NOTIFY =? r);
        [eapply Hone; [exact Hrun|reflexivity]|].
      destruct ((MBEDTLS_ERR_SSL_TIMEOUT =? r) || (MBEDTLS_ERR_SSL_CONN_EOF =? r)
                || (MBEDTLS_ERR_SSL_SESSION_TICKET_EXPIRED =? r)
                || (MBEDTLS_ERR_SSL_NON_FATAL =? r));
        eapply Hone; [exact Hrun|reflexivity|exact Hrun|reflexivity].
Qed.

(** Every assignment to [net_status] stores 0, -1 or -2. *)
Lemma read_loop_status (p buffer len : Z) :
  forall (script : list Z) (readLen : Z) (w : world) x w',
    read_loop p buffer len script readLen w = Some (x, w') ->
    status_ok (net_status w) -> status_ok (net_status w').
Proof.
  induction script as [|r script IH]; intros readLen w x w' Hrun Hs;
    simpl in Hrun.
  - destruct (readLen <? to_uint32 len); [discriminate|].
    injection Hrun as <- <-. exact Hs.
  - destruct (readLen <? to_uint32 len); [|injection Hrun as <- <-; exact Hs].
    destruct (0 <? r).
    + apply IH in Hrun; [exact Hrun|left; reflexivity].
    + destruct (r =? 0); [injection Hrun as <- <-; exact Hs|].
      destruct (MBEDTLS_ERR_SSL_PEER_CLOSE_NOTIFY =? r);
        [injection Hrun as <- <-; right; right; reflexivity|].
      destruct ((MBEDTLS_ERR_SSL_TIMEOUT =? r) || (MBEDTLS_ERR_SSL_CONN_EOF =? r)
                || (MBEDTLS_ERR_SSL_SESSION_TICKET_EXPIRED =? r)
                || (MBEDTLS_ERR_SSL_NON_FATAL =? r));
        injection Hrun as <- <-; [exact Hs|right; left; reflexivity].
Qed.

(** [status_ok] is an invariant of the world: the only function that
    writes [net_status] keeps it. *)
Lemma HAL_iTLS_Read_keeps_status_ok
    (handle buf len timeout_ms : Z) (w : world) (v : Z) (w' : world) :
  HAL_iTLS_Read handle buf len timeout_ms w = Some (v, w') ->
  status_ok (net_status w) -> status_ok (net_status w').
Proof.
  intros Hrun Hs. rewrite HAL_iTLS_Read_unfold in Hrun.
  destruct (read_loop _ _ _ _ _ _) as [[x w1]|] eqn:Hloop; [|discriminate].
  apply read_loop_status in Hloop; [|exact Hs].
  destruct x; injection Hrun as _ <-; exact Hloop.
Qed.

Lemma write_loop_trace (p buffer len : Z) :
  forall (script : list Z) (writtenLen : Z) (w : world) x w',
    write_loop p buffer len script writtenLen w = Some (x, w') ->
    exists evs, trace w' = trace w ++ evs /\ Forall (is_ssl_write p) evs
                /\ net_status w' = net_status w.
Proof.
  induction script as [|r script IH]; intros writtenLen w x w' Hrun; simpl in Hrun.
  - destruct (writtenLen <? to_uint32 len); [discriminate|].
    injection Hrun as <- <-. exists []. rewrite app_nil_r.
    split; [reflexivity|split; [constructor|reflexivity]].
  - destruct (writtenLen <? to_uint32 len).
    2:{ injection Hrun as <- <-. exists []. rewrite app_nil_r.
        split; [reflexivity|split; [constructor|reflexivity]]. }
    set (e := Ret (mbedtls_ssl_write p (buffer + writtenLen)
                     (to_uint32 (len - writtenLen))) r) in *.
    destruct (0 <? r).
    + apply IH in Hrun. destruct Hrun as (evs & Htr & Hrd & Hns).
      exists (e :: evs). split; [|split].
      * rewrite Htr. cbn [trace returned]. rewrite <- app_assoc. reflexivity.
      * constructor; [reflexivity|assumption].
      * rewrite Hns. reflexivity.
    + destruct (r =? 0); injection Hrun as <- <-; exists [e];
        (split; [reflexivity|split; [repeat constructor|reflexivity]]).
Qed.

Lemma write_loop_sound (p buffer len : Z) :
  0 <= len <= INT_MAX ->
  forall (script : list Z) (writtenLen : Z) (w : world) x w',
    0 <= writtenLen <= len ->
    write_loop p buffer len script writtenLen w = Some (x, w') ->
    exists evs,
      trace w' = trace w ++ evs
      /\ (Forall within_request evs ->
          writtenLen + bytes_written evs <= len
          /\ match x with
             | Returns v => v = 0 \/ v = -1
             | Falls c => c = len /\ c = writtenLen + bytes_written evs
             end).
Proof.
  intros Hlen script. unfold INT_MAX in Hlen.
  induction script as [|r script IH]; intros writtenLen w x w' Hr Hrun.
  - simpl in Hrun. rewrite (to_uint32_small len) in Hrun by lia.
    destruct (writtenLen <? len) eqn:E; [discriminate|]. apply Z.ltb_ge in E.
    injection Hrun as <- <-. exists []. rewrite app_nil_r.
    split; [reflexivity|]. intros _. cbn [bytes_written]. lia.
  - destruct (Z.lt_ge_cases writtenLen len) as [Hlt|Hge].
    2:{ rewrite write_loop_full in Hrun by (unfold INT_MAX; lia).
        injection Hrun as <- <-. exists []. rewrite app_nil_r.
        split; [reflexivity|]. intros _. cbn [bytes_written]. lia. }
    rewrite write_loop_step in Hrun by (unfold INT_MAX; lia). cbv zeta in Hrun.
    set (e := Ret (mbedtls_ssl_write p (buffer + writtenLen) (len - writtenLen)) r) in *.
    destruct (0 <? r) eqn:Hpos.
    + apply Z.ltb_lt in Hpos.
      destruct (Z.le_gt_cases r (len - writtenLen)) as [Hin|Hout].
      * rewrite (to_uint32_small (writtenLen + r)) in Hrun by lia.
        apply IH in Hrun; [|lia].
        destruct Hrun as (evs & Htr & Hok).
        exists (e :: evs). split.
        -- rewrite Htr. cbn [trace returned]. rewrite <- app_assoc. reflexivity.
        -- intros Hc. inversion Hc; subst. specialize (Hok ltac:(assumption)).
           unfold e. cbn [bytes_written].
           replace (0 <? r) with true by (symmetry; apply Z.ltb_lt; lia).
           destruct x; lia.
      * apply write_loop_trace in Hrun. destruct Hrun as (evs & Htr & _).
        exists (e :: evs). split.
        -- rewrite Htr. cbn [trace returned]. rewrite <- app_assoc. reflexivity.
        -- intros Hc. inversion Hc as [|? ? He _]; subst. simpl in He. lia.
    + apply Z.ltb_ge in Hpos.
      destruct (r =? 0); injection Hrun as <- <-; exists [e];
        (split; [reflexivity|]); intros _; unfold e; cbn [bytes_written];
        replace (0 <? r) with false by (symmetry; apply Z.ltb_ge; lia); lia.
Qed.

(** C3 (amended).  With [0 <= len <= INT_MAX] and a library that never
    reports more bytes than requested, every negative value returned by
    [HAL_iTLS_Read] is the local constant -1 or -2, and is the value left
    in [net_status]; every negative value returned by [HAL_iTLS_Write] is
    the local constant -1.  The library's own codes are collapsed into
    these constants, not passed on. *)
Theorem negative_results_are_local_codes
    (handle buf len timeout_ms : Z) (w : world) :
  0 <= len <= INT_MAX ->
  status_ok (net_status w) ->
  (forall v w' evs,
      HAL_iTLS_Read handle buf len timeout_ms w = Some (v, w') ->
      trace w' = trace w ++ evs -> Forall within_request evs ->
      v < 0 -> (v = -1 \/ v = -2) /\ net_status w' = v)
  /\ (forall v w' evs,
      HAL_iTLS_Write handle buf len timeout_ms w = Some (v, w') ->
      trace w' = trace w ++ evs -> Forall within_request evs ->
      v < 0 -> v = -1).
Proof.
  intros Hlen Hs. split; intros v w' evs Hrun Htr Hc Hneg.
  - rewrite HAL_iTLS_Read_unfold in Hrun.
    destruct (read_loop _ _ _ _ _ _) as [[x w1]|] eqn:Hloop; [|discriminate].
    apply read_loop_sound in Hloop; [|assumption|lia].
    destruct Hloop as (evs1 & Htr1 & _ & Hok).
    assert (Hw : w1 = w') by (destruct x; injection Hrun; auto).
    subst w1. cbn [trace called] in Htr1. rewrite Htr, <- app_assoc in Htr1.
    apply app_inv_head in Htr1. subst evs.
    apply Forall_inv_tail in Hc. specialize (Hok Hc Hs).
    destruct Hok as (Hs' & Hx). unfold INT_MAX in Hlen.
    destruct x as [r|c]; injection Hrun as Hv.
    + destruct Hx as [Hx|(Hx & Hx')].
      * rewrite to_int_small in Hv by (unfold INT_MIN, INT_MAX; lia). lia.
      * rewrite to_int_small in Hv by (unfold INT_MIN, INT_MAX; lia).
        subst v. split; [exact Hx'|congruence].
    + destruct (0 <? c) eqn:E.
      * rewrite !(to_int_small c) in Hv by (unfold INT_MIN, INT_MAX; lia).
        apply Z.ltb_lt in E. lia.
      * rewrite to_int_to_uint32 in Hv.
        rewrite !(to_int_small (net_status w')) in Hv
          by (unfold INT_MIN, INT_MAX; destruct Hs' as [->|[->| ->]]; lia).
        subst v. split; [|reflexivity].
        destruct Hs' as [E'|[E'|E']]; rewrite E' in *; [lia|left|right]; reflexivity.
  - rewrite HAL_iTLS_Write_unfold in Hrun.
    destruct (write_loop _ _ _ _ _ _) as [[x w1]|] eqn:Hloop; [|discriminate].
    apply write_loop_sound in Hloop; [|assumption|lia].
    destruct Hloop as (evs1 & Htr1 & Hok).
    assert (Hw : w1 = w') by (destruct x; injection Hrun; auto).
    subst w1. rewrite Htr in Htr1. apply app_inv_head in Htr1. subst evs.
    specialize (Hok Hc). destruct Hok as (Hb & Hx). unfold INT_MAX in Hlen.
    destruct x as [r|c]; injection Hrun as Hv.
    + destruct Hx as [-> | ->]; [|rewrite <- Hv; reflexivity].
      rewrite <- Hv in Hneg. discriminate.
    + destruct Hx as (-> & _).
      rewrite !(to_int_small len) in Hv by (unfold INT_MIN, INT_MAX; lia). lia.
Qed.


(** C4 (amended).  [HAL_iTLS_Read] hands [timeout_ms] to the library, by
    [mbedtls_ssl_conf_read_timeout], before any [mbedtls_ssl_read] of the
    call.  [HAL_iTLS_Write] does not use [timeout_ms]: its run is the same
    for every value of it, and the only calls it makes are
    [mbedtls_ssl_write], none of which carries a timeout. *)
Theorem timeout_ms_reaches_read_only
    (handle buf len timeout_ms : Z) (w : world) :
  (forall v w',
      HAL_iTLS_Read handle buf len timeout_ms w = Some (v, w') ->
      exists evs,
        trace w'
        = trace w ++ Void (mbedtls_ssl_conf_read_timeout handle timeout_ms) :: evs
        /\ Forall (is_ssl_read handle) evs)
  /\ (forall t',
      HAL_iTLS_Write handle buf len t' w
      = HAL_iTLS_Write handle buf len timeout_ms w)
  /\ (forall v w',
      HAL_iTLS_Write handle buf len timeout_ms w = Some (v, w') ->
      exists evs,
        trace w' = trace w ++ evs
        /\ Forall (fun e => is_ssl_write handle e
                            /\ timeout_argument (call_of e) = None) evs).
Proof.
  split; [|split].
  - intros v w' Hrun. rewrite HAL_iTLS_Read_unfold in Hrun.
    destruct (read_loop _ _ _ _ _ _) as [[x w1]|] eqn:Hloop; [|discriminate].
    apply read_loop_trace in Hloop. destruct Hloop as (evs & Htr & Hrd).
    assert (Hw : w1 = w') by (destruct x; injection Hrun; auto). subst w1.
    exists evs. split; [|exact Hrd].
    rewrite Htr. cbn [trace called]. rewrite <- app_assoc. reflexivity.
  - intros t'. reflexivity.
  - intros v w' Hrun. rewrite HAL_iTLS_Write_unfold in Hrun.
    destruct (write_loop _ _ _ _ _ _) as [[x w1]|] eqn:Hloop; [|discriminate].
    apply write_loop_trace in Hloop. destruct Hloop as (evs & Htr & Hwr & _).
    assert (Hw : w1 = w') by (destruct x; injection Hrun; auto). subst w1.
    exists evs. split; [exact Htr|].
    eapply Forall_impl; [|exact Hwr].
    intros [c|c r]; [intros []|].
    destruct c; simpl; intros H; try contradiction.
    split; [exact H|reflexivity].
Qed.

(** C8.  [net_status] is one variable of the world, not a field of the
    handle.
    - When a peer close notify arrives after some bytes were read in a
      call on [hA], that call returns the positive byte count and leaves
      [net_status = -2]; a later read, on the same or on any other handle
      [hB], whose first [mbedtls_ssl_read] returns 0 then returns -2, and
      the record stays.
    - That -2 is the recorded close and nothing else.  Had the call on
      [hA] ended with a timeout instead of the close notify, the same read
      on [hB] would return 0; and from any world, a read whose first
      [mbedtls_ssl_read] returns 0 returns -2 exactly when [net_status] is
      -2, and 0 otherwise, whatever the handle. *)
Theorem close_notify_is_remembered_across_calls
    (hA bufA lenA tA hB bufB lenB tB : Z) (w : world) (chunks rest : list Z) :
  Forall (fun c => 0 < c) chunks ->
  chunks <> [] ->
  total chunks < lenA <= INT_MAX ->
  0 < lenB <= INT_MAX ->
  (answers w = chunks ++ MBEDTLS_ERR_SSL_PEER_CLOSE_NOTIFY :: 0 :: rest ->
   exists w1 w2,
     HAL_iTLS_Read hA bufA lenA tA w = Some (total chunks, w1)
     /\ net_status w1 = -2
     /\ HAL_iTLS_Read hB bufB lenB tB w1 = Some (-2, w2)
     /\ trace w2
        = trace w1 ++ [Void (mbedtls_ssl_conf_read_timeout hB tB);
                       Ret (mbedtls_ssl_read hB bufB lenB) 0]
     /\ net_status w2 = -2)
  /\ (answers w = chunks ++ MBEDTLS_ERR_SSL_TIMEOUT :: 0 :: rest ->
      exists w1 w2,
        HAL_iTLS_Read hA bufA lenA tA w = Some (total chunks, w1)
        /\ net_status w1 = 0
        /\ HAL_iTLS_Read hB bufB lenB tB w1 = Some (0, w2)
        /\ trace w2
           = trace w1 ++ [Void (mbedtls_ssl_conf_read_timeout hB tB);
                          Ret (mbedtls_ssl_read hB bufB lenB) 0])
  /\ (forall (w0 : world) (rest0 : list Z),
        answers w0 = 0 :: rest0 ->
        HAL_iTLS_Read hB bufB lenB tB w0
        = Some (if net_status w0 =? -2 then -2 else 0,
                returned (mbedtls_ssl_read hB bufB lenB) 0 rest0
                  (called (mbedtls_ssl_conf_read_timeout hB tB) w0))).
Proof.
  intros Hpos Hne HlenA HlenB.
  pose proof (total_pos_cons chunks Hpos Hne) as Hn.
  pose proof code_facts as Hcodes.
  assert (Hzero : forall (w0 : world) (rest0 : list Z),
             answers w0 = 0 :: rest0 ->
             HAL_iTLS_Read hB bufB lenB tB w0
             = Some (if net_status w0 =? -2 then -2 else 0,
                     returned (mbedtls_ssl_read hB bufB lenB) 0 rest0
                       (called (mbedtls_ssl_conf_read_timeout hB tB) w0))).
  { intros w0 rest0 Hans0. rewrite HAL_iTLS_Read_unfold.
    cbn [answers called]. rewrite Hans0.
    rewrite read_loop_step by (unfold INT_MAX in *; lia). cbv zeta.
    cbn [Z.ltb Z.eqb Z.compare net_status returned called].
    rewrite Z.sub_0_r, Z.add_0_r.
    destruct (net_status w0 =? -2) eqn:E.
    - apply Z.eqb_eq in E. rewrite E. reflexivity.
    - reflexivity. }
  split; [|split; [|exact Hzero]].
  - intros Hans.
    destruct Hcodes as (Npc & _).
    destruct (read_loop_chunks hA bufA lenA ltac:(unfold INT_MAX in *; lia) chunks
                (MBEDTLS_ERR_SSL_PEER_CLOSE_NOTIFY :: 0 :: rest) 0
                (called (mbedtls_ssl_conf_read_timeout hA tA) w))
      as (w' & Heq & Hw'); try (unfold INT_MAX in *; lia); try assumption.
    rewrite Z.add_0_l in Heq.
    rewrite read_loop_step in Heq by (unfold INT_MAX in *; lia). cbv zeta in Heq.
    replace (0 <? MBEDTLS_ERR_SSL_PEER_CLOSE_NOTIFY) with false in Heq
      by (symmetry; apply Z.ltb_ge; lia).
    replace (MBEDTLS_ERR_SSL_PEER_CLOSE_NOTIFY =? 0) with false in Heq
      by (symmetry; apply Z.eqb_neq; lia).
    rewrite Z.eqb_refl in Heq.
    eexists. eexists. split; [|split; [|split; [|split]]].
    + rewrite HAL_iTLS_Read_unfold. cbn [answers called]. rewrite Hans, Heq.
      replace (0 <? total chunks) with true by (symmetry; apply Z.ltb_lt; lia).
      rewrite !(to_int_small (total chunks)) by (unfold INT_MIN, INT_MAX in *; lia).
      reflexivity.
    + reflexivity.
    + rewrite (Hzero _ rest) by reflexivity.
      cbn [net_status set_net_status returned Z.eqb Pos.eqb]. reflexivity.
    + cbn [trace returned called set_net_status]. rewrite <- app_assoc. reflexivity.
    + reflexivity.
  - intros Hans.
    destruct Hcodes as (_ & Nt & _ & _ & _ & Dt & _).
    destruct (read_loop_chunks hA bufA lenA ltac:(unfold INT_MAX in *; lia) chunks
                (MBEDTLS_ERR_SSL_TIMEOUT :: 0 :: rest) 0
                (called (mbedtls_ssl_conf_read_timeout hA tA) w))
      as (w' & Heq & Hns & _); try (unfold INT_MAX in *; lia); try assumption.
    rewrite Z.add_0_l in Heq.
    rewrite read_loop_step in Heq by (unfold INT_MAX in *; lia). cbv zeta in Heq.
    replace (0 <? MBEDTLS_ERR_SSL_TIMEOUT) with false in Heq
      by (symmetry; apply Z.ltb_ge; lia).
    replace (MBEDTLS_ERR_SSL_TIMEOUT =? 0) with false in Heq
      by (symmetry; apply Z.eqb_neq; lia).
    replace (MBEDTLS_ERR_SSL_PEER_CLOSE_NOTIFY =? MBEDTLS_ERR_SSL_TIMEOUT)
      with false in Heq by (symmetry; apply Z.eqb_neq; exact Dt).
    rewrite Z.eqb_refl in Heq. cbn [orb] in Heq.
    assert (Hns0 : net_status w' = 0) by (destruct chunks; [congruence|exact Hns]).
    eexists. eexists. split; [|split; [|split]].
    + rewrite HAL_iTLS_Read_unfold. cbn [answers called]. rewrite Hans, Heq.
      rewrite !(to_int_small (total chunks)) by (unfold INT_MIN, INT_MAX in *; lia).
      reflexivity.
    + cbn [net_status returned]. exact Hns0.
    + rewrite (Hzero _ rest) by reflexivity.
      cbn [net_status returned]. rewrite Hns0. reflexivity.
    + cbn [trace returned called]. rewrite <- app_assoc. reflexivity.
Qed.

Lemma write_loop_chunks (p buffer len : Z) :
  0 <= len <= INT_MAX ->
  forall (chunks rest : list Z) (writtenLen : Z) (w : world),
    0 <= writtenLen ->
    Forall (fun c => 0 < c) chunks ->
    writtenLen + total chunks <= len ->
    exists w',
      write_loop p buffer len (chunks ++ rest) writtenLen w
      = write_loop p buffer len rest (writtenLen + total chunks) w'
      /\ trace w'
         = trace w
           ++ chunk_events (mbedtls_ssl_write p) buffer len writtenLen chunks.
Proof.
  intros Hlen chunks.
  induction chunks as [|c cs IH]; intros rest writtenLen w Hr Hpos Hsum.
  - exists w. simpl. rewrite Z.add_0_r, app_nil_r. split; reflexivity.
  - inversion Hpos as [|? ? Hc Hcs]; subst. simpl in Hsum.
    pose proof (total_pos_nonneg cs Hcs) as Hnn.
    destruct (IH rest (writtenLen + c)
                (returned (mbedtls_ssl_write p (buffer + writtenLen)
                             (len - writtenLen)) c (cs ++ rest) w))
      as (w' & Heq & Htr); try lia; try assumption.
    exists w'. cbn [app total chunk_events].
    rewrite write_loop_step by (unfold INT_MAX in *; lia). cbv zeta.
    replace (0 <? c) with true by (symmetry; apply Z.ltb_lt; lia).
    rewrite (to_uint32_small (writtenLen + c)) by (unfold INT_MAX in *; lia).
    rewrite Heq, Z.add_assoc. split; [reflexivity|].
    rewrite Htr. cbn [trace returned]. rewrite <- app_assoc. reflexivity.
Qed.

Lemma bytes_written_chunks (p buffer len : Z) :
  forall (chunks : list Z) (done : Z),
    Forall (fun c => 0 < c) chunks ->
    bytes_written (chunk_events (mbedtls_ssl_write p) buffer len done chunks)
    = total chunks.
Proof.
  induction chunks as [|c cs IH]; intros done Hpos; [reflexivity|].
  inversion Hpos; subst. cbn [chunk_events bytes_written total].
  replace (0 <? c) with true by (symmetry; apply Z.ltb_lt; lia).
  rewrite IH by assumption. reflexivity.
Qed.

(** Short writes are looped until [len] bytes are written, and [len] is
    returned. *)
Theorem HAL_iTLS_Write_complete
    (handle buf len timeout_ms : Z) (w : world) (chunks rest : list Z) :
  0 <= len <= INT_MAX ->
  Forall (fun c => 0 < c) chunks ->
  total chunks = len ->
  answers w = chunks ++ rest ->
  exists w',
    HAL_iTLS_Write handle buf len timeout_ms w = Some (len, w')
    /\ trace w'
       = trace w ++ chunk_events (mbedtls_ssl_write handle) buf len 0 chunks
    /\ bytes_written (chunk_events (mbedtls_ssl_write handle) buf len 0 chunks)
       = len.
Proof.
  intros Hlen Hpos Htot Hans.
  destruct (write_loop_chunks handle buf len Hlen chunks rest 0 w)
    as (w' & Heq & Htr); try lia; try assumption.
  exists w'. split; [|split].
  - rewrite HAL_iTLS_Write_unfold, Hans, Heq, Z.add_0_l.
    rewrite write_loop_full by lia.
    rewrite Htot, !(to_int_small len) by (unfold INT_MIN, INT_MAX in *; lia).
    reflexivity.
  - exact Htr.
  - rewrite bytes_written_chunks by assumption. exact Htot.
Qed.


(** C9.  [HAL_iTLS_Destroy NULL] returns 0 and changes nothing: no call
    is made.  On a non-null handle it sends the close notify, frees the
    network, session and configuration contexts and the handle, in that
    order, and returns 0. *)
Theorem HAL_iTLS_Destroy_spec (handle : Z) (w : world) :
  (handle = NULL -> HAL_iTLS_Destroy handle w = Some (0, w))
  /\ (handle <> NULL ->
      HAL_iTLS_Destroy handle w
      = Some (0, mk_world (net_status w) (answers w) (resolver w) (ctx_fd w)
                   (trace w ++ [Void (mbedtls_ssl_close_notify handle);
                                Void (mbedtls_net_free handle);
                                Void (mbedtls_ssl_free handle);
                                Void (mbedtls_ssl_config_free handle);
                                Void (HAL_Free handle)]))).
Proof.
  split.
  - intros ->. reflexivity.
  - intros Hne. unfold HAL_iTLS_Destroy.
    replace (NULL =? handle) with false
      by (symmetry; apply Z.eqb_neq; congruence).
    unfold _network_ssl_disconnect, bind, emit, Return, called. cbn.
    rewrite <- !app_assoc. reflexivity.
Qed.

End ReadWrite.

(** ** The port string *)

Lemma utoa_length (fuel : nat) :
  forall (k : nat) (n : Z) (acc : string),
    (1 <= k <= fuel)%nat -> 0 <= n < 10 ^ Z.of_nat k ->
    (String.length (utoa fuel n acc) <= k + String.length acc)%nat.
Proof.
  induction fuel as [|fuel IH]; intros k n acc Hk Hn; [lia|].
  cbn [utoa]. destruct (n / 10 =? 0) eqn:E.
  - cbn [String.length]. lia.
  - apply Z.eqb_neq in E.
    assert (Hn10 : 10 <= n).
    { destruct (Z.lt_ge_cases n 10) as [Hs|Hs]; [|exact Hs].
      exfalso. apply E. apply Z.div_small. lia. }
    assert (Hk2 : (2 <= k)%nat).
    { destruct k as [|[|k]]; [lia| |lia]. simpl in Hn. lia. }
    destruct k as [|k]; [lia|].
    specialize (IH k (n / 10) (String (digit_char (n mod 10)) acc)).
    cbn [String.length] in IH.
    assert (Hdiv : 0 <= n / 10 < 10 ^ Z.of_nat k).
    { rewrite Nat2Z.inj_succ, Z.pow_succ_r in Hn by lia.
      split; [apply Z.div_pos; lia|apply Z.div_lt_upper_bound; lia]. }
    specialize (IH ltac:(lia) Hdiv). lia.
Qed.

(** C10.  For every port of a [uint16_t], ["%u"] prints at most 5 digits,
    so [sprintf] stores at most 6 bytes into [port_str[6]]. *)
Theorem port_str_never_overrun (port : Z) :
  0 <= port <= 65535 ->
  (String.length (sprintf_u port) <= 5)%nat
  /\ bytes_stored (sprintf_u port) <= sizeof_port_str.
Proof.
  intros Hp.
  assert (H5 : (String.length (sprintf_u port) <= 5)%nat).
  { unfold sprintf_u. rewrite to_uint32_small by lia.
    pose proof (utoa_length 10 5 port EmptyString ltac:(lia)) as H.
    cbn [String.length] in H. rewrite Nat.add_0_r in H. apply H.
    change (10 ^ Z.of_nat 5) with 100000. lia. }
  split; [exact H5|].
  unfold bytes_stored, strlen, sizeof_port_str. lia.
Qed.

(** ** The connect step *)

Section Connect.
Context {codes : itls_codes}.

Lemma last_cons_default (l : list Z) :
  forall e d, last (e :: l) d = last l e.
Proof.
  induction l as [|x l IH]; intros e d; [reflexivity|].
  change (last (e :: x :: l) d) with (last (x :: l) d).
  rewrite IH. symmetry. apply IH.
Qed.

Lemma last_error_cons (t : failed_attempt) (ts : list failed_attempt) (ret0 : Z) :
  last_error (t :: ts) ret0 = last_error ts (attempt_error t).
Proof. unfold last_error. cbn [map]. apply last_cons_default. Qed.

Lemma connect_loop_failed_prefix (ctx timeout : Z) :
  forall (pre : list addrinfo) (ts : list failed_attempt) (post : list addrinfo)
         (ret0 : Z) (w : world) (rest : list Z),
    List.length ts = List.length pre ->
    Forall failed_attempt_ok ts ->
    answers w = flat_map attempt_answers ts ++ rest ->
    connect_loop ctx timeout (pre ++ post) ret0 w
    = connect_loop ctx timeout post (last_error ts ret0)
        (mk_world (net_status w) rest (resolver w)
           (stored_fds ctx ts ++ ctx_fd w)
           (trace w ++ attempts_events timeout pre ts)).
Proof.
  induction pre as [|a pre IH]; intros ts post ret0 w rest Hlen Hok Hans.
  - destruct ts; [|discriminate]. cbn in *. rewrite app_nil_r, <- Hans.
    destruct w; reflexivity.
  - destruct ts as [|t ts]; [discriminate|].
    inversion Hok as [|? ? Ht Hts]; subst.
    injection Hlen as Hlen. rewrite last_error_cons.
    cbn [app connect_loop]. unfold bind at 1. unfold ask at 1.
    destruct t as [fd|fd so c]; cbn [flat_map attempt_answers app] in Hans;
      rewrite Hans; cbn [failed_attempt_ok] in Ht.
    + unfold bind at 1, store_fd at 1.
      replace (fd <? 0) with true by (symmetry; apply Z.ltb_lt; lia).
      rewrite (IH ts post _ _ rest Hlen Hts) by reflexivity.
      cbn [net_status resolver ctx_fd trace set_ctx_fd returned attempts_events
           attempt_events attempt_error stored_fds map rev attempt_fd].
      rewrite <- !app_assoc. reflexivity.
    + destruct Ht as (Hfd & Hc).
      unfold bind at 1, store_fd at 1.
      replace (fd <? 0) with false by (symmetry; apply Z.ltb_ge; lia).
      unfold bind at 1, ask at 1. cbn [answers set_ctx_fd returned].
      unfold bind at 1, ask at 1. cbn [answers set_ctx_fd returned].
      replace (c =? 0) with false by (symmetry; apply Z.eqb_neq; lia).
      unfold bind at 1, emit at 1.
      rewrite (IH ts post _ _ rest Hlen Hts) by reflexivity.
      cbn [net_status resolver ctx_fd trace set_ctx_fd returned called
           attempts_events attempt_events attempt_error stored_fds map rev
           attempt_fd].
      rewrite <- !app_assoc. reflexivity.
Qed.

(** C7 (amended).  The connect step of establish on Linux, with the send
    timeout [SEND_TIMEOUT_SECONDS] = 10:
    - it resolves host and port with [AF_UNSPEC] (IPv4 and IPv6); when
      [getaddrinfo] fails it returns UNKNOWN_HOST and opens no socket;
    - it tries the resolved addresses in order; on each socket it sets
      [SO_SNDTIMEO] to 10 seconds before [connect]; it returns 0 at the
      first address whose [connect] succeeds, leaving that socket in the
      context and the later addresses untouched;
    - when no address connects it returns the error of the last address
      tried: CONNECT_FAILED when its [connect] failed, SOCKET_FAILED when
      its socket could not be created;
    - [_TLSConnectNetwork] runs this step right after initialising the
      three contexts, returns its error as it is, and goes on to the set-up
      of the TLS context when it returns 0. *)
Theorem mbedtls_net_connect_timeout_spec
    (ctx : Z) (host port : string) (w : world) :
  SEND_TIMEOUT_SECONDS = 10
  /\ (forall r rest,
      answers w = r :: rest -> r <> 0 ->
      mbedtls_net_connect_timeout ctx host port MBEDTLS_NET_PROTO_TCP
        SEND_TIMEOUT_SECONDS w
      = Some (MBEDTLS_ERR_NET_UNKNOWN_HOST,
              mk_world (net_status w) rest (resolver w) (ctx_fd w)
                (trace w
                 ++ [Void signal_SIGPIPE_SIG_IGN;
                     Ret (getaddrinfo host port AF_UNSPEC SOCK_STREAM
                            IPPROTO_TCP) r])))
  /\ (forall pre a post ts fd so rest,
      resolver w host port = pre ++ a :: post ->
      List.length ts = List.length pre -> Forall failed_attempt_ok ts -> 0 <= fd ->
      answers w = 0 :: flat_map attempt_answers ts ++ fd :: so :: 0 :: rest ->
      mbedtls_net_connect_timeout ctx host port MBEDTLS_NET_PROTO_TCP
        SEND_TIMEOUT_SECONDS w
      = Some (0,
              mk_world (net_status w) rest (resolver w)
                ((ctx, fd) :: stored_fds ctx ts ++ ctx_fd w)
                (trace w
                 ++ [Void signal_SIGPIPE_SIG_IGN;
                     Ret (getaddrinfo host port AF_UNSPEC SOCK_STREAM
                            IPPROTO_TCP) 0]
                 ++ attempts_events SEND_TIMEOUT_SECONDS pre ts
                 ++ [Ret (socket (ai_family a) (ai_socktype a)
                            (ai_protocol a)) fd;
                     Ret (setsockopt_SO_SNDTIMEO fd SEND_TIMEOUT_SECONDS 0) so;
                     Ret (connect fd (ai_addr a)) 0;
                     Void freeaddrinfo])))
  /\ (forall ts rest,
      List.length ts = List.length (resolver w host port) ->
      Forall failed_attempt_ok ts ->
      answers w = 0 :: flat_map attempt_answers ts ++ rest ->
      mbedtls_net_connect_timeout ctx host port MBEDTLS_NET_PROTO_TCP
        SEND_TIMEOUT_SECONDS w
      = Some (last_error ts MBEDTLS_ERR_NET_UNKNOWN_HOST,
              mk_world (net_status w) rest (resolver w)
                (stored_fds ctx ts ++ ctx_fd w)
                (trace w
                 ++ [Void signal_SIGPIPE_SIG_IGN;
                     Ret (getaddrinfo host port AF_UNSPEC SOCK_STREAM
                            IPPROTO_TCP) 0]
                 ++ attempts_events SEND_TIMEOUT_SECONDS
                      (resolver w host port) ts
                 ++ [Void freeaddrinfo])))
  /\ (forall product_key ret w1,
      mbedtls_net_connect_timeout ctx host port MBEDTLS_NET_PROTO_TCP
        SEND_TIMEOUT_SECONDS
        (called (mbedtls_ssl_config_init ctx)
           (called (mbedtls_net_init ctx) (called (mbedtls_ssl_init ctx) w)))
      = Some (ret, w1) ->
      _TLSConnectNetwork true ctx host port product_key w
      = if 0 =? ret then setup_and_handshake ctx product_key w1
        else Some (ret, w1)).
Proof.
  split; [reflexivity|]. split; [|split; [|split]].
  - intros r rest Hans Hr.
    unfold mbedtls_net_connect_timeout, net_prepare, bind, emit, Return, ask.
    cbn [Z.eqb negb net_proto_eqb answers called]. rewrite Hans.
    replace (r =? 0) with false by (symmetry; apply Z.eqb_neq; lia).
    cbn [negb]. world_simpl.
    rewrite <- app_assoc. reflexivity.
  - intros pre a post ts fd so rest Hres Hlen Hok Hfd Hans.
    unfold mbedtls_net_connect_timeout, net_prepare.
    unfold bind at 1 2, emit at 1, Return at 1.
    cbn [Z.eqb negb net_proto_eqb]. unfold bind at 1, ask at 1.
    cbn [answers called]. rewrite Hans. cbn [Z.eqb negb].
    unfold bind at 1. cbn [resolver returned called]. rewrite Hres.
    rewrite (connect_loop_failed_prefix ctx SEND_TIMEOUT_SECONDS pre ts (a :: post)
               _ _ (fd :: so :: 0 :: rest) Hlen Hok) by reflexivity.
    cbn [connect_loop]. unfold bind, ask, store_fd, emit, Return.
    world_simpl.
    replace (fd <? 0) with false by (symmetry; apply Z.ltb_ge; lia).
    world_eq.
  - intros ts rest Hlen Hok Hans.
    unfold mbedtls_net_connect_timeout, net_prepare.
    unfold bind at 1 2, emit at 1, Return at 1.
    cbn [Z.eqb negb net_proto_eqb]. unfold bind at 1, ask at 1.
    cbn [answers called]. rewrite Hans. cbn [Z.eqb negb].
    unfold bind at 1. cbn [resolver returned called].
    rewrite <- (app_nil_r (resolver w host port)) at 1.
    rewrite (connect_loop_failed_prefix ctx SEND_TIMEOUT_SECONDS _ ts []
               _ _ rest Hlen Hok) by reflexivity.
    cbn [connect_loop]. unfold bind, emit, Return.
    world_eq.
  - intros product_key ret w1 Hc.
    unfold _TLSConnectNetwork, start_connection.
    unfold bind at 1, emit at 1. unfold bind at 1, emit at 1.
    unfold bind at 1, emit at 1. unfold bind at 1.
    rewrite Hc. destruct (0 =? ret); reflexivity.
Qed.

End Connect.

(** ** Establishing a connection *)

Lemma split_after_prefix {A : Type} (l1 : list A) :
  forall (l2 pre post : list A) (x : A),
    l1 ++ l2 = pre ++ x :: post -> ~ In x l1 -> exists m, pre = l1 ++ m.
Proof.
  induction l1 as [|a l1 IH]; intros l2 pre post x Heq Hnin.
  - exists pre. reflexivity.
  - destruct pre as [|b pre].
    + cbn in Heq. injection Heq as -> _. exfalso. apply Hnin. left. reflexivity.
    + cbn in Heq. injection Heq as -> Heq.
      apply IH in Heq; [|intros Hin; apply Hnin; right; exact Hin].
      destruct Heq as (m & ->). exists m. reflexivity.
Qed.

Lemma connect_event_not_handshake (e : event) :
  connect_event e -> ~ is_handshake_call e.
Proof. unfold connect_event, is_handshake_call. destruct (call_of e); tauto. Qed.

Lemma setup_event_not_handshake (e : event) :
  setup_event e -> ~ is_handshake_call e.
Proof. unfold setup_event, is_handshake_call. destruct (call_of e); tauto. Qed.

Lemma held_after_app (a b : list event) :
  held_after (a ++ b) = fold_left hold_step b (held_after a).
Proof. unfold held_after. apply fold_left_app. Qed.

Lemma hold_steps_neutral (evs : list event) (held : list resource) :
  Forall (fun e => connect_event e \/ setup_event e \/ is_handshake_call e) evs ->
  fold_left hold_step evs held = held.
Proof.
  induction 1 as [|e evs He _ IH]; [reflexivity|].
  cbn [fold_left]. rewrite <- IH at 2. f_equal.
  destruct e as [c|c r]; destruct c; cbn in He; try tauto; reflexivity.
Qed.

Section Establish.
Context {codes : itls_codes}.

Lemma connect_loop_trace (ctx timeout : Z) :
  forall (cur : list addrinfo) (ret0 : Z) (w : world) r w',
    connect_loop ctx timeout cur ret0 w = Some (r, w') ->
    exists evs, trace w' = trace w ++ evs /\ Forall connect_event evs.
Proof.
  induction cur as [|a cur IH]; intros ret0 w r w' Hrun.
  - injection Hrun as <- <-. exists []. rewrite app_nil_r. split; [reflexivity|constructor].
  - cbn [connect_loop] in Hrun. unfold bind at 1, ask at 1 in Hrun.
    destruct (answers w) as [|fd ans1]; [discriminate|].
    unfold bind at 1, store_fd at 1 in Hrun.
    destruct (fd <? 0).
    + apply IH in Hrun. destruct Hrun as (evs & Htr & Hev).
      eexists (_ :: evs). split.
      * rewrite Htr. world_simpl. rewrite <- app_assoc. reflexivity.
      * constructor; [exact I|exact Hev].
    + unfold bind at 1, ask at 1 in Hrun. world_simpl in Hrun.
      destruct ans1 as [|so ans2]; [discriminate|].
      unfold bind at 1, ask at 1 in Hrun. world_simpl in Hrun.
      destruct ans2 as [|c ans3]; [discriminate|].
      destruct (c =? 0).
      * injection Hrun as <- <-. eexists [_; _; _]. split.
        -- world_simpl. rewrite <- !app_assoc. reflexivity.
        -- repeat constructor.
      * unfold bind at 1, emit at 1 in Hrun.
        apply IH in Hrun. destruct Hrun as (evs & Htr & Hev).
        eexists (_ :: _ :: _ :: _ :: evs). split.
        -- rewrite Htr. world_simpl. rewrite <- !app_assoc. reflexivity.
        -- repeat (constructor; [exact I|]). exact Hev.
Qed.

Lemma mbedtls_net_connect_timeout_trace
    (ctx : Z) (host port : string) (proto : net_proto) (timeout : Z)
    (w : world) r w' :
  mbedtls_net_connect_timeout ctx host port proto timeout w = Some (r, w') ->
  exists evs, trace w' = trace w ++ evs /\ Forall connect_event evs.
Proof.
  unfold mbedtls_net_connect_timeout, net_prepare.
  unfold bind at 1 2, emit at 1, Return at 1. cbn [Z.eqb negb].
  unfold bind at 1, ask at 1. world_simpl.
  destruct (answers w) as [|g ans]; [discriminate|].
  destruct (g =? 0); cbn [negb].
  - unfold bind at 1. world_simpl.
    destruct (connect_loop _ _ _ _ _) as [[ret w1]|] eqn:Hloop; [|discriminate].
    apply connect_loop_trace in Hloop. destruct Hloop as (evs & Htr & Hev).
    unfold bind, emit, Return. intros H. injection H as <- <-.
    eexists (_ :: _ :: evs ++ [_]). split.
    + world_simpl. rewrite Htr. world_simpl. rewrite <- !app_assoc. reflexivity.
    + repeat (constructor; [exact I|]). apply Forall_app. split; [exact Hev|].
      repeat constructor.
  - intros H. injection H as <- <-. eexists [_; _]. split.
    + world_simpl. rewrite <- !app_assoc. reflexivity.
    + repeat constructor.
Qed.

Lemma handshake_loop_trace (p : Z) :
  forall (script : list Z) (w : world) r w',
    handshake_loop p script w = Some (r, w') ->
    exists hs, trace w' = trace w ++ hs /\ Forall (is_handshake p) hs /\ hs <> [].
Proof.
  induction script as [|h script IH]; intros w r w' Hrun; [discriminate|].
  cbn [handshake_loop] in Hrun.
  assert (Hone : forall y wy, Some (y, wy) = Some (r, w') ->
            trace wy = trace w ++ [Ret (mbedtls_ssl_handshake p) h] ->
            exists hs, trace w' = trace w ++ hs /\ Forall (is_handshake p) hs
                       /\ hs <> []).
  { intros y wy Hy Ht. injection Hy as <- <-. eexists [_].
    split; [exact Ht|]. split; [repeat constructor|discriminate]. }
  destruct (negb (h =? 0)); [|eapply Hone; [exact Hrun|reflexivity]].
  destruct (negb (h =? MBEDTLS_ERR_SSL_WANT_READ)
            && negb (h =? MBEDTLS_ERR_SSL_WANT_WRITE));
    [eapply Hone; [exact Hrun|reflexivity]|].
  apply IH in Hrun. destruct Hrun as (hs & Htr & Hhs & _).
  eexists (_ :: hs). split; [|split].
  - rewrite Htr. world_simpl. rewrite <- app_assoc. reflexivity.
  - constructor; [reflexivity|exact Hhs].
  - discriminate.
Qed.

Lemma start_connection_trace (linux : bool) (p : Z) (addr port : string)
    (w : world) r w' :
  start_connection linux p addr port w = Some (r, w') ->
  exists conn, trace w' = trace w ++ conn /\ Forall connect_event conn.
Proof.
  unfold start_connection. destruct linux.
  - apply mbedtls_net_connect_timeout_trace.
  - unfold ask. destruct (answers w) as [|c ans]; [discriminate|].
    intros H. injection H as <- <-. eexists [_].
    split; [reflexivity|repeat constructor].
Qed.

Lemma _out_run (p ret : Z) (w : world) :
  _out p ret w
  = Some (ret, if ret =? 0 then w
               else mk_world (net_status w) (answers w) (resolver w) (ctx_fd w)
                      (trace w ++ cleanup_events p)).
Proof.
  unfold _out, bind, emit, Return. destruct (ret =? 0); cbn [negb]; [reflexivity|].
  world_simpl. rewrite <- !app_assoc. reflexivity.
Qed.

Lemma setup_and_handshake_shape (p : Z) (pk : string) (w : world) r w' :
  setup_and_handshake p pk w = Some (r, w') ->
  exists setup hs cleanup,
    trace w' = trace w ++ setup ++ hs ++ cleanup
    /\ Forall setup_event setup /\ setup <> []
    /\ Forall (is_handshake p) hs
    /\ (hs <> [] ->
        In (Void (mbedtls_ssl_conf_max_version p MBEDTLS_SSL_MAJOR_VERSION_3
                    MBEDTLS_SSL_MINOR_VERSION_3)) setup
        /\ In (Void (mbedtls_ssl_conf_min_version p MBEDTLS_SSL_MAJOR_VERSION_3
                       MBEDTLS_SSL_MINOR_VERSION_3)) setup
        /\ In (Ret (mbedtls_ssl_conf_auth_extra p pk (strlen pk)) 0) setup)
    /\ (r = 0 -> cleanup = [] /\ hs <> [])
    /\ (r <> 0 -> cleanup = cleanup_events p).
Proof.
  unfold setup_and_handshake. unfold bind at 1, ask at 1.
  destruct (answers w) as [|d ans1]; [discriminate|].
  destruct (d =? 0) eqn:Ed; cbn [negb].
  2:{ rewrite _out_run, Ed. apply Z.eqb_neq in Ed. intros H. injection H as <- <-.
      exists [Ret (mbedtls_ssl_config_defaults p) d], [], (cleanup_events p).
      split; [world_simpl; rewrite <- !app_assoc; reflexivity|].
      split; [repeat constructor|]. split; [discriminate|].
      split; [constructor|]. split; [intros []; reflexivity|].
      split; [intros; contradiction|reflexivity]. }
  apply Z.eqb_eq in Ed. subst d.
  unfold bind at 1, emit at 1. unfold bind at 1, emit at 1.
  unfold bind at 1, emit at 1. unfold bind at 1, emit at 1.
  unfold bind at 1, ask at 1. world_simpl.
  destruct ans1 as [|a ans2]; [discriminate|].
  destruct (a =? 0) eqn:Ea; cbn [negb].
  2:{ rewrite _out_run, Ea. apply Z.eqb_neq in Ea. intros H. injection H as <- <-.
      eexists [_; _; _; _; _; _], [], (cleanup_events p).
      split; [world_simpl; rewrite <- !app_assoc; reflexivity|].
      split; [repeat constructor|]. split; [discriminate|].
      split; [constructor|]. split; [intros []; reflexivity|].
      split; [intros; contradiction|reflexivity]. }
  apply Z.eqb_eq in Ea. subst a.
  unfold bind at 1, ask at 1. world_simpl.
  destruct ans2 as [|s ans3]; [discriminate|].
  destruct (s =? 0) eqn:Es; cbn [negb].
  2:{ rewrite _out_run, Es. apply Z.eqb_neq in Es. intros H. injection H as <- <-.
      eexists [_; _; _; _; _; _; _], [], (cleanup_events p).
      split; [world_simpl; rewrite <- !app_assoc; reflexivity|].
      split; [repeat constructor|]. split; [discriminate|].
      split; [constructor|]. split; [intros []; reflexivity|].
      split; [intros; contradiction|reflexivity]. }
  apply Z.eqb_eq in Es. subst s.
  unfold bind at 1, emit at 1. unfold bind at 1. world_simpl.
  destruct (handshake_loop p ans3 _) as [[h w1]|] eqn:Hh; [|discriminate].
  apply handshake_loop_trace in Hh. destruct Hh as (hs & Htr & Hhs & Hne).
  rewrite _out_run. intros H. injection H as <- <-.
  world_simpl in Htr.
  exists [Ret (mbedtls_ssl_config_defaults p) 0;
          Void (mbedtls_ssl_conf_max_version p MBEDTLS_SSL_MAJOR_VERSION_3
                  MBEDTLS_SSL_MINOR_VERSION_3);
          Void (mbedtls_ssl_conf_min_version p MBEDTLS_SSL_MAJOR_VERSION_3
                  MBEDTLS_SSL_MINOR_VERSION_3);
          Void (mbedtls_ssl_conf_rng p); Void (mbedtls_ssl_conf_dbg p);
          Ret (mbedtls_ssl_conf_auth_extra p pk (strlen pk)) 0;
          Ret (mbedtls_ssl_setup p) 0; Void (mbedtls_ssl_set_bio p)], hs,
         (if h =? 0 then [] else cleanup_events p).
  split.
  { destruct (h =? 0); world_simpl; rewrite Htr, <- ?app_assoc; cbn [app];
      rewrite ?app_nil_r; reflexivity. }
  split; [repeat constructor|]. split; [discriminate|].
  split; [exact Hhs|]. split.
  { intros _. cbn [In]. auto 10. }
  split.
  - intros ->. split; [reflexivity|exact Hne].
  - intros Hr. apply Z.eqb_neq in Hr. rewrite Hr. reflexivity.
Qed.

Lemma _TLSConnectNetwork_shape (linux : bool) (p : Z) (addr port pk : string)
    (w : world) r w' :
  _TLSConnectNetwork linux p addr port pk w = Some (r, w') ->
  exists conn setup hs cleanup,
    trace w' = trace w ++ init_events p ++ conn ++ setup ++ hs ++ cleanup
    /\ Forall connect_event conn
    /\ Forall setup_event setup
    /\ Forall (is_handshake p) hs
    /\ (hs <> [] ->
        In (Void (mbedtls_ssl_conf_max_version p MBEDTLS_SSL_MAJOR_VERSION_3
                    MBEDTLS_SSL_MINOR_VERSION_3)) setup
        /\ In (Void (mbedtls_ssl_conf_min_version p MBEDTLS_SSL_MAJOR_VERSION_3
                       MBEDTLS_SSL_MINOR_VERSION_3)) setup
        /\ In (Ret (mbedtls_ssl_conf_auth_extra p pk (strlen pk)) 0) setup)
    /\ (r = 0 -> cleanup = [] /\ hs <> [])
    /\ (r <> 0 ->
        (setup = [] /\ hs = [] /\ cleanup = [])
        \/ (setup <> [] /\ cleanup = cleanup_events p)).
Proof.
  unfold _TLSConnectNetwork.
  unfold bind at 1, emit at 1. unfold bind at 1, emit at 1.
  unfold bind at 1, emit at 1. unfold bind at 1.
  destruct (start_connection linux p addr port _) as [[c w1]|] eqn:Hc; [|discriminate].
  apply start_connection_trace in Hc. destruct Hc as (conn & Htr & Hconn).
  world_simpl in Htr.
  destruct (0 =? c) eqn:Ec; cbn [negb].
  - intros Hrun. apply setup_and_handshake_shape in Hrun.
    destruct Hrun as (setup & hs & cleanup & Htr' & Hsetup & Hne & Hhs & Hcfg & H0 & H1).
    exists conn, setup, hs, cleanup.
    split.
    { rewrite Htr', Htr. unfold init_events. rewrite <- !app_assoc. reflexivity. }
    repeat (split; [assumption|]).
    intros Hr. right. split; [exact Hne|apply H1, Hr].
  - intros H. injection H as <- <-. apply Z.eqb_neq in Ec.
    exists conn, [], [], [].
    split.
    { rewrite Htr. unfold init_events. rewrite <- !app_assoc. cbn [app].
      rewrite ?app_nil_r. reflexivity. }
    split; [exact Hconn|]. split; [constructor|]. split; [constructor|].
    split; [intros []; reflexivity|].
    split; [intros; subst; contradiction|].
    intros _. left. auto.
Qed.

Lemma HAL_iTLS_Establish_shape (linux : bool) (host : string) (port : Z)
    (pk : string) (w : world) r w' :
  HAL_iTLS_Establish linux host port pk w = Some (r, w') ->
  (r = NULL /\ trace w' = trace w ++ [Ret HAL_Malloc NULL])
  \/ exists p conn setup hs cleanup,
      p <> NULL /\ (r = p \/ r = NULL)
      /\ trace w'
         = trace w ++ [Ret HAL_Malloc p; Void (memset p 0)] ++ init_events p
           ++ conn ++ setup ++ hs ++ cleanup
           ++ (if r =? NULL then [Void (HAL_Free p)] else [])
      /\ Forall connect_event conn
      /\ Forall setup_event setup
      /\ Forall (is_handshake p) hs
      /\ (hs <> [] ->
          In (Void (mbedtls_ssl_conf_max_version p MBEDTLS_SSL_MAJOR_VERSION_3
                      MBEDTLS_SSL_MINOR_VERSION_3)) setup
          /\ In (Void (mbedtls_ssl_conf_min_version p MBEDTLS_SSL_MAJOR_VERSION_3
                         MBEDTLS_SSL_MINOR_VERSION_3)) setup
          /\ In (Ret (mbedtls_ssl_conf_auth_extra p pk (strlen pk)) 0) setup)
      /\ (r <> NULL -> cleanup = [] /\ hs <> [])
      /\ (r = NULL ->
          (setup = [] /\ hs = [] /\ cleanup = [])
          \/ (setup <> [] /\ cleanup = cleanup_events p)).
Proof.
  unfold HAL_iTLS_Establish. unfold bind at 1, ask at 1.
  destruct (answers w) as [|p ans]; [discriminate|].
  destruct (NULL =? p) eqn:Ep.
  - apply Z.eqb_eq in Ep. subst p. intros H. injection H as <- <-.
    left. split; reflexivity.
  - apply Z.eqb_neq in Ep. unfold bind at 1, emit at 1. unfold bind at 1.
    destruct (_TLSConnectNetwork linux p host (sprintf_u port) pk _)
      as [[c w1]|] eqn:Hc; [|discriminate].
    apply _TLSConnectNetwork_shape in Hc.
    destruct Hc as (conn & setup & hs & cleanup & Htr & Hconn & Hsetup & Hhs
                    & Hcfg & H0 & H1).
    world_simpl in Htr.
    destruct (0 =? c) eqn:Ec; cbn [negb].
    + apply Z.eqb_eq in Ec. subst c. intros H. injection H as <- <-.
      right. exists p, conn, setup, hs, cleanup.
      split; [congruence|]. split; [left; reflexivity|].
      split.
      { rewrite Htr. replace (p =? NULL) with false
          by (symmetry; apply Z.eqb_neq; congruence).
        rewrite <- !app_assoc. cbn [app]. rewrite ?app_nil_r. reflexivity. }
      repeat (split; [assumption|]).
      split; [intros _; apply H0; reflexivity|]. intros Hp. congruence.
    + apply Z.eqb_neq in Ec. unfold bind, emit, Return.
      intros H. injection H as <- <-.
      right. exists p, conn, setup, hs, cleanup.
      split; [congruence|]. split; [right; reflexivity|].
      split.
      { world_simpl. rewrite Htr. cbn [Z.eqb NULL].
        rewrite <- !app_assoc. cbn [app]. reflexivity. }
      repeat (split; [assumption|]).
      split; [intros Hn; exfalso; apply Hn; reflexivity|].
      intros _. apply H1. congruence.
Qed.

Lemma is_handshake_call_of (p : Z) (e : event) :
  is_handshake p e -> is_handshake_call e.
Proof.
  destruct e as [c|c r]; [intros []|].
  destruct c; simpl; intros H; try contradiction; exact I.
Qed.

Lemma held_after_establish_prefix (p : Z) (conn setup hs : list event) :
  p <> NULL ->
  Forall connect_event conn -> Forall setup_event setup ->
  Forall (is_handshake p) hs ->
  held_after ([Ret HAL_Malloc p; Void (memset p 0)] ++ init_events p
              ++ conn ++ setup ++ hs)
  = [ConfigContext p; NetContext p; SslContext p; Block p].
Proof.
  intros Hp Hconn Hsetup Hhs.
  rewrite !app_assoc, <- (app_assoc _ conn), <- (app_assoc _ (conn ++ setup)).
  rewrite held_after_app, hold_steps_neutral.
  - unfold held_after. cbn [app init_events fold_left hold_step].
    replace (NULL =? p) with false by (symmetry; apply Z.eqb_neq; congruence).
    reflexivity.
  - repeat (apply Forall_app; split).
    + eapply Forall_impl; [|exact Hconn]. tauto.
    + eapply Forall_impl; [|exact Hsetup]. tauto.
    + eapply Forall_impl; [|exact Hhs].
      intros e He. right. right. exact (is_handshake_call_of p e He).
Qed.

(** What a run of [HAL_iTLS_Establish] holds when it returns: on success
    the block and the three contexts; on failure never the block, and
    nothing at all once the set-up of the TLS context was started (every
    failure after the connect step leaves through [_out]). *)
Theorem establish_resources
    (linux : bool) (host : string) (port : Z) (product_key : string)
    (w : world) (r : Z) (w' : world) (evs : list event) :
  HAL_iTLS_Establish linux host port product_key w = Some (r, w') ->
  trace w' = trace w ++ evs ->
  (r <> NULL ->
   held_after evs = [ConfigContext r; NetContext r; SslContext r; Block r])
  /\ (r = NULL ->
      held_after evs = []
      \/ exists p, held_after evs = [ConfigContext p; NetContext p; SslContext p])
  /\ (r = NULL -> Exists setup_event evs -> held_after evs = []).
Proof.
  intros Hrun Htr'. apply HAL_iTLS_Establish_shape in Hrun.
  destruct Hrun as [(Hr & Htr)|(p & conn & setup & hs & cleanup & Hp & Hr & Htr
                               & Hconn & Hsetup & Hhs & _ & H0 & H1)].
  { rewrite Htr in Htr'. apply app_inv_head in Htr'. subst evs r.
    split; [intros H; exfalso; apply H; reflexivity|].
    split; [intros _; left; reflexivity|].
    intros _ Hex. rewrite Exists_exists in Hex.
    destruct Hex as (e & [<-|[]] & He). destruct He. }
  rewrite Htr in Htr'. apply app_inv_head in Htr'. subst evs.
  pose proof (held_after_establish_prefix p conn setup hs Hp Hconn Hsetup Hhs)
    as Hheld.
  assert (Hall : forall tail,
             held_after ([Ret HAL_Malloc p; Void (memset p 0)] ++ init_events p
                         ++ conn ++ setup ++ hs ++ tail)
             = fold_left hold_step tail
                 [ConfigContext p; NetContext p; SslContext p; Block p]).
  { intros tail. rewrite <- Hheld, <- held_after_app, <- !app_assoc. reflexivity. }
  rewrite Hall. clear Hall Hheld.
  destruct Hr as [Hr|Hr].
  - subst r. destruct (H0 Hp) as (-> & _).
    replace (p =? NULL) with false by (symmetry; apply Z.eqb_neq; congruence).
    split; [intros _; reflexivity|]. split; intros E; congruence.
  - subst r. cbn [Z.eqb NULL].
    split; [intros H; exfalso; apply H; reflexivity|].
    destruct (H1 eq_refl) as [(-> & -> & ->)|(Hne & ->)].
    + repeat (cbn [app fold_left hold_step release filter resource_eqb negb];
              rewrite ?Z.eqb_refl).
      split; [intros _; right; exists p; reflexivity|].
      intros _ Hex. exfalso. rewrite Exists_exists in Hex.
      destruct Hex as (e & Hin & He).
      cbn [app init_events In] in Hin.
      repeat (destruct Hin as [<-|Hin]; [destruct He|]).
      apply in_app_or in Hin.
      destruct Hin as [Hin|[<-|[]]]; [|destruct He].
      rewrite Forall_forall in Hconn. specialize (Hconn e Hin).
      unfold connect_event, setup_event in *. destruct (call_of e); tauto.
    + repeat (cbn [app cleanup_events fold_left hold_step release filter
                     resource_eqb negb]; rewrite ?Z.eqb_refl).
      split; [intros _; left; reflexivity|].
      intros _ _. reflexivity.
Qed.

End Establish.

(** * Examples: the theorems at concrete inputs *)

Section Examples.
Local Existing Instance mbedtls_codes.

(** C1, counterexample.  The library delivers 3 bytes and then a peer
    close notify: the call returns 3, not -2. *)
Lemma peer_close_after_data_returns_the_count :
  value (HAL_iTLS_Read 7 1000 10 500
           (initial_world [3; MBEDTLS_ERR_SSL_PEER_CLOSE_NOTIFY] []))
  = Some 3
  /\ 3 <> -2.
Proof. split; [reflexivity|discriminate]. Qed.

(** C1, witness: a filled buffer, a timeout after data, a timeout with no
    data, a peer close with no data, another error after data. *)
Lemma HAL_iTLS_Read_outcomes_witness :
  value (HAL_iTLS_Read 7 1000 10 500
           (initial_world [4; 6; 0] [])) = Some 10
  /\ value (HAL_iTLS_Read 7 1000 10 500
              (initial_world [3; MBEDTLS_ERR_SSL_TIMEOUT] [])) = Some 3
  /\ value (HAL_iTLS_Read 7 1000 10 500
              (initial_world [MBEDTLS_ERR_SSL_TIMEOUT] [])) = Some 0
  /\ value (HAL_iTLS_Read 7 1000 10 500
              (initial_world [MBEDTLS_ERR_SSL_PEER_CLOSE_NOTIFY] []))
     = Some (-2)
  /\ value (HAL_iTLS_Read 7 1000 10 500
              (initial_world [3; -0x7100] [])) = Some (-1).
Proof.
  split; [|split; [|split; [|split]]].
  - refine (proj1 (HAL_iTLS_Read_outcomes 7 1000 10 500
                     (initial_world [4; 6; 0] []) [4; 6] [0] _ _ _ eq_refl)
              eq_refl); side.
  - refine (proj1 (proj2 (proj2 (proj2
              (HAL_iTLS_Read_outcomes 7 1000 10 500
                 (initial_world [3; MBEDTLS_ERR_SSL_TIMEOUT] [])
                 [3] [MBEDTLS_ERR_SSL_TIMEOUT] _ _ _ eq_refl) _
              MBEDTLS_ERR_SSL_TIMEOUT [] eq_refl))) (or_introl eq_refl)); side.
  - refine (proj1 (proj2 (proj2 (proj2
              (HAL_iTLS_Read_outcomes 7 1000 10 500
                 (initial_world [MBEDTLS_ERR_SSL_TIMEOUT] [])
                 [] [MBEDTLS_ERR_SSL_TIMEOUT] _ _ _ eq_refl) _
              MBEDTLS_ERR_SSL_TIMEOUT [] eq_refl))) (or_introl eq_refl)); side.
  - refine (proj1 (proj2 (proj2
              (HAL_iTLS_Read_outcomes 7 1000 10 500
                 (initial_world [MBEDTLS_ERR_SSL_PEER_CLOSE_NOTIFY] [])
                 [] [MBEDTLS_ERR_SSL_PEER_CLOSE_NOTIFY] _ _ _ eq_refl) _
              MBEDTLS_ERR_SSL_PEER_CLOSE_NOTIFY [] eq_refl)) eq_refl); side.
  - refine (proj2 (proj2 (proj2 (proj2
              (HAL_iTLS_Read_outcomes 7 1000 10 500
                 (initial_world [3; -0x7100] [])
                 [3] [-0x7100] _ _ _ eq_refl) _
              (-0x7100) [] eq_refl))) _ _ _ _ _ _); side.
Defined.

(** C2, the failing input.  [mbedtls_ssl_write] accepts 4 of 10 bytes and
    then returns 0: [HAL_iTLS_Write] returns 0 although 4 bytes were
    written. *)
Theorem write_timeout_after_partial_write_returns_0 :
  value (HAL_iTLS_Write 7 1000 10 500 (initial_world [4; 0] [])) = Some 0
  /\ events_of (HAL_iTLS_Write 7 1000 10 500 (initial_world [4; 0] []))
     = [Ret (mbedtls_ssl_write 7 1000 10) 4; Ret (mbedtls_ssl_write 7 1004 6) 0]
  /\ bytes_written
       (events_of (HAL_iTLS_Write 7 1000 10 500 (initial_world [4; 0] []))) = 4.
Proof. repeat split. Qed.

(** C3, counterexample.  The library's code -0x7100 comes back as -1 from
    read and from write, and its PEER_CLOSE_NOTIFY comes back as -2: the
    value returned is not the library's. *)
Lemma library_codes_are_not_forwarded :
  value (HAL_iTLS_Read 7 1000 10 500 (initial_world [-0x7100] [])) = Some (-1)
  /\ value (HAL_iTLS_Write 7 1000 10 500 (initial_world [-0x7100] []))
     = Some (-1)
  /\ value (HAL_iTLS_Read 7 1000 10 500
              (initial_world [MBEDTLS_ERR_SSL_PEER_CLOSE_NOTIFY] []))
     = Some (-2)
  /\ -0x7100 <> -1
  /\ MBEDTLS_ERR_SSL_PEER_CLOSE_NOTIFY <> -2.
Proof. repeat split; discriminate. Qed.

(** C3, witness: a read ended by a peer close notify and a write ended
    by an error. *)
Lemma negative_results_are_local_codes_witness :
  value (HAL_iTLS_Read 7 1000 10 500
           (initial_world [MBEDTLS_ERR_SSL_PEER_CLOSE_NOTIFY] [])) = Some (-2)
  /\ (-2 = -1 \/ -2 = -2)
  /\ value (HAL_iTLS_Write 7 1000 10 500 (initial_world [-0x7100] []))
     = Some (-1)
  /\ -1 = -1.
Proof.
  split; [reflexivity|]. split; [|split; [reflexivity|]].
  - exact (proj1
             (proj1 (negative_results_are_local_codes 7 1000 10 500
                       (initial_world [MBEDTLS_ERR_SSL_PEER_CLOSE_NOTIFY] [])
                       ltac:(unfold INT_MAX; lia) ltac:(left; reflexivity))
                (-2)
                (mk_world (-2) [] (fun _ _ => []) []
                   [Void (mbedtls_ssl_conf_read_timeout 7 500);
                    Ret (mbedtls_ssl_read 7 1000 10)
                      MBEDTLS_ERR_SSL_PEER_CLOSE_NOTIFY])
                [Void (mbedtls_ssl_conf_read_timeout 7 500);
                 Ret (mbedtls_ssl_read 7 1000 10)
                   MBEDTLS_ERR_SSL_PEER_CLOSE_NOTIFY]
                eq_refl eq_refl
                ltac:(repeat constructor; simpl; lia) ltac:(lia))).
  - exact (proj2 (negative_results_are_local_codes 7 1000 10 500
                    (initial_world [-0x7100] [])
                    ltac:(unfold INT_MAX; lia) ltac:(left; reflexivity))
             (-1)
             (mk_world 0 [] (fun _ _ => []) []
                [Ret (mbedtls_ssl_write 7 1000 10) (-0x7100)])
             [Ret (mbedtls_ssl_write 7 1000 10) (-0x7100)] eq_refl eq_refl
             ltac:(repeat constructor; simpl; lia) ltac:(lia)).
Defined.

(** C4, counterexample.  A write called with [timeout_ms = 5000] makes one
    call, [mbedtls_ssl_write], which carries no timeout, and runs exactly
    as the same write called with [timeout_ms = 1]. *)
Lemma write_never_hands_over_timeout_ms :
  value (HAL_iTLS_Write 7 1000 10 5000 (initial_world [10] [])) = Some 10
  /\ events_of (HAL_iTLS_Write 7 1000 10 5000 (initial_world [10] []))
     = [Ret (mbedtls_ssl_write 7 1000 10) 10]
  /\ timeout_argument (mbedtls_ssl_write 7 1000 10) = None
  /\ HAL_iTLS_Write 7 1000 10 5000 (initial_world [10] [])
     = HAL_iTLS_Write 7 1000 10 1 (initial_world [10] []).
Proof. repeat split. Qed.

(** C7, counterexample.  The only [connect] made fails, the socket for
    the last address cannot be created: the result is SOCKET_FAILED, not
    CONNECT_FAILED. *)
Lemma socket_failure_after_refused_connect :
  value (mbedtls_net_connect_timeout 4096 "iot.example.com" "443"
           MBEDTLS_NET_PROTO_TCP SEND_TIMEOUT_SECONDS
           (initial_world [0; 5; 0; -1; -1] [addr_v4; addr_v6]))
  = Some MBEDTLS_ERR_NET_SOCKET_FAILED
  /\ events_of (mbedtls_net_connect_timeout 4096 "iot.example.com" "443"
                  MBEDTLS_NET_PROTO_TCP SEND_TIMEOUT_SECONDS
                  (initial_world [0; 5; 0; -1; -1] [addr_v4; addr_v6]))
     = [Void signal_SIGPIPE_SIG_IGN;
        Ret (getaddrinfo "iot.example.com" "443" AF_UNSPEC SOCK_STREAM
               IPPROTO_TCP) 0;
        Ret (socket AF_INET SOCK_STREAM IPPROTO_TCP) 5;
        Ret (setsockopt_SO_SNDTIMEO 5 10 0) 0;
        Ret (connect 5 "192.0.2.1") (-1);
        Void (close 5);
        Ret (socket AF_INET6 SOCK_STREAM IPPROTO_TCP) (-1);
        Void freeaddrinfo]
  /\ MBEDTLS_ERR_NET_SOCKET_FAILED <> MBEDTLS_ERR_NET_CONNECT_FAILED.
Proof. repeat split. discriminate. Qed.

(** C7, witness: a failed resolution, a connection at the second
    address, and two addresses that both fail. *)
Lemma mbedtls_net_connect_timeout_spec_witness :
  value (mbedtls_net_connect_timeout 4096 "iot.example.com" "443"
           MBEDTLS_NET_PROTO_TCP SEND_TIMEOUT_SECONDS
           (initial_world [1] [addr_v4; addr_v6]))
  = Some MBEDTLS_ERR_NET_UNKNOWN_HOST
  /\ mbedtls_net_connect_timeout 4096 "iot.example.com" "443"
       MBEDTLS_NET_PROTO_TCP SEND_TIMEOUT_SECONDS
       (initial_world [0; 5; 0; -1; 6; 0; 0] [addr_v4; addr_v6])
     = Some (0,
             mk_world 0 [] (fun _ _ => [addr_v4; addr_v6])
               [(4096, 6); (4096, 5)]
               [Void signal_SIGPIPE_SIG_IGN;
                Ret (getaddrinfo "iot.example.com" "443" AF_UNSPEC SOCK_STREAM
                       IPPROTO_TCP) 0;
                Ret (socket AF_INET SOCK_STREAM IPPROTO_TCP) 5;
                Ret (setsockopt_SO_SNDTIMEO 5 10 0) 0;
                Ret (connect 5 "192.0.2.1") (-1);
                Void (close 5);
                Ret (socket AF_INET6 SOCK_STREAM IPPROTO_TCP) 6;
                Ret (setsockopt_SO_SNDTIMEO 6 10 0) 0;
                Ret (connect 6 "2001:db8::1") 0;
                Void freeaddrinfo])
  /\ value (mbedtls_net_connect_timeout 4096 "iot.example.com" "443"
              MBEDTLS_NET_PROTO_TCP SEND_TIMEOUT_SECONDS
              (initial_world [0; -1; 6; 0; -1] [addr_v4; addr_v6]))
     = Some MBEDTLS_ERR_NET_CONNECT_FAILED.
Proof.
  split; [|split].
  - exact (f_equal value
             (proj1 (proj2 (mbedtls_net_connect_timeout_spec 4096
                              "iot.example.com" "443"
                              (initial_world [1] [addr_v4; addr_v6])))
                1 [] eq_refl ltac:(discriminate))).
  - exact (proj1 (proj2 (proj2 (mbedtls_net_connect_timeout_spec 4096
                                  "iot.example.com" "443"
                                  (initial_world [0; 5; 0; -1; 6; 0; 0]
                                     [addr_v4; addr_v6]))))
             [addr_v4] addr_v6 [] [connect_failed 5 0 (-1)] 6 0 []
             eq_refl eq_refl
             ltac:(repeat constructor; simpl; lia) ltac:(lia) eq_refl).
  - exact (f_equal value
             (proj1 (proj2 (proj2 (proj2
                (mbedtls_net_connect_timeout_spec 4096
                   "iot.example.com" "443"
                   (initial_world [0; -1; 6; 0; -1] [addr_v4; addr_v6])))))
                [socket_failed (-1); connect_failed 6 0 (-1)] []
                eq_refl ltac:(repeat constructor; simpl; lia) eq_refl)).
Defined.

(** C8, witness: a close recorded by a read on handle 7 is reported by
    a read on handle 8; after a timeout on handle 7, and in a world where
    nothing was read before, the same read on handle 8 returns 0. *)
Lemma close_notify_is_remembered_witness :
  (exists w1 w2,
      HAL_iTLS_Read 7 1000 10 500
        (initial_world [3; MBEDTLS_ERR_SSL_PEER_CLOSE_NOTIFY; 0] [])
      = Some (3, w1)
      /\ net_status w1 = -2
      /\ HAL_iTLS_Read 8 2000 16 500 w1 = Some (-2, w2)
      /\ trace w2
         = trace w1 ++ [Void (mbedtls_ssl_conf_read_timeout 8 500);
                        Ret (mbedtls_ssl_read 8 2000 16) 0]
      /\ net_status w2 = -2)
  /\ (exists w1 w2,
         HAL_iTLS_Read 7 1000 10 500
           (initial_world [3; MBEDTLS_ERR_SSL_TIMEOUT; 0] [])
         = Some (3, w1)
         /\ net_status w1 = 0
         /\ HAL_iTLS_Read 8 2000 16 500 w1 = Some (0, w2)
         /\ trace w2
            = trace w1 ++ [Void (mbedtls_ssl_conf_read_timeout 8 500);
                           Ret (mbedtls_ssl_read 8 2000 16) 0])
  /\ HAL_iTLS_Read 8 2000 16 500 (initial_world [0] [])
     = Some (0, mk_world 0 [] (fun _ _ => []) []
                  [Void (mbedtls_ssl_conf_read_timeout 8 500);
                   Ret (mbedtls_ssl_read 8 2000 16) 0]).
Proof.
  split; [|split].
  - exact (proj1 (close_notify_is_remembered_across_calls
                    7 1000 10 500 8 2000 16 500
                    (initial_world [3; MBEDTLS_ERR_SSL_PEER_CLOSE_NOTIFY; 0] [])
                    [3] []
                    ltac:(repeat constructor) ltac:(discriminate)
                    ltac:(unfold INT_MAX; simpl; lia) ltac:(unfold INT_MAX; lia))
             eq_refl).
  - exact (proj1 (proj2 (close_notify_is_remembered_across_calls
                    7 1000 10 500 8 2000 16 500
                    (initial_world [3; MBEDTLS_ERR_SSL_TIMEOUT; 0] [])
                    [3] []
                    ltac:(repeat constructor) ltac:(discriminate)
                    ltac:(unfold INT_MAX; simpl; lia) ltac:(unfold INT_MAX; lia)))
             eq_refl).
  - exact (proj2 (proj2 (close_notify_is_remembered_across_calls
                    7 1000 10 500 8 2000 16 500
                    (initial_world [3; MBEDTLS_ERR_SSL_TIMEOUT; 0] [])
                    [3] []
                    ltac:(repeat constructor) ltac:(discriminate)
                    ltac:(unfold INT_MAX; simpl; lia) ltac:(unfold INT_MAX; lia)))
             (initial_world [0] []) [] eq_refl).
Defined.

(** C4, witness: the read timeout is the first call of a read. *)
Lemma timeout_ms_reaches_read_only_witness :
  exists evs,
    [Void (mbedtls_ssl_conf_read_timeout 7 500);
     Ret (mbedtls_ssl_read 7 1000 10) 10]
    = [] ++ Void (mbedtls_ssl_conf_read_timeout 7 500) :: evs
    /\ Forall (is_ssl_read 7) evs.
Proof.
  exact (proj1 (timeout_ms_reaches_read_only 7 1000 10 500
                  (initial_world [10] []))
           10
           (mk_world 0 [] (fun _ _ => []) []
              [Void (mbedtls_ssl_conf_read_timeout 7 500);
               Ret (mbedtls_ssl_read 7 1000 10) 10])
           eq_refl).
Defined.

(** A write completed in two steps. *)
Lemma HAL_iTLS_Write_complete_witness :
  exists w',
    HAL_iTLS_Write 7 1000 10 500 (initial_world [4; 6] []) = Some (10, w')
    /\ trace w'
       = trace (initial_world [4; 6] [])
         ++ chunk_events (mbedtls_ssl_write 7) 1000 10 0 [4; 6]
    /\ bytes_written (chunk_events (mbedtls_ssl_write 7) 1000 10 0 [4; 6]) = 10.
Proof.
  exact (HAL_iTLS_Write_complete 7 1000 10 500 (initial_world [4; 6] [])
           [4; 6] [] ltac:(unfold INT_MAX; lia) ltac:(repeat constructor)
           eq_refl eq_refl).
Defined.


(** A handshake that fails after the connect step: everything is
    released. *)
Lemma establish_resources_witness :
  value (HAL_iTLS_Establish false "iot.example.com" 443 "a1AbCdEfGhI"
           (initial_world [4096; 0; -1] [])) = Some NULL
  /\ held_after
       (events_of (HAL_iTLS_Establish false "iot.example.com" 443
                     "a1AbCdEfGhI" (initial_world [4096; 0; -1] [])))
     = [].
Proof.
  split; [reflexivity|].
  exact (proj2 (proj2
           (establish_resources false "iot.example.com" 443 "a1AbCdEfGhI"
              (initial_world [4096; 0; -1] []) NULL
              (mk_world 0 [] (fun _ _ => []) []
                 [Ret HAL_Malloc 4096; Void (memset 4096 0);
                  Void (mbedtls_ssl_init 4096); Void (mbedtls_net_init 4096);
                  Void (mbedtls_ssl_config_init 4096);
                  Ret (mbedtls_net_connect 4096 "iot.example.com" "443"
                         MBEDTLS_NET_PROTO_TCP) 0;
                  Ret (mbedtls_ssl_config_defaults 4096) (-1);
                  Void (mbedtls_net_free 4096); Void (mbedtls_ssl_free 4096);
                  Void (mbedtls_ssl_config_free 4096); Void (HAL_Free 4096)])
              _ eq_refl eq_refl))
           eq_refl
           ltac:(do 6 apply Exists_cons_tl; apply Exists_cons_hd; exact I)).
Defined.

End Examples.

(** C9, witness. *)
Lemma HAL_iTLS_Destroy_witness :
  HAL_iTLS_Destroy NULL (initial_world [] []) = Some (0, initial_world [] [])
  /\ HAL_iTLS_Destroy 4096 (initial_world [] [])
     = Some (0, mk_world 0 [] (fun _ _ => []) []
                  [Void (mbedtls_ssl_close_notify 4096);
                   Void (mbedtls_net_free 4096);
                   Void (mbedtls_ssl_free 4096);
                   Void (mbedtls_ssl_config_free 4096);
                   Void (HAL_Free 4096)]).
Proof.
  split.
  - exact (proj1 (HAL_iTLS_Destroy_spec NULL (initial_world [] [])) eq_refl).
  - exact (proj2 (HAL_iTLS_Destroy_spec 4096 (initial_world [] []))
             ltac:(discriminate)).
Defined.

(** C10, witness: the largest port. *)
Lemma port_str_never_overrun_witness :
  (String.length (sprintf_u 65535) <= 5)%nat
  /\ bytes_stored (sprintf_u 65535) <= sizeof_port_str.
Proof. exact (port_str_never_overrun 65535 ltac:(lia)). Defined.

(** * Further properties of the code *)

(** ** The random-number callback *)

Lemma to_uint8_avRandom (hi lo : Z) :
  to_uint8 (to_uint32 (Z.shiftl (to_uint32 hi) 16 + lo)) = to_uint8 lo.
Proof.
  unfold to_uint8, to_uint32. rewrite Z.shiftl_mul_pow2 by lia.
  rewrite Z.mod_mod_divide by (exists (2 ^ 24); reflexivity).
  change (2 ^ 16) with (2 ^ 8 * 2 ^ 8).
  rewrite Z.mul_assoc, Z.add_comm, Z_mod_plus_full. reflexivity.
Qed.

Lemma store_length (output : list Z) :
  forall i v output', store output i v = Some output' ->
    List.length output' = List.length output.
Proof.
  induction output as [|b rest IH]; intros i v output' H; [discriminate|].
  destruct i as [|i]; cbn in H.
  - injection H as <-. reflexivity.
  - destruct (store rest i v) as [rest'|] eqn:E; [|discriminate].
    injection H as <-. cbn. f_equal. eapply IH; eassumption.
Qed.

Lemma store_defined (output : list Z) :
  forall i v, (i < List.length output)%nat -> exists output', store output i v = Some output'.
Proof.
  induction output as [|b rest IH]; intros i v Hi; [cbn in Hi; lia|].
  destruct i as [|i]; cbn.
  - eexists; reflexivity.
  - destruct (IH i v) as (rest' & ->); [cbn in Hi; lia|]. eexists; reflexivity.
Qed.

Lemma store_nth (output : list Z) :
  forall i v output' j, store output i v = Some output' ->
    nth j output' 0 = if Nat.eqb j i then v else nth j output 0.
Proof.
  induction output as [|b rest IH]; intros i v output' j H; [discriminate|].
  destruct i as [|i]; cbn in H.
  - injection H as <-. destruct j; reflexivity.
  - destruct (store rest i v) as [rest'|] eqn:E; [|discriminate].
    injection H as <-. destruct j as [|j]; [reflexivity|].
    cbn [nth Nat.eqb]. eapply IH; eassumption.
Qed.

(** One pass over offsets that are all fresh: [n] iterations from offset
    [o] with [o + n <= 256]. *)
Lemma ssl_random_loop_fresh (sf : bool) :
  forall (n : nat) (o : nat) (rands output : list Z),
    (o + n <= 256)%nat -> (o + n <= List.length output)%nat ->
    (2 * n <= List.length rands)%nat ->
    exists output',
      ssl_random_loop sf n (Z.of_nat o) rands output
      = Some (output', skipn (2 * n) rands)
      /\ List.length output' = List.length output
      /\ forall j,
          nth j output' 0
          = if (Nat.leb o j && Nat.ltb j (o + n))%bool
            then to_uint8 (unshifted sf rands (j - o))
            else nth j output 0.
Proof.
  induction n as [|n IH]; intros o rands output Ho Hlen Hr.
  - exists output. split; [reflexivity|]. split; [reflexivity|].
    intros j. replace (Nat.leb o j && Nat.ltb j (o + 0))%bool with false; [reflexivity|].
    symmetry. apply andb_false_iff.
    destruct (Nat.leb o j) eqn:E; [right|left; reflexivity].
    apply Nat.leb_le in E. apply Nat.ltb_ge. lia.
  - destruct rands as [|r1 [|r2 rands]]; [cbn in Hr; lia|cbn in Hr; lia|].
    cbn [ssl_random_loop _avRandom]. rewrite to_uint8_avRandom.
    rewrite Nat2Z.id.
    replace (skipn (2 * S n) (r1 :: r2 :: rands)) with (skipn (2 * n) rands)
      by (replace (2 * S n)%nat with (S (S (2 * n))) by lia; reflexivity).
    destruct (store_defined output o
                (to_uint8 (if sf then r2 else r1)) ltac:(lia)) as (out1 & Hst).
    rewrite Hst.
    assert (Hoff : to_uint8 (Z.of_nat o + 1) = Z.of_nat (S o) \/ (o + n = 255 /\ n = 0)%nat).
    { destruct (Nat.eq_dec o 255) as [->|Hne].
      - right. lia.
      - left. unfold to_uint8. rewrite Z.mod_small by lia. lia. }
    pose proof (store_length _ _ _ _ Hst) as Hl1.
    destruct Hoff as [Hoff|(Hend & ->)].
    + rewrite Hoff.
      destruct (IH (S o) rands out1) as (out2 & Hrun & Hl2 & Hnth);
        [lia|lia|cbn in Hr; lia|].
      exists out2. split; [rewrite Hrun; reflexivity|]. split; [lia|].
      intros j. rewrite Hnth. rewrite (store_nth _ _ _ _ j Hst).
      destruct (Nat.eq_dec j o) as [->|Hjo].
      * rewrite Nat.eqb_refl.
        replace (Nat.leb (S o) o) with false by (symmetry; apply Nat.leb_gt; lia).
        replace (Nat.leb o o) with true by (symmetry; apply Nat.leb_le; lia).
        replace (Nat.ltb o (o + S n)) with true by (symmetry; apply Nat.ltb_lt; lia).
        cbn [andb]. rewrite Nat.sub_diag. unfold unshifted.
        destruct sf; reflexivity.
      * replace (Nat.eqb j o) with false by (symmetry; apply Nat.eqb_neq; lia).
        destruct (Nat.leb (S o) j) eqn:E1.
        -- apply Nat.leb_le in E1.
           replace (Nat.leb o j) with true by (symmetry; apply Nat.leb_le; lia).
           replace (S o + n)%nat with (o + S n)%nat by lia.
           destruct (Nat.ltb j (o + S n)); cbn [andb]; [|reflexivity].
           unfold unshifted. replace (j - o)%nat with (S (j - S o)) by lia.
           replace (2 * S (j - S o))%nat with (S (S (2 * (j - S o)))) by lia.
           reflexivity.
        -- apply Nat.leb_gt in E1.
           replace (Nat.leb o j) with false by (symmetry; apply Nat.leb_gt; lia).
           reflexivity.
    + cbn [ssl_random_loop]. exists out1.
      split; [reflexivity|]. split; [lia|].
      intros j. rewrite (store_nth _ _ _ _ j Hst).
      destruct (Nat.eq_dec j o) as [->|Hjo].
      * rewrite Nat.eqb_refl.
        replace (Nat.leb o o) with true by (symmetry; apply Nat.leb_le; lia).
        replace (Nat.ltb o (o + 1)) with true by (symmetry; apply Nat.ltb_lt; lia).
        cbn [andb]. rewrite Nat.sub_diag. unfold unshifted. destruct sf; reflexivity.
      * replace (Nat.eqb j o) with false by (symmetry; apply Nat.eqb_neq; lia).
        replace (Nat.leb o j && Nat.ltb j (o + 1))%bool with false; [reflexivity|].
        symmetry. apply andb_false_iff.
        destruct (Nat.leb o j) eqn:E; [right|left; reflexivity].
        apply Nat.leb_le in E. apply Nat.ltb_ge. lia.
Qed.

(** With a buffer of at least 256 bytes no store leaves the buffer,
    whatever the number of iterations, and no byte from offset 256 on is
    touched. *)
Lemma ssl_random_loop_wrapping (sf : bool) :
  forall (n : nat) (o : Z) (rands output : list Z),
    0 <= o < 256 -> (256 <= List.length output)%nat ->
    (2 * n <= List.length rands)%nat ->
    exists output',
      ssl_random_loop sf n o rands output = Some (output', skipn (2 * n) rands)
      /\ List.length output' = List.length output
      /\ forall j, (256 <= j)%nat -> nth j output' 0 = nth j output 0.
Proof.
  induction n as [|n IH]; intros o rands output Ho Hlen Hr.
  - exists output. repeat split; reflexivity.
  - destruct rands as [|r1 [|r2 rands]]; [cbn in Hr; lia|cbn in Hr; lia|].
    cbn [ssl_random_loop _avRandom].
    replace (skipn (2 * S n) (r1 :: r2 :: rands)) with (skipn (2 * n) rands)
      by (replace (2 * S n)%nat with (S (S (2 * n))) by lia; reflexivity).
    destruct (store_defined output (Z.to_nat o)
                (to_uint8 (to_uint32 (Z.shiftl
                   (to_uint32 (if sf then r1 else r2)) 16
                   + (if sf then r2 else r1)))) ltac:(lia)) as (out1 & Hst).
    rewrite Hst. pose proof (store_length _ _ _ _ Hst) as Hl1.
    destruct (IH (to_uint8 (o + 1)) rands out1) as (out2 & Hrun & Hl2 & Hnth).
    + unfold to_uint8. apply Z.mod_pos_bound. lia.
    + lia.
    + cbn in Hr. lia.
    + exists out2. split; [exact Hrun|]. split; [lia|].
      intros j Hj. rewrite (Hnth j Hj), (store_nth _ _ _ _ j Hst).
      replace (Nat.eqb j (Z.to_nat o)) with false
        by (symmetry; apply Nat.eqb_neq; lia).
      reflexivity.
Qed.

(** [_ssl_random] on at most 256 bytes: it returns 0, uses two values of
    [rand] per byte, stores nothing outside the first [output_len] bytes,
    and byte [j] is the low byte of the value of [rand] that was not
    shifted: the shifted value never reaches the output. *)
Theorem _ssl_random_fills_short_buffers
    (shifted_first : bool) (rands output : list Z) (output_len : Z) :
  0 <= output_len <= 256 ->
  output_len <= Z.of_nat (List.length output) ->
  2 * output_len <= Z.of_nat (List.length rands) ->
  exists output',
    _ssl_random shifted_first rands output output_len
    = Some (0, output', skipn (2 * Z.to_nat output_len) rands)
    /\ List.length output' = List.length output
    /\ forall j,
        nth j output' 0
        = if (Z.of_nat j <? output_len)
          then to_uint8 (unshifted shifted_first rands j)
          else nth j output 0.
Proof.
  intros Hn Hout Hr. unfold _ssl_random.
  rewrite to_uint32_small by lia.
  destruct (ssl_random_loop_fresh shifted_first (Z.to_nat output_len) 0 rands
              output ltac:(lia) ltac:(lia) ltac:(lia))
    as (out & Hrun & Hlen & Hnth).
  cbn [Z.of_nat] in Hrun. rewrite Hrun. exists out.
  split; [reflexivity|]. split; [exact Hlen|].
  intros j. rewrite Hnth. cbn [Nat.leb andb Nat.add]. rewrite Nat.sub_0_r.
  destruct (Z.ltb_spec (Z.of_nat j) output_len) as [H|H].
  - replace (Nat.ltb j (Z.to_nat output_len)) with true
      by (symmetry; apply Nat.ltb_lt; lia). reflexivity.
  - replace (Nat.ltb j (Z.to_nat output_len)) with false
      by (symmetry; apply Nat.ltb_ge; lia). reflexivity.
Qed.

(** [_ssl_random] on more than 256 bytes: [rngoffset] is a [uint8_t] and
    wraps, so the call still returns 0 and uses two values of [rand] per
    requested byte, but every byte from offset 256 on is left as it was. *)
Theorem _ssl_random_never_writes_past_256
    (shifted_first : bool) (rands output : list Z) (output_len : Z) :
  256 < output_len < 2 ^ 32 ->
  output_len <= Z.of_nat (List.length output) ->
  2 * output_len <= Z.of_nat (List.length rands) ->
  exists output',
    _ssl_random shifted_first rands output output_len
    = Some (0, output', skipn (2 * Z.to_nat output_len) rands)
    /\ List.length output' = List.length output
    /\ forall j, (256 <= j)%nat -> nth j output' 0 = nth j output 0.
Proof.
  intros Hn Hout Hr. unfold _ssl_random.
  rewrite to_uint32_small by lia.
  destruct (ssl_random_loop_wrapping shifted_first (Z.to_nat output_len) 0
              rands output ltac:(lia) ltac:(lia) ltac:(lia))
    as (out & Hrun & Hlen & Hnth).
  rewrite Hrun. exists out. repeat split; assumption.
Qed.

Lemma _ssl_random_fills_short_buffers_witness :
  exists output',
    _ssl_random true [1; 0x1234; 2; 0x56ff; 3; 0x100] [9; 9; 9; 9] 3
    = Some (0, output', [])
    /\ List.length output' = 4%nat
    /\ forall j,
        nth j output' 0
        = if (Z.of_nat j <? 3)
          then to_uint8 (unshifted true [1; 0x1234; 2; 0x56ff; 3; 0x100] j)
          else nth j [9; 9; 9; 9] 0.
Proof.
  exact (_ssl_random_fills_short_buffers true
           [1; 0x1234; 2; 0x56ff; 3; 0x100] [9; 9; 9; 9] 3
           ltac:(lia) ltac:(simpl; lia) ltac:(simpl; lia)).
Defined.

Lemma _ssl_random_never_writes_past_256_witness :
  exists output',
    _ssl_random false (repeat 7 520) (repeat 0 260) 260
    = Some (0, output', skipn (2 * Z.to_nat 260) (repeat 7 520))
    /\ List.length output' = List.length (repeat 0 260)
    /\ forall j, (256 <= j)%nat -> nth j output' 0 = nth j (repeat 0 260) 0.
Proof.
  exact (_ssl_random_never_writes_past_256 false (repeat 7 520) (repeat 0 260)
           260 ltac:(lia) ltac:(rewrite repeat_length; lia)
           ltac:(rewrite repeat_length; lia)).
Defined.

(** ** Sockets of the connect step *)

Section ConnectSockets.
Context {codes : itls_codes}.

Lemma net_code_facts :
  MBEDTLS_ERR_NET_SOCKET_FAILED <> 0 /\ MBEDTLS_ERR_NET_CONNECT_FAILED <> 0
  /\ MBEDTLS_ERR_NET_UNKNOWN_HOST <> 0.
Proof.
  pose proof codes_negative as N.
  repeat match goal with
         | H : Forall _ (_ :: _) |- _ => inversion H; clear H; subst
         end.
  repeat split; lia.
Qed.

Lemma connect_loop_sockets (ctx timeout : Z) :
  forall (cur : list addrinfo) (ret0 : Z) (w : world) r w',
    connect_loop ctx timeout cur ret0 w = Some (r, w') ->
    exists evs,
      trace w' = trace w ++ evs
      /\ Forall attempt_event evs
      /\ ((exists fd rest,
              0 <= fd /\ r = 0 /\ ctx_fd w' = (ctx, fd) :: rest
              /\ forall opened, open_sockets opened evs = fd :: opened)
          \/ ((r = ret0 \/ r = MBEDTLS_ERR_NET_SOCKET_FAILED
               \/ r = MBEDTLS_ERR_NET_CONNECT_FAILED)
              /\ forall opened, open_sockets opened evs = opened)).
Proof.
  induction cur as [|a cur IH]; intros ret0 w r w' Hrun.
  - injection Hrun as <- <-. exists []. rewrite app_nil_r.
    split; [reflexivity|]. split; [constructor|].
    right. split; [left; reflexivity|reflexivity].
  - cbn [connect_loop] in Hrun. unfold bind at 1, ask at 1 in Hrun.
    destruct (answers w) as [|fd ans1]; [discriminate|].
    unfold bind at 1, store_fd at 1 in Hrun.
    destruct (fd <? 0) eqn:Efd.
    + apply IH in Hrun. destruct Hrun as (evs & Htr & Hev & Hcase).
      eexists (_ :: evs). split; [|split].
      * rewrite Htr. world_simpl. rewrite <- app_assoc. reflexivity.
      * constructor; [exact I|exact Hev].
      * destruct Hcase as [(fd' & rest & H0 & Hr & Hctx & Hop)|(Hr & Hop)].
        -- left. exists fd', rest. repeat split; try assumption.
           intros opened. unfold open_sockets. cbn [fold_left socket_step].
           rewrite Efd. apply Hop.
        -- right. split; [tauto|].
           intros opened. unfold open_sockets. cbn [fold_left socket_step].
           rewrite Efd. apply Hop.
    + apply Z.ltb_ge in Efd.
      unfold bind at 1, ask at 1 in Hrun. world_simpl in Hrun.
      destruct ans1 as [|so ans2]; [discriminate|].
      unfold bind at 1, ask at 1 in Hrun. world_simpl in Hrun.
      destruct ans2 as [|c ans3]; [discriminate|].
      destruct (c =? 0).
      * injection Hrun as <- <-. eexists [_; _; _]. split; [|split].
        -- world_simpl. rewrite <- !app_assoc. reflexivity.
        -- repeat constructor.
        -- left. exists fd, (ctx_fd w). repeat split; try assumption.
           intros opened. unfold open_sockets. cbn [fold_left socket_step].
           replace (fd <? 0) with false by (symmetry; apply Z.ltb_ge; lia).
           reflexivity.
      * unfold bind at 1, emit at 1 in Hrun.
        apply IH in Hrun. destruct Hrun as (evs & Htr & Hev & Hcase).
        eexists (_ :: _ :: _ :: _ :: evs). split; [|split].
        -- rewrite Htr. world_simpl. rewrite <- !app_assoc. reflexivity.
        -- repeat (constructor; [exact I|]). exact Hev.
        -- assert (Hfold : forall opened,
                      open_sockets opened
                        (Ret (socket (ai_family a) (ai_socktype a)
                                (ai_protocol a)) fd
                         :: Ret (setsockopt_SO_SNDTIMEO fd timeout 0) so
                         :: Ret (connect fd (ai_addr a)) c
                         :: Void (close fd) :: evs)
                      = open_sockets opened evs).
           { assert (Hfd : (fd <? 0) = false) by (apply Z.ltb_ge; lia).
             intros opened. unfold open_sockets.
             repeat (cbn [fold_left socket_step remove_one];
                     rewrite ?Hfd, ?Z.eqb_refl).
             reflexivity. }
           destruct Hcase as [(fd' & rest & H0 & Hr & Hctx & Hop)|(Hr & Hop)].
           ++ left. exists fd', rest. repeat split; try assumption.
              intros opened. rewrite Hfold. apply Hop.
           ++ right. split; [tauto|]. intros opened. rewrite Hfold. apply Hop.
Qed.

(** The connect step on Linux leaks no socket and no address list: it
    returns 0 with exactly one more socket open, the one stored in the
    network context, or it returns one of the three error codes with every
    socket it opened closed again; the address list is freed exactly when
    [getaddrinfo] succeeded. *)
Theorem mbedtls_net_connect_timeout_leaves_no_socket
    (ctx : Z) (host port : string) (proto : net_proto) (timeout : Z)
    (w : world) (r : Z) (w' : world) (evs : list event) (opened : list Z) :
  mbedtls_net_connect_timeout ctx host port proto timeout w = Some (r, w') ->
  trace w' = trace w ++ evs ->
  (r = 0 ->
   exists fd rest,
     0 <= fd /\ ctx_fd w' = (ctx, fd) :: rest
     /\ open_sockets opened evs = fd :: opened)
  /\ (r <> 0 ->
      open_sockets opened evs = opened
      /\ (r = MBEDTLS_ERR_NET_UNKNOWN_HOST
          \/ r = MBEDTLS_ERR_NET_SOCKET_FAILED
          \/ r = MBEDTLS_ERR_NET_CONNECT_FAILED))
  /\ (exists g others,
        evs = Void signal_SIGPIPE_SIG_IGN
              :: Ret (getaddrinfo host port AF_UNSPEC
                        (if net_proto_eqb proto MBEDTLS_NET_PROTO_UDP
                         then SOCK_DGRAM else SOCK_STREAM)
                        (if net_proto_eqb proto MBEDTLS_NET_PROTO_UDP
                         then IPPROTO_UDP else IPPROTO_TCP)) g
              :: others
        /\ (g = 0 -> exists tried, others = tried ++ [Void freeaddrinfo]
                                   /\ ~ In (Void freeaddrinfo) tried)
        /\ (g <> 0 -> others = [])).
Proof.
  pose proof net_code_facts as (Ns & Nc & Nu).
  unfold mbedtls_net_connect_timeout, net_prepare.
  unfold bind at 1 2, emit at 1, Return at 1. cbn [Z.eqb negb].
  unfold bind at 1, ask at 1. world_simpl.
  destruct (answers w) as [|g ans]; [discriminate|].
  destruct (g =? 0) eqn:Eg; cbn [negb].
  - apply Z.eqb_eq in Eg. subst g. unfold bind at 1. world_simpl.
    destruct (connect_loop _ _ _ _ _) as [[ret w1]|] eqn:Hloop; [|discriminate].
    apply connect_loop_sockets in Hloop.
    destruct Hloop as (evs0 & Htr0 & Hev0 & Hcase).
    unfold bind, emit, Return. intros H Htr. injection H as <- <-.
    world_simpl in Htr0. world_simpl in Htr. rewrite Htr0 in Htr.
    rewrite <- !app_assoc in Htr. apply app_inv_head in Htr. cbn [app] in Htr.
    subst evs.
    assert (Hopen : forall o,
               open_sockets o (Void signal_SIGPIPE_SIG_IGN
                               :: Ret (getaddrinfo host port AF_UNSPEC
                                         (if net_proto_eqb proto MBEDTLS_NET_PROTO_UDP
                                          then SOCK_DGRAM else SOCK_STREAM)
                                         (if net_proto_eqb proto MBEDTLS_NET_PROTO_UDP
                                          then IPPROTO_UDP else IPPROTO_TCP)) 0
                               :: evs0 ++ [Void freeaddrinfo])
               = open_sockets o evs0).
    { intros o. unfold open_sockets. cbn [fold_left socket_step].
      rewrite fold_left_app. reflexivity. }
    split; [|split].
    + intros Hr.
      destruct Hcase as [(fd & rest & H0 & _ & Hctx & Hop)|([E|[E|E]] & _)];
        try congruence.
      exists fd, rest. split; [exact H0|]. split; [exact Hctx|].
      rewrite Hopen. apply Hop.
    + intros Hr.
      destruct Hcase as [(fd & rest & H0 & E & _)|(Hret & Hop)]; [congruence|].
      split; [rewrite Hopen; apply Hop|tauto].
    + exists 0, (evs0 ++ [Void freeaddrinfo]). split; [reflexivity|].
      split; [|intros H; congruence].
      intros _. exists evs0. split; [reflexivity|].
      intros Hin. rewrite Forall_forall in Hev0.
      exact (Hev0 _ Hin).
  - apply Z.eqb_neq in Eg. intros H Htr. injection H as <- <-.
    world_simpl in Htr. rewrite <- !app_assoc in Htr.
    apply app_inv_head in Htr. cbn [app] in Htr. subst evs.
    split; [intros; congruence|]. split.
    + intros _. split; [reflexivity|left; reflexivity].
    + exists g, []. split; [reflexivity|]. split; [congruence|reflexivity].
Qed.

End ConnectSockets.

(** ** Buffers and byte counts *)

Section Accounting.
Context {codes : itls_codes}.

Lemma bytes_read_nonneg (evs : list event) : 0 <= bytes_read evs.
Proof.
  induction evs as [|[c0|c0 r0] evs IHe]; cbn; try lia.
  destruct c0; try lia.
  destruct (0 <? r0) eqn:E; [apply Z.ltb_lt in E|]; lia.
Qed.

Lemma read_loop_account (p buffer len : Z) :
  0 <= len <= INT_MAX ->
  forall (script : list Z) (readLen : Z) (w : world) x w',
    0 <= readLen <= len ->
    (0 < readLen -> net_status w = 0) ->
    read_loop p buffer len script readLen w = Some (x, w') ->
    exists evs,
      trace w' = trace w ++ evs
      /\ (Forall within_request evs ->
          Forall (inside_buffer buffer len) evs
          /\ readLen + bytes_read evs <= len
          /\ match x with
             | Returns v =>
               v = readLen + bytes_read evs \/ v = -1
               \/ (v = -2 /\ readLen + bytes_read evs = 0)
             | Falls c => c = readLen + bytes_read evs
             end).
Proof.
  intros Hlen script. unfold INT_MAX in Hlen.
  induction script as [|r script IH]; intros readLen w x w' Hr Hns Hrun.
  - simpl in Hrun. rewrite (to_uint32_small len) in Hrun by lia.
    destruct (readLen <? len); [discriminate|].
    injection Hrun as <- <-. exists []. rewrite app_nil_r.
    split; [reflexivity|]. intros _. cbn [bytes_read]. rewrite Z.add_0_r.
    split; [constructor|]. split; [lia|reflexivity].
  - destruct (Z.lt_ge_cases readLen len) as [Hlt|Hge].
    2:{ rewrite read_loop_full in Hrun by (unfold INT_MAX; lia).
        injection Hrun as <- <-. exists []. rewrite app_nil_r.
        split; [reflexivity|]. intros _. cbn [bytes_read]. rewrite Z.add_0_r.
        split; [constructor|]. split; [lia|reflexivity]. }
    rewrite read_loop_step in Hrun by (unfold INT_MAX; lia). cbv zeta in Hrun.
    set (e := Ret (mbedtls_ssl_read p (buffer + readLen) (len - readLen)) r) in *.
    assert (He : inside_buffer buffer len e) by (cbn; lia).
    destruct (0 <? r) eqn:Hpos.
    + apply Z.ltb_lt in Hpos.
      destruct (Z.le_gt_cases r (len - readLen)) as [Hin|Hout].
      * rewrite (to_uint32_small (readLen + r)) in Hrun by lia.
        apply IH in Hrun; [|lia|reflexivity].
        destruct Hrun as (evs & Htr & Hok).
        exists (e :: evs). split.
        -- rewrite Htr. world_simpl. rewrite <- app_assoc. reflexivity.
        -- intros Hc. inversion Hc; subst. specialize (Hok ltac:(assumption)).
           destruct Hok as (Hib & Hsum & Hx).
           assert (Hbe : bytes_read (e :: evs) = r + bytes_read evs).
           { unfold e. cbn [bytes_read].
             replace (0 <? r) with true by (symmetry; apply Z.ltb_lt; lia).
             reflexivity. }
           rewrite Hbe, !Z.add_assoc.
           split; [constructor; assumption|]. split; [exact Hsum|exact Hx].
      * apply read_loop_trace in Hrun. destruct Hrun as (evs & Htr & _).
        exists (e :: evs). split.
        -- rewrite Htr. world_simpl. rewrite <- app_assoc. reflexivity.
        -- intros Hc. inversion Hc as [|? ? Hre _]; subst. simpl in Hre. lia.
    + apply Z.ltb_ge in Hpos.
      assert (Hb : readLen + bytes_read [e] = readLen).
      { unfold e. cbn [bytes_read].
        replace (0 <? r) with false by (symmetry; apply Z.ltb_ge; lia). lia. }
      assert (Hone : forall y wy, Some (y, wy) = Some (x, w') ->
                trace wy = trace w ++ [e] ->
                match y with
                | Returns v =>
                  v = readLen \/ v = -1 \/ (v = -2 /\ readLen = 0)
                | Falls c => c = readLen
                end ->
                exists evs,
                  trace w' = trace w ++ evs
                  /\ (Forall within_request evs ->
                      Forall (inside_buffer buffer len) evs
                      /\ readLen + bytes_read evs <= len
                      /\ match x with
                         | Returns v =>
                           v = readLen + bytes_read evs \/ v = -1
                           \/ (v = -2 /\ readLen + bytes_read evs = 0)
                         | Falls c => c = readLen + bytes_read evs
                         end)).
      { intros y wy Hy Ht Hm. injection Hy as <- <-. exists [e].
        split; [exact Ht|]. intros _. rewrite Hb.
        split; [constructor; [exact He|constructor]|]. split; [lia|exact Hm]. }
      destruct (r =? 0).
      { eapply Hone; [exact Hrun|reflexivity|]. world_simpl.
        destruct (net_status w =? -2) eqn:E.
        - apply Z.eqb_eq in E. right. right. rewrite E.
          split; [reflexivity|].
          destruct (Z.eq_dec readLen 0) as [H0|H0]; [exact H0|].
          rewrite Hns in E by lia. discriminate.
        - left. apply to_int_small. unfold INT_MIN, INT_MAX. lia. }
      destruct (MBEDTLS_ERR_SSL_PEER_CLOSE_NOTIFY =? r).
      { eapply Hone; [exact Hrun|reflexivity|reflexivity]. }
      destruct ((MBEDTLS_ERR_SSL_TIMEOUT =? r) || (MBEDTLS_ERR_SSL_CONN_EOF =? r)
                || (MBEDTLS_ERR_SSL_SESSION_TICKET_EXPIRED =? r)
                || (MBEDTLS_ERR_SSL_NON_FATAL =? r)).
      { eapply Hone; [exact Hrun|reflexivity|].
        left. apply to_int_small. unfold INT_MIN, INT_MAX. lia. }
      eapply Hone; [exact Hrun|reflexivity|]. right. left. reflexivity.
Qed.

Lemma write_loop_inside (p buffer len : Z) :
  0 <= len <= INT_MAX ->
  forall (script : list Z) (writtenLen : Z) (w : world) x w',
    0 <= writtenLen <= len ->
    write_loop p buffer len script writtenLen w = Some (x, w') ->
    exists evs,
      trace w' = trace w ++ evs
      /\ (Forall within_request evs -> Forall (inside_buffer buffer len) evs).
Proof.
  intros Hlen script. unfold INT_MAX in Hlen.
  induction script as [|r script IH]; intros writtenLen w x w' Hr Hrun.
  - simpl in Hrun. rewrite (to_uint32_small len) in Hrun by lia.
    destruct (writtenLen <? len); [discriminate|].
    injection Hrun as <- <-. exists []. rewrite app_nil_r.
    split; [reflexivity|constructor].
  - destruct (Z.lt_ge_cases writtenLen len) as [Hlt|Hge].
    2:{ rewrite write_loop_full in Hrun by (unfold INT_MAX; lia).
        injection Hrun as <- <-. exists []. rewrite app_nil_r.
        split; [reflexivity|constructor]. }
    rewrite write_loop_step in Hrun by (unfold INT_MAX; lia). cbv zeta in Hrun.
    set (e := Ret (mbedtls_ssl_write p (buffer + writtenLen) (len - writtenLen)) r)
      in *.
    assert (He : inside_buffer buffer len e) by (cbn; lia).
    destruct (0 <? r) eqn:Hpos.
    + apply Z.ltb_lt in Hpos.
      destruct (Z.le_gt_cases r (len - writtenLen)) as [Hin|Hout].
      * rewrite (to_uint32_small (writtenLen + r)) in Hrun by lia.
        apply IH in Hrun; [|lia].
        destruct Hrun as (evs & Htr & Hok).
        exists (e :: evs). split.
        -- rewrite Htr. world_simpl. rewrite <- app_assoc. reflexivity.
        -- intros Hc. inversion Hc; subst. constructor; [exact He|auto].
      * apply write_loop_trace in Hrun. destruct Hrun as (evs & Htr & _).
        exists (e :: evs). split.
        -- rewrite Htr. world_simpl. rewrite <- app_assoc. reflexivity.
        -- intros Hc. inversion Hc as [|? ? Hre _]; subst. simpl in Hre. lia.
    + destruct (r =? 0); injection Hrun as <- <-; exists [e];
        (split; [reflexivity|]); intros _; (constructor; [exact He|constructor]).
Qed.

(** Neither read nor write ever asks the library to go past the caller's
    buffer: with a library that reports no more than requested, every
    [mbedtls_ssl_read] and [mbedtls_ssl_write] of a call starts inside
    [buf .. buf + len) and ends exactly at [buf + len]. *)
Theorem transfers_stay_inside_the_buffer
    (handle buf len timeout_ms : Z) (w : world) :
  0 <= len <= INT_MAX ->
  (forall v w' evs,
      HAL_iTLS_Read handle buf len timeout_ms w = Some (v, w') ->
      trace w' = trace w ++ evs -> Forall within_request evs ->
      Forall (inside_buffer buf len) evs)
  /\ (forall v w' evs,
      HAL_iTLS_Write handle buf len timeout_ms w = Some (v, w') ->
      trace w' = trace w ++ evs -> Forall within_request evs ->
      Forall (inside_buffer buf len) evs).
Proof.
  intros Hlen. split; intros v w' evs Hrun Htr Hc.
  - rewrite HAL_iTLS_Read_unfold in Hrun.
    destruct (read_loop _ _ _ _ _ _) as [[x w1]|] eqn:Hloop; [|discriminate].
    apply read_loop_account in Hloop; [|assumption|lia|intros; lia].
    destruct Hloop as (evs1 & Htr1 & Hok).
    assert (Hw : w1 = w') by (destruct x; injection Hrun; auto). subst w1.
    world_simpl in Htr1. rewrite Htr, <- app_assoc in Htr1.
    apply app_inv_head in Htr1. subst evs.
    constructor; [exact I|]. apply Forall_inv_tail in Hc. apply (Hok Hc).
  - rewrite HAL_iTLS_Write_unfold in Hrun.
    destruct (write_loop _ _ _ _ _ _) as [[x w1]|] eqn:Hloop; [|discriminate].
    apply write_loop_inside in Hloop; [|assumption|lia].
    destruct Hloop as (evs1 & Htr1 & Hok).
    assert (Hw : w1 = w') by (destruct x; injection Hrun; auto). subst w1.
    rewrite Htr in Htr1. apply app_inv_head in Htr1. subst evs. exact (Hok Hc).
Qed.

(** What a read reports against what the library delivered: the result
    never exceeds [len]; a result that is not negative is exactly the
    number of bytes delivered in the call; -2 is returned only when no
    byte was delivered, so bytes are dropped only by the result -1. *)
Theorem HAL_iTLS_Read_accounts_for_bytes
    (handle buf len timeout_ms : Z) (w : world) (v : Z) (w' : world)
    (evs : list event) :
  0 <= len <= INT_MAX ->
  status_ok (net_status w) ->
  HAL_iTLS_Read handle buf len timeout_ms w = Some (v, w') ->
  trace w' = trace w ++ evs ->
  Forall within_request evs ->
  v <= len /\ 0 <= bytes_read evs <= len
  /\ (0 <= v -> v = bytes_read evs)
  /\ (v < 0 -> 0 < bytes_read evs -> v = -1).
Proof.
  intros Hlen Hs Hrun Htr Hc.
  rewrite HAL_iTLS_Read_unfold in Hrun.
  destruct (read_loop _ _ _ _ _ _) as [[x w1]|] eqn:Hloop; [|discriminate].
  pose proof (read_loop_status _ _ _ _ _ _ _ _ Hloop Hs) as Hs'.
  apply read_loop_account in Hloop; [|assumption|lia|intros; lia].
  destruct Hloop as (evs1 & Htr1 & Hok).
  assert (Hw : w1 = w') by (destruct x; injection Hrun; auto). subst w1.
  world_simpl in Htr1. rewrite Htr, <- app_assoc in Htr1.
  apply app_inv_head in Htr1. subst evs.
  apply Forall_inv_tail in Hc. specialize (Hok Hc).
  destruct Hok as (_ & Hsum & Hx). cbn [app bytes_read].
  pose proof (bytes_read_nonneg evs1) as Hnn. rewrite Z.add_0_l in *.
  unfold INT_MAX in Hlen.
  destruct x as [r|c]; injection Hrun as Hv.
  - assert (Hr : v = r).
    { rewrite <- Hv. apply to_int_small. unfold INT_MIN, INT_MAX.
      destruct Hx as [->|[->|(-> & _)]]; lia. }
    subst r. destruct Hx as [->|[->|(-> & H0)]]; lia.
  - subst c. destruct (0 <? bytes_read evs1) eqn:E.
    + apply Z.ltb_lt in E.
      rewrite !(to_int_small (bytes_read evs1)) in Hv
        by (unfold INT_MIN, INT_MAX; lia). lia.
    + apply Z.ltb_ge in E. rewrite to_int_to_uint32 in Hv.
      rewrite !(to_int_small (net_status w')) in Hv
        by (unfold INT_MIN, INT_MAX; destruct Hs' as [->|[->| ->]]; lia).
      destruct Hs' as [E'|[E'|E']]; rewrite E' in Hv; lia.
Qed.

End Accounting.

(** ** Runs of establish *)

Section EstablishRuns.
Context {codes : itls_codes}.

Lemma want_facts (c : Z) : is_want c -> c <> 0.
Proof.
  pose proof codes_negative as N.
  repeat match goal with
         | H : Forall _ (_ :: _) |- _ => inversion H; clear H; subst
         end.
  intros [-> | ->]; lia.
Qed.

Lemma want_test (c : Z) :
  negb (c =? MBEDTLS_ERR_SSL_WANT_READ) && negb (c =? MBEDTLS_ERR_SSL_WANT_WRITE)
  = false <-> is_want c.
Proof.
  unfold is_want. rewrite andb_false_iff, !negb_false_iff, !Z.eqb_eq. tauto.
Qed.

(** The handshake loop retries as long as the library answers WANT_READ
    or WANT_WRITE, and stops at the first other answer. *)
Lemma handshake_loop_run (p : Z) :
  forall (wants : list Z) (r : Z) (rest : list Z) (w : world),
    Forall is_want wants -> ~ is_want r ->
    handshake_loop p (wants ++ r :: rest) w
    = Some (r, mk_world (net_status w) rest (resolver w) (ctx_fd w)
                 (trace w ++ handshake_events p (wants ++ [r]))).
Proof.
  induction wants as [|c wants IH]; intros r rest w Hw Hr.
  - cbn [app handshake_loop handshake_events map].
    destruct (r =? 0); cbn [negb]; [reflexivity|].
    destruct (negb (r =? MBEDTLS_ERR_SSL_WANT_READ)
              && negb (r =? MBEDTLS_ERR_SSL_WANT_WRITE)) eqn:E; [reflexivity|].
    exfalso. apply Hr. apply want_test. exact E.
  - inversion Hw as [|? ? Hc Hws]; subst.
    cbn [app handshake_loop handshake_events map].
    replace (c =? 0) with false
      by (symmetry; apply Z.eqb_neq; apply want_facts; exact Hc).
    cbn [negb]. apply want_test in Hc. rewrite Hc.
    rewrite IH by assumption. world_simpl. unfold handshake_events.
    rewrite <- app_assoc. reflexivity.
Qed.

Lemma handshake_loop_inv (p : Z) :
  forall (script : list Z) (w : world) r w',
    handshake_loop p script w = Some (r, w') ->
    exists wants,
      Forall is_want wants
      /\ trace w' = trace w ++ handshake_events p (wants ++ [r]).
Proof.
  induction script as [|h script IH]; intros w r w' Hrun; [discriminate|].
  cbn [handshake_loop] in Hrun.
  destruct (negb (h =? 0)) eqn:E0.
  - destruct (negb (h =? MBEDTLS_ERR_SSL_WANT_READ)
              && negb (h =? MBEDTLS_ERR_SSL_WANT_WRITE)) eqn:E.
    + injection Hrun as <- <-. exists []. split; [constructor|reflexivity].
    + apply IH in Hrun. destruct Hrun as (wants & Hw & Htr).
      exists (h :: wants). split; [constructor; [apply want_test; exact E|exact Hw]|].
      rewrite Htr. world_simpl. rewrite <- app_assoc. reflexivity.
  - injection Hrun as <- <-. exists []. split; [constructor|reflexivity].
Qed.

Lemma setup_and_handshake_succeeds (p : Z) (pk : string) (w : world)
    (wants rest : list Z) :
  answers w = 0 :: 0 :: 0 :: wants ++ 0 :: rest ->
  Forall is_want wants ->
  setup_and_handshake p pk w
  = Some (0, mk_world (net_status w) rest (resolver w) (ctx_fd w)
               (trace w ++ setup_events p pk
                ++ handshake_events p (wants ++ [0]))).
Proof.
  intros Hans Hw. unfold setup_and_handshake.
  unfold bind at 1, ask at 1. rewrite Hans. cbn [Z.eqb negb].
  unfold bind at 1, emit at 1. unfold bind at 1, emit at 1.
  unfold bind at 1, emit at 1. unfold bind at 1, emit at 1.
  unfold bind at 1, ask at 1. world_simpl. cbn [Z.eqb negb].
  unfold bind at 1, ask at 1. world_simpl. cbn [Z.eqb negb].
  unfold bind at 1, emit at 1. unfold bind at 1. world_simpl.
  rewrite handshake_loop_run; [|exact Hw|].
  2:{ intros H. apply want_facts in H. apply H. reflexivity. }
  rewrite _out_run. cbn [Z.eqb]. world_simpl. unfold setup_events.
  rewrite <- !app_assoc. reflexivity.
Qed.

Lemma setup_and_handshake_success_inv (p : Z) (pk : string) (w w' : world) :
  setup_and_handshake p pk w = Some (0, w') ->
  exists wants,
    Forall is_want wants
    /\ trace w' = trace w ++ setup_events p pk
                  ++ handshake_events p (wants ++ [0]).
Proof.
  unfold setup_and_handshake. unfold bind at 1, ask at 1.
  destruct (answers w) as [|d ans1]; [discriminate|].
  destruct (d =? 0) eqn:Ed; cbn [negb].
  2:{ rewrite _out_run. intros H. injection H as H _. rewrite H in Ed. discriminate. }
  apply Z.eqb_eq in Ed. subst d.
  unfold bind at 1, emit at 1. unfold bind at 1, emit at 1.
  unfold bind at 1, emit at 1. unfold bind at 1, emit at 1.
  unfold bind at 1, ask at 1. world_simpl.
  destruct ans1 as [|a ans2]; [discriminate|].
  destruct (a =? 0) eqn:Ea; cbn [negb].
  2:{ rewrite _out_run. intros H. injection H as H _. rewrite H in Ea. discriminate. }
  apply Z.eqb_eq in Ea. subst a.
  unfold bind at 1, ask at 1. world_simpl.
  destruct ans2 as [|s ans3]; [discriminate|].
  destruct (s =? 0) eqn:Es; cbn [negb].
  2:{ rewrite _out_run. intros H. injection H as H _. rewrite H in Es. discriminate. }
  apply Z.eqb_eq in Es. subst s.
  unfold bind at 1, emit at 1. unfold bind at 1. world_simpl.
  destruct (handshake_loop p ans3 _) as [[h w1]|] eqn:Hh; [|discriminate].
  apply handshake_loop_inv in Hh. destruct Hh as (wants & Hw & Htr).
  rewrite _out_run. intros H. injection H as -> <-. cbn [Z.eqb].
  exists wants. split; [exact Hw|].
  rewrite Htr. world_simpl. unfold setup_events. rewrite <- !app_assoc.
  reflexivity.
Qed.

(** Establish succeeds when the block is allocated, the connect step
    returns 0, the three set-up calls return 0 and the handshake, after
    any number of WANT_READ / WANT_WRITE answers, returns 0: it then
    returns the allocated block as the handle, and nothing is released. *)
Theorem HAL_iTLS_Establish_succeeds
    (linux : bool) (host : string) (port : Z) (product_key : string)
    (w : world) (p : Z) (ans : list Z) (w1 : world) (wants rest : list Z) :
  answers w = p :: ans -> p <> NULL ->
  start_connection linux p host (sprintf_u port)
    (mk_world (net_status w) ans (resolver w) (ctx_fd w)
       (trace w ++ [Ret HAL_Malloc p; Void (memset p 0)] ++ init_events p))
  = Some (0, w1) ->
  answers w1 = 0 :: 0 :: 0 :: wants ++ 0 :: rest ->
  Forall is_want wants ->
  HAL_iTLS_Establish linux host port product_key w
  = Some (p, mk_world (net_status w1) rest (resolver w1) (ctx_fd w1)
               (trace w1 ++ setup_events p product_key
                ++ handshake_events p (wants ++ [0]))).
Proof.
  intros Hans Hp Hconn Hans1 Hw.
  unfold HAL_iTLS_Establish. unfold bind at 1, ask at 1. rewrite Hans.
  replace (NULL =? p) with false by (symmetry; apply Z.eqb_neq; congruence).
  unfold bind at 1, emit at 1. unfold bind at 1.
  unfold _TLSConnectNetwork.
  unfold bind at 1, emit at 1. unfold bind at 1, emit at 1.
  unfold bind at 1, emit at 1. unfold bind at 1.
  world_simpl. unfold init_events in Hconn. cbn [app] in Hconn.
  rewrite <- !app_assoc. cbn [app]. rewrite Hconn. cbn [Z.eqb negb].
  rewrite (setup_and_handshake_succeeds p product_key w1 wants rest Hans1 Hw).
  reflexivity.
Qed.


(** Establish followed by destroy of the handle it returned holds
    nothing: the block and the three contexts are all released, each once. *)
Theorem establish_then_destroy_releases_everything
    (linux : bool) (host : string) (port : Z) (product_key : string)
    (w : world) (r : Z) (w1 : world) :
  HAL_iTLS_Establish linux host port product_key w = Some (r, w1) ->
  r <> NULL ->
  exists evs,
    trace w1 = trace w ++ evs
    /\ HAL_iTLS_Destroy r w1
       = Some (0, mk_world (net_status w1) (answers w1) (resolver w1)
                    (ctx_fd w1) (trace w ++ evs ++ destroy_events r))
    /\ held_after evs = [ConfigContext r; NetContext r; SslContext r; Block r]
    /\ held_after (evs ++ destroy_events r) = [].
Proof.
  intros Hrun Hr.
  apply HAL_iTLS_Establish_shape in Hrun.
  destruct Hrun as [(E & _)|(p & conn & setup & hs & cleanup & Hp & Hrp & Htr
                            & Hconn & Hsetup & Hhs & _ & H0 & _)];
    [congruence|].
  destruct Hrp as [->|E]; [|congruence].
  destruct (H0 Hr) as (-> & _).
  replace (p =? NULL) with false in Htr
    by (symmetry; apply Z.eqb_neq; congruence).
  rewrite !app_nil_r in Htr.
  pose proof (held_after_establish_prefix p conn setup hs Hp Hconn Hsetup Hhs)
    as Hheld.
  eexists. split; [exact Htr|]. split; [|split].
  - unfold HAL_iTLS_Destroy.
    replace (NULL =? p) with false by (symmetry; apply Z.eqb_neq; congruence).
    unfold _network_ssl_disconnect, bind, emit, Return. world_simpl.
    rewrite Htr. unfold destroy_events. rewrite <- !app_assoc. reflexivity.
  - exact Hheld.
  - rewrite held_after_app, Hheld. unfold destroy_events.
    repeat (cbn [fold_left hold_step release filter resource_eqb negb];
            rewrite ?Z.eqb_refl).
    reflexivity.
Qed.

End EstablishRuns.

(** ** The paths of establish *)

Section EstablishCases.
Context {codes : itls_codes}.

Lemma after_init_eq (w : world) (p : Z) (ans : list Z) :
  called (mbedtls_ssl_config_init p)
    (called (mbedtls_net_init p)
       (called (mbedtls_ssl_init p)
          (called (memset p 0) (returned HAL_Malloc p ans w))))
  = after_init w p ans.
Proof.
  unfold after_init, init_events. world_simpl. rewrite <- !app_assoc.
  reflexivity.
Qed.

(** The steps of a run of [HAL_iTLS_Establish]. *)
Lemma HAL_iTLS_Establish_run (linux : bool) (host : string) (port : Z)
    (pk : string) (w : world) r w' :
  HAL_iTLS_Establish linux host port pk w = Some (r, w') ->
  exists p ans,
    answers w = p :: ans
    /\ ((p = NULL /\ r = NULL /\ w' = returned HAL_Malloc NULL ans w)
        \/ (p <> NULL
            /\ exists c w1,
                start_connection linux p host (sprintf_u port) (after_init w p ans)
                = Some (c, w1)
                /\ ((c <> 0 /\ r = NULL /\ w' = called (HAL_Free p) w1)
                    \/ (c = 0
                        /\ exists s w2,
                            setup_and_handshake p pk w1 = Some (s, w2)
                            /\ ((s = 0 /\ r = p /\ w' = w2)
                                \/ (s <> 0 /\ r = NULL
                                    /\ w' = called (HAL_Free p) w2)))))).
Proof.
  unfold HAL_iTLS_Establish. unfold bind at 1, ask at 1.
  destruct (answers w) as [|p ans]; [discriminate|].
  intros Hrun. exists p, ans. split; [reflexivity|].
  destruct (NULL =? p) eqn:Ep.
  { apply Z.eqb_eq in Ep. subst p. injection Hrun as <- <-. left. auto. }
  apply Z.eqb_neq in Ep. right. split; [congruence|].
  revert Hrun. unfold bind at 1, emit at 1. unfold bind at 1.
  unfold _TLSConnectNetwork.
  unfold bind at 1, emit at 1. unfold bind at 1, emit at 1.
  unfold bind at 1, emit at 1. unfold bind at 1.
  rewrite after_init_eq.
  destruct (start_connection linux p host (sprintf_u port) _)
    as [[c w1]|]; [|discriminate].
  exists c, w1. split; [reflexivity|].
  destruct (0 =? c) eqn:Ec; cbn [negb] in Hrun.
  - apply Z.eqb_eq in Ec. subst c. right. split; [reflexivity|].
    destruct (setup_and_handshake p pk w1) as [[s w2]|]; [|discriminate].
    exists s, w2. split; [reflexivity|].
    destruct (0 =? s) eqn:Es; cbn [negb] in Hrun.
    + apply Z.eqb_eq in Es. subst s. injection Hrun as <- <-. left. auto.
    + apply Z.eqb_neq in Es. unfold bind, emit, Return in Hrun.
      injection Hrun as <- <-. right. split; [congruence|]. auto.
  - unfold Return at 1 in Hrun. rewrite Ec in Hrun. cbn [negb] in Hrun.
    apply Z.eqb_neq in Ec.
    unfold bind, emit, Return in Hrun.
    injection Hrun as <- <-. left. split; [congruence|]. auto.
Qed.

Lemma handshake_loop_ends (p : Z) :
  forall (script : list Z) (w : world) r w',
    handshake_loop p script w = Some (r, w') ->
    exists wants,
      Forall is_want wants /\ ~ is_want r
      /\ trace w' = trace w ++ handshake_events p (wants ++ [r]).
Proof.
  induction script as [|h script IH]; intros w r w' Hrun; [discriminate|].
  cbn [handshake_loop] in Hrun.
  destruct (negb (h =? 0)) eqn:E0.
  - destruct (negb (h =? MBEDTLS_ERR_SSL_WANT_READ)
              && negb (h =? MBEDTLS_ERR_SSL_WANT_WRITE)) eqn:E.
    + injection Hrun as <- <-. exists []. split; [constructor|].
      split; [|reflexivity].
      intros Hw. apply want_test in Hw. congruence.
    + apply IH in Hrun. destruct Hrun as (wants & Hw & Hr & Htr).
      exists (h :: wants).
      split; [constructor; [apply want_test; exact E|exact Hw]|].
      split; [exact Hr|].
      rewrite Htr. world_simpl. rewrite <- app_assoc. reflexivity.
  - injection Hrun as <- <-. exists []. split; [constructor|].
    split; [|reflexivity].
    apply negb_false_iff, Z.eqb_eq in E0. subst h.
    intros Hw. apply want_facts in Hw. apply Hw. reflexivity.
Qed.

(** How a run of the set-up and the handshake ends: with a failed set-up
    step and the three releases, or with the complete set-up followed by
    handshake calls, the last of which decides. *)
Lemma setup_and_handshake_cases (p : Z) (pk : string) (w : world) r w' :
  setup_and_handshake p pk w = Some (r, w') ->
  (exists setup,
      r <> 0 /\ trace w' = trace w ++ setup ++ cleanup_events p
      /\ setup <> [] /\ Forall setup_event setup)
  \/ (exists wants,
         Forall is_want wants /\ ~ is_want r
         /\ trace w'
            = trace w ++ setup_events p pk ++ handshake_events p (wants ++ [r])
              ++ (if r =? 0 then [] else cleanup_events p)).
Proof.
  unfold setup_and_handshake. unfold bind at 1, ask at 1.
  destruct (answers w) as [|d ans1]; [discriminate|].
  destruct (d =? 0) eqn:Ed; cbn [negb].
  2:{ rewrite _out_run, Ed. apply Z.eqb_neq in Ed. intros H. injection H as <- <-.
      left. exists [Ret (mbedtls_ssl_config_defaults p) d].
      split; [exact Ed|].
      split; [world_simpl; rewrite <- !app_assoc; reflexivity|].
      split; [discriminate|repeat constructor]. }
  apply Z.eqb_eq in Ed. subst d.
  unfold bind at 1, emit at 1. unfold bind at 1, emit at 1.
  unfold bind at 1, emit at 1. unfold bind at 1, emit at 1.
  unfold bind at 1, ask at 1. world_simpl.
  destruct ans1 as [|a ans2]; [discriminate|].
  destruct (a =? 0) eqn:Ea; cbn [negb].
  2:{ rewrite _out_run, Ea. apply Z.eqb_neq in Ea. intros H. injection H as <- <-.
      left. eexists [_; _; _; _; _; _].
      split; [exact Ea|].
      split; [world_simpl; rewrite <- !app_assoc; reflexivity|].
      split; [discriminate|repeat constructor]. }
  apply Z.eqb_eq in Ea. subst a.
  unfold bind at 1, ask at 1. world_simpl.
  destruct ans2 as [|s ans3]; [discriminate|].
  destruct (s =? 0) eqn:Es; cbn [negb].
  2:{ rewrite _out_run, Es. apply Z.eqb_neq in Es. intros H. injection H as <- <-.
      left. eexists [_; _; _; _; _; _; _].
      split; [exact Es|].
      split; [world_simpl; rewrite <- !app_assoc; reflexivity|].
      split; [discriminate|repeat constructor]. }
  apply Z.eqb_eq in Es. subst s.
  unfold bind at 1, emit at 1. unfold bind at 1. world_simpl.
  destruct (handshake_loop p ans3 _) as [[h w1]|] eqn:Hh; [|discriminate].
  apply handshake_loop_ends in Hh. destruct Hh as (wants & Hw & Hr & Htr).
  rewrite _out_run. intros H. injection H as <- <-.
  right. exists wants. split; [exact Hw|]. split; [exact Hr|].
  world_simpl in Htr.
  destruct (h =? 0); world_simpl; rewrite Htr; unfold setup_events;
    rewrite <- ?app_assoc; cbn [app]; rewrite ?app_nil_r; reflexivity.
Qed.

Lemma connect_events_free_nothing (conn : list event) :
  Forall connect_event conn -> filter context_free_call conn = [].
Proof.
  induction 1 as [|e conn He _ IH]; [reflexivity|].
  cbn [filter]. rewrite IH.
  unfold connect_event in He. unfold context_free_call.
  destruct (call_of e); try contradiction; reflexivity.
Qed.

(** A connect step on Linux that fails has closed every socket it
    opened. *)
Lemma mbedtls_net_connect_timeout_failure_sockets
    (ctx : Z) (host port : string) (proto : net_proto) (timeout : Z)
    (w : world) (r : Z) (w' : world) (evs : list event) :
  mbedtls_net_connect_timeout ctx host port proto timeout w = Some (r, w') ->
  trace w' = trace w ++ evs ->
  r <> 0 ->
  forall opened, open_sockets opened evs = opened.
Proof.
  unfold mbedtls_net_connect_timeout, net_prepare.
  unfold bind at 1 2, emit at 1, Return at 1. cbn [Z.eqb negb].
  unfold bind at 1, ask at 1. world_simpl.
  destruct (answers w) as [|g ans]; [discriminate|].
  destruct (g =? 0) eqn:Eg; cbn [negb].
  - unfold bind at 1. world_simpl.
    destruct (connect_loop _ _ _ _ _) as [[ret w1]|] eqn:Hloop; [|discriminate].
    apply connect_loop_sockets in Hloop.
    destruct Hloop as (evs0 & Htr0 & _ & Hcase).
    unfold bind, emit, Return. intros H Htr Hr opened. injection H as <- <-.
    world_simpl in Htr0. world_simpl in Htr. rewrite Htr0 in Htr.
    rewrite <- !app_assoc in Htr. apply app_inv_head in Htr. cbn [app] in Htr.
    subst evs.
    destruct Hcase as [(fd & rest & _ & E & _)|(_ & Hop)]; [congruence|].
    unfold open_sockets. cbn [fold_left socket_step].
    rewrite fold_left_app. cbn [fold_left socket_step]. apply Hop.
  - intros H Htr _ opened. injection H as <- <-.
    world_simpl in Htr. rewrite <- !app_assoc in Htr.
    apply app_inv_head in Htr. cbn [app] in Htr. subst evs. reflexivity.
Qed.

Lemma start_connection_failure_sockets (p : Z) (addr port : string)
    (w : world) (c : Z) (w' : world) (conn : list event) :
  start_connection true p addr port w = Some (c, w') ->
  trace w' = trace w ++ conn ->
  c <> 0 ->
  open_sockets [] conn = [].
Proof.
  unfold start_connection. intros Hrun Htr Hc.
  exact (mbedtls_net_connect_timeout_failure_sockets _ _ _ _ _ _ _ _ _
           Hrun Htr Hc []).
Qed.

(** C5 (amended).  A run of [HAL_iTLS_Establish] either gets no memory
    and returns NULL with nothing allocated, or allocates a block [p],
    initialises the three contexts in it, runs the connect step, and ends
    in one of three ways:
    - the connect step fails ([c <> 0]): NULL is returned and the block is
      freed, but no context is passed to [mbedtls_net_free],
      [mbedtls_ssl_free] or [mbedtls_ssl_config_free], because the function
      leaves by [return ret;] and not through [_out]; on Linux every socket
      the connect step opened has been closed again;
    - the connect step succeeds and the set-up or the handshake fails:
      NULL is returned after the three contexts were released at [_out]
      and the block was freed;
    - connect, set-up and handshake succeed: [p] is returned. *)
Theorem failed_establish_frees_block_and_sockets
    (linux : bool) (host : string) (port : Z) (product_key : string)
    (w : world) (r : Z) (w' : world) (evs : list event) :
  HAL_iTLS_Establish linux host port product_key w = Some (r, w') ->
  trace w' = trace w ++ evs ->
  (r = NULL /\ evs = [Ret HAL_Malloc NULL])
  \/ exists p ans c w1 conn,
       answers w = p :: ans /\ p <> NULL
       /\ start_connection linux p host (sprintf_u port) (after_init w p ans)
          = Some (c, w1)
       /\ trace w1 = trace (after_init w p ans) ++ conn
       /\ Forall connect_event conn
       /\ ((c <> 0 /\ r = NULL
            /\ evs = [Ret HAL_Malloc p; Void (memset p 0)] ++ init_events p
                     ++ conn ++ [Void (HAL_Free p)]
            /\ filter context_free_call evs = []
            /\ (linux = true -> open_sockets [] conn = []))
           \/ (c = 0 /\ r = NULL
               /\ exists setup hs,
                   setup <> [] /\ Forall setup_event setup
                   /\ Forall (is_handshake p) hs
                   /\ evs = [Ret HAL_Malloc p; Void (memset p 0)]
                            ++ init_events p ++ conn ++ setup ++ hs
                            ++ cleanup_events p ++ [Void (HAL_Free p)])
           \/ (c = 0 /\ r = p
               /\ exists wants,
                   Forall is_want wants
                   /\ evs = [Ret HAL_Malloc p; Void (memset p 0)]
                            ++ init_events p ++ conn
                            ++ setup_events p product_key
                            ++ handshake_events p (wants ++ [0]))).
Proof.
  intros Hrun Htr. apply HAL_iTLS_Establish_run in Hrun.
  destruct Hrun as (p & ans & Hans & [(-> & -> & ->)|(Hp & c & w1 & Hconn & Hcase)]).
  { left. split; [reflexivity|]. world_simpl in Htr.
    apply app_inv_head in Htr. auto. }
  right. exists p, ans, c, w1.
  destruct (start_connection_trace _ _ _ _ _ _ _ Hconn) as (conn & Htr1 & Hev).
  exists conn. do 4 (split; [assumption|]). split; [exact Hev|].
  assert (Hpre : trace w1
                 = trace w ++ [Ret HAL_Malloc p; Void (memset p 0)]
                   ++ init_events p ++ conn).
  { rewrite Htr1. unfold after_init. cbn [trace]. rewrite <- !app_assoc.
    reflexivity. }
  destruct Hcase as [(Hc & -> & ->)|(-> & s & w2 & Hsetup & Hs)].
  - left. split; [exact Hc|]. split; [reflexivity|].
    world_simpl in Htr. rewrite Hpre, <- !app_assoc in Htr.
    apply app_inv_head in Htr. subst evs.
    split; [cbn [app]; reflexivity|]. split.
    + cbn [app init_events filter context_free_call call_of].
      rewrite filter_app, (connect_events_free_nothing conn Hev). reflexivity.
    + intros ->. exact (start_connection_failure_sockets _ _ _ _ _ _ _
                          Hconn Htr1 Hc).
  - right. destruct Hs as [(-> & -> & ->)|(Hs & -> & ->)].
    + right. split; [reflexivity|]. split; [reflexivity|].
      apply setup_and_handshake_success_inv in Hsetup.
      destruct Hsetup as (wants & Hw & Htr2).
      exists wants. split; [exact Hw|].
      rewrite Htr2, Hpre, <- !app_assoc in Htr. apply app_inv_head in Htr.
      subst evs. reflexivity.
    + left. split; [reflexivity|]. split; [reflexivity|].
      apply setup_and_handshake_shape in Hsetup.
      destruct Hsetup as (setup & hs & cleanup & Htr2 & Hse & Hne & Hhs & _ & _ & Hcl).
      rewrite (Hcl Hs) in Htr2.
      exists setup, hs. do 3 (split; [assumption|]).
      world_simpl in Htr. rewrite Htr2, Hpre, <- !app_assoc in Htr.
      apply app_inv_head in Htr. subst evs. reflexivity.
Qed.

(** C6.  [MBEDTLS_SSL_MAJOR_VERSION_3] and [MBEDTLS_SSL_MINOR_VERSION_3]
    are 3.
    - An establish whose allocation, connect step, three set-up calls and
      handshake succeed returns the handle after making, between the
      connect step and the first handshake call, the calls of
      [setup_events]: [mbedtls_ssl_config_defaults], the maximum version
      set to 3 / 3, the minimum version set to 3 / 3, the rng and debug
      callbacks, [mbedtls_ssl_conf_auth_extra] with [product_key] and
      [strlen product_key] returning 0, [mbedtls_ssl_setup] and
      [mbedtls_ssl_set_bio].
    - In every run, either no [mbedtls_ssl_handshake] call is made and
      NULL is returned, or the calls between the connect step and the
      first handshake call are exactly those of [setup_events]: both
      version bounds were set, once and to 3 / 3, the key was registered,
      and neither was touched again before the handshake.  A handle that
      is not NULL is returned only by such a run, with the handshake
      ending in 0. *)
Theorem version_pinned_and_key_registered_before_handshake
    (linux : bool) (host : string) (port : Z) (product_key : string)
    (w : world) :
  (MBEDTLS_SSL_MAJOR_VERSION_3 = 3 /\ MBEDTLS_SSL_MINOR_VERSION_3 = 3)
  /\ (forall (p : Z) (ans : list Z) (w1 : world) (wants rest : list Z),
        answers w = p :: ans -> p <> NULL ->
        start_connection linux p host (sprintf_u port) (after_init w p ans)
        = Some (0, w1) ->
        answers w1 = 0 :: 0 :: 0 :: wants ++ 0 :: rest ->
        Forall is_want wants ->
        HAL_iTLS_Establish linux host port product_key w
        = Some (p, mk_world (net_status w1) rest (resolver w1) (ctx_fd w1)
                     (trace w1 ++ setup_events p product_key
                      ++ handshake_events p (wants ++ [0]))))
  /\ (forall (r : Z) (w' : world) (evs : list event),
        HAL_iTLS_Establish linux host port product_key w = Some (r, w') ->
        trace w' = trace w ++ evs ->
        (r = NULL /\ Forall (fun e => ~ is_handshake_call e) evs)
        \/ exists p conn wants h,
             p <> NULL /\ Forall connect_event conn
             /\ Forall is_want wants /\ ~ is_want h
             /\ evs = [Ret HAL_Malloc p; Void (memset p 0)] ++ init_events p
                      ++ conn ++ setup_events p product_key
                      ++ handshake_events p (wants ++ [h])
                      ++ (if h =? 0 then []
                          else cleanup_events p ++ [Void (HAL_Free p)])
             /\ r = (if h =? 0 then p else NULL)).
Proof.
  split; [split; reflexivity|]. split.
  - intros p ans w1 wants rest Hans Hp Hconn Hans1 Hw.
    unfold HAL_iTLS_Establish. unfold bind at 1, ask at 1. rewrite Hans.
    replace (NULL =? p) with false by (symmetry; apply Z.eqb_neq; congruence).
    unfold bind at 1, emit at 1. unfold bind at 1.
    unfold _TLSConnectNetwork.
    unfold bind at 1, emit at 1. unfold bind at 1, emit at 1.
    unfold bind at 1, emit at 1. unfold bind at 1.
    rewrite after_init_eq, Hconn. cbn [Z.eqb negb].
    rewrite (setup_and_handshake_succeeds p product_key w1 wants rest Hans1 Hw).
    reflexivity.
  - intros r w' evs Hrun Htr. apply HAL_iTLS_Establish_run in Hrun.
    destruct Hrun as (p & ans & Hans
                      & [(-> & -> & ->)|(Hp & c & w1 & Hconn & Hcase)]).
    { left. split; [reflexivity|]. world_simpl in Htr.
      apply app_inv_head in Htr. subst evs. repeat constructor. intros []. }
    destruct (start_connection_trace _ _ _ _ _ _ _ Hconn) as (conn & Htr1 & Hev).
    assert (Hpre : trace w1
                   = trace w ++ [Ret HAL_Malloc p; Void (memset p 0)]
                     ++ init_events p ++ conn).
    { rewrite Htr1. unfold after_init. cbn [trace]. rewrite <- !app_assoc.
      reflexivity. }
    assert (Hconn_nh : Forall (fun e => ~ is_handshake_call e) conn).
    { eapply Forall_impl; [|exact Hev]. exact connect_event_not_handshake. }
    assert (Hnh : forall tail,
               Forall (fun e => ~ is_handshake_call e) tail ->
               Forall (fun e => ~ is_handshake_call e)
                 ([Ret HAL_Malloc p; Void (memset p 0)] ++ init_events p
                  ++ conn ++ tail)).
    { intros tail Ht. cbn [app init_events].
      repeat (constructor; [intros []|]).
      apply Forall_app. split; assumption. }
    destruct Hcase as [(Hc & -> & ->)|(-> & s & w2 & Hsetup & Hs)].
    + left. split; [reflexivity|].
      world_simpl in Htr. rewrite Hpre, <- !app_assoc in Htr.
      apply app_inv_head in Htr. subst evs.
      apply Hnh. repeat constructor. intros [].
    + apply setup_and_handshake_cases in Hsetup.
      destruct Hsetup as [(setup & Hs0 & Htr2 & _ & Hse)
                         |(wants & Hw & Hh & Htr2)].
      * destruct Hs as [(-> & _)|(_ & -> & ->)]; [congruence|].
        left. split; [reflexivity|].
        world_simpl in Htr. rewrite Htr2, Hpre, <- !app_assoc in Htr.
        apply app_inv_head in Htr. subst evs.
        apply Hnh. apply Forall_app. split.
        -- eapply Forall_impl; [|exact Hse]. exact setup_event_not_handshake.
        -- cbn [app cleanup_events]. repeat (constructor; [intros []|]).
           constructor.
      * right. exists p, conn, wants, s.
        do 4 (split; [assumption|]).
        destruct Hs as [(-> & -> & ->)|(Hs & -> & ->)].
        -- cbn [Z.eqb] in *. split; [|reflexivity].
           rewrite Htr2, Hpre, <- !app_assoc in Htr. apply app_inv_head in Htr.
           subst evs. reflexivity.
        -- apply Z.eqb_neq in Hs. rewrite Hs in *. split; [|reflexivity].
           world_simpl in Htr. rewrite Htr2, Hpre, <- !app_assoc in Htr.
           apply app_inv_head in Htr. subst evs. reflexivity.
Qed.

End EstablishCases.

(** ** Lengths 0 and below, and the life of [net_status] *)

Section Edges.
Context {codes : itls_codes}.

(** With [len = 0] neither loop is entered, so no [mbedtls_ssl_read] and
    no [mbedtls_ssl_write] is made.  The write records no call at all and
    returns 0; the read records only [mbedtls_ssl_conf_read_timeout] and
    returns whatever [net_status] an earlier read left: 0, or the old
    error -1 or -2.  (The timing and log instrumentation, which the trace
    does not record, runs as on every path.) *)
Theorem zero_length_transfers_move_nothing
    (handle buf timeout_ms : Z) (w : world) :
  status_ok (net_status w) ->
  HAL_iTLS_Read handle buf 0 timeout_ms w
  = Some (net_status w,
          called (mbedtls_ssl_conf_read_timeout handle timeout_ms) w)
  /\ HAL_iTLS_Write handle buf 0 timeout_ms w = Some (0, w).
Proof.
  intros Hs. split.
  - rewrite HAL_iTLS_Read_unfold.
    rewrite read_loop_full by (unfold INT_MAX; lia).
    cbn [Z.ltb Z.compare]. world_simpl. rewrite to_int_to_uint32.
    rewrite !(to_int_small (net_status w))
      by (unfold INT_MIN, INT_MAX; destruct Hs as [->|[->| ->]]; lia).
    reflexivity.
  - rewrite HAL_iTLS_Write_unfold.
    rewrite write_loop_full by (unfold INT_MAX; lia). reflexivity.
Qed.

(** A negative [len] is not rejected: the loop conditions compare it with
    an unsigned counter, so it counts as [len + 2^32] and the library is
    asked for that many bytes at [buf]. *)
Theorem negative_len_is_taken_as_unsigned
    (handle buf len timeout_ms : Z) (w : world) (r : Z) (rest : list Z) :
  INT_MIN <= len < 0 ->
  answers w = r :: rest ->
  r <= 0 ->
  (exists v w',
      HAL_iTLS_Read handle buf len timeout_ms w = Some (v, w')
      /\ trace w'
         = trace w ++ [Void (mbedtls_ssl_conf_read_timeout handle timeout_ms);
                       Ret (mbedtls_ssl_read handle buf (len + 2 ^ 32)) r])
  /\ (exists v w',
      HAL_iTLS_Write handle buf len timeout_ms w = Some (v, w')
      /\ trace w'
         = trace w ++ [Ret (mbedtls_ssl_write handle buf (len + 2 ^ 32)) r]).
Proof.
  unfold INT_MIN. intros Hlen Hans Hr.
  assert (Hu : to_uint32 len = len + 2 ^ 32).
  { unfold to_uint32. symmetry. apply Z.mod_unique_pos with (q := -1); lia. }
  assert (Hp : (0 <? r) = false) by (apply Z.ltb_ge; lia).
  split.
  - rewrite HAL_iTLS_Read_unfold. world_simpl. rewrite Hans.
    cbn [read_loop]. rewrite Z.sub_0_r, Z.add_0_r, Hu.
    replace (0 <? len + 2 ^ 32) with true by (symmetry; apply Z.ltb_lt; lia).
    rewrite Hp.
    destruct (r =? 0); [eexists; eexists; split; [reflexivity|];
                        world_simpl; rewrite <- app_assoc; reflexivity|].
    destruct (MBEDTLS_ERR_SSL_PEER_CLOSE_NOTIFY =? r);
      [eexists; eexists; split; [reflexivity|];
       world_simpl; rewrite <- app_assoc; reflexivity|].
    destruct ((MBEDTLS_ERR_SSL_TIMEOUT =? r) || (MBEDTLS_ERR_SSL_CONN_EOF =? r)
              || (MBEDTLS_ERR_SSL_SESSION_TICKET_EXPIRED =? r)
              || (MBEDTLS_ERR_SSL_NON_FATAL =? r));
      eexists; eexists; (split; [reflexivity|]);
      world_simpl; rewrite <- app_assoc; reflexivity.
  - rewrite HAL_iTLS_Write_unfold. rewrite Hans.
    cbn [write_loop]. rewrite Z.sub_0_r, Z.add_0_r, Hu.
    replace (0 <? len + 2 ^ 32) with true by (symmetry; apply Z.ltb_lt; lia).
    rewrite Hp.
    destruct (r =? 0); eexists; eexists; (split; [reflexivity|]); reflexivity.
Qed.

(** A recorded close, or error, does not outlive the next byte: whatever
    [net_status] was, a read that receives data resets it to 0, returns
    the byte count when the library then answers 0, and a following read
    that obtains nothing returns 0, not -2. *)
Theorem data_clears_the_recorded_status
    (hA bufA lenA tA hB bufB lenB tB : Z) (w : world) (chunks rest : list Z) :
  Forall (fun c => 0 < c) chunks ->
  chunks <> [] ->
  total chunks < lenA <= INT_MAX ->
  0 < lenB <= INT_MAX ->
  answers w = chunks ++ 0 :: 0 :: rest ->
  exists w1 w2,
    HAL_iTLS_Read hA bufA lenA tA w = Some (total chunks, w1)
    /\ net_status w1 = 0
    /\ HAL_iTLS_Read hB bufB lenB tB w1 = Some (0, w2).
Proof.
  intros Hpos Hne HlenA HlenB Hans.
  pose proof (total_pos_cons chunks Hpos Hne) as Hn.
  unfold INT_MAX in *.
  destruct (read_loop_chunks hA bufA lenA ltac:(unfold INT_MAX; lia) chunks
              (0 :: 0 :: rest) 0
              (called (mbedtls_ssl_conf_read_timeout hA tA) w))
    as (w' & Heq & Hns & _); try lia; try assumption.
  rewrite Z.add_0_l in Heq.
  rewrite read_loop_step in Heq by (unfold INT_MAX; lia). cbv zeta in Heq.
  cbn [Z.ltb Z.eqb Z.compare net_status returned] in Heq.
  assert (Hns' : net_status w' = 0) by (destruct chunks; [congruence|exact Hns]).
  rewrite Hns' in Heq. cbn [Z.eqb] in Heq.
  eexists. eexists. split; [|split].
  - rewrite HAL_iTLS_Read_unfold. cbn [answers called]. rewrite Hans, Heq.
    rewrite !(to_int_small (total chunks)) by (unfold INT_MIN, INT_MAX; lia).
    reflexivity.
  - world_simpl. exact Hns'.
  - rewrite HAL_iTLS_Read_unfold. world_simpl.
    rewrite read_loop_step by (unfold INT_MAX; lia). cbv zeta.
    cbn [Z.ltb Z.eqb Z.compare]. world_simpl. rewrite Hns'. cbn [Z.eqb].
    reflexivity.
Qed.

End Edges.

(** ** How many library calls a transfer makes *)

Section CallCounts.
Context {codes : itls_codes}.

Lemma read_loop_calls (p buffer len : Z) :
  forall (script : list Z) (readLen : Z) (w : world) x w',
    read_loop p buffer len script readLen w = Some (x, w') ->
    exists evs,
      trace w' = trace w ++ evs
      /\ Z.of_nat (List.length evs) <= bytes_read evs + 1.
Proof.
  induction script as [|r script IH]; intros readLen w x w' Hrun; simpl in Hrun.
  - destruct (readLen <? to_uint32 len); [discriminate|].
    injection Hrun as <- <-. exists []. rewrite app_nil_r. split; [reflexivity|].
    cbn. lia.
  - destruct (readLen <? to_uint32 len).
    2:{ injection Hrun as <- <-. exists []. rewrite app_nil_r.
        split; [reflexivity|]. cbn. lia. }
    set (e := Ret (mbedtls_ssl_read p (buffer + readLen)
                     (to_uint32 (len - readLen))) r) in *.
    destruct (0 <? r) eqn:Hpos.
    + apply IH in Hrun. destruct Hrun as (evs & Htr & Hn).
      exists (e :: evs). split.
      * rewrite Htr. world_simpl. rewrite <- app_assoc. reflexivity.
      * unfold e. cbn [bytes_read List.length]. rewrite Hpos.
        apply Z.ltb_lt in Hpos. lia.
    + assert (Hone : forall y wy, Some (y, wy) = Some (x, w') ->
                trace wy = trace w ++ [e] ->
                exists evs, trace w' = trace w ++ evs
                  /\ Z.of_nat (List.length evs) <= bytes_read evs + 1).
      { intros y wy Hy Ht. injection Hy as <- <-. exists [e].
        split; [exact Ht|]. unfold e. cbn [bytes_read List.length].
        rewrite Hpos. lia. }
      destruct (r =? 0); [eapply Hone; [exact Hrun|reflexivity]|].
      destruct (MBEDTLS_ERR_SSL_PEER_CLOSE_NOTIFY =? r);
        [eapply Hone; [exact Hrun|reflexivity]|].
      destruct ((MBEDTLS_ERR_SSL_TIMEOUT =? r) || (MBEDTLS_ERR_SSL_CONN_EOF =? r)
                || (MBEDTLS_ERR_SSL_SESSION_TICKET_EXPIRED =? r)
                || (MBEDTLS_ERR_SSL_NON_FATAL =? r));
        eapply Hone; [exact Hrun|reflexivity|exact Hrun|reflexivity].
Qed.

Lemma write_loop_calls (p buffer len : Z) :
  forall (script : list Z) (writtenLen : Z) (w : world) x w',
    write_loop p buffer len script writtenLen w = Some (x, w') ->
    exists evs,
      trace w' = trace w ++ evs
      /\ Z.of_nat (List.length evs) <= bytes_written evs + 1.
Proof.
  induction script as [|r script IH]; intros writtenLen w x w' Hrun;
    simpl in Hrun.
  - destruct (writtenLen <? to_uint32 len); [discriminate|].
    injection Hrun as <- <-. exists []. rewrite app_nil_r. split; [reflexivity|].
    cbn. lia.
  - destruct (writtenLen <? to_uint32 len).
    2:{ injection Hrun as <- <-. exists []. rewrite app_nil_r.
        split; [reflexivity|]. cbn. lia. }
    set (e := Ret (mbedtls_ssl_write p (buffer + writtenLen)
                     (to_uint32 (len - writtenLen))) r) in *.
    destruct (0 <? r) eqn:Hpos.
    + apply IH in Hrun. destruct Hrun as (evs & Htr & Hn).
      exists (e :: evs). split.
      * rewrite Htr. world_simpl. rewrite <- app_assoc. reflexivity.
      * unfold e. cbn [bytes_written List.length]. rewrite Hpos.
        apply Z.ltb_lt in Hpos. lia.
    + destruct (r =? 0); injection Hrun as <- <-; exists [e];
        (split; [reflexivity|]); unfold e; cbn [bytes_written List.length];
        rewrite Hpos; lia.
Qed.

(** The loops of read and write always advance: every library call but
    the last of a HAL call moved at least one byte.  So a read makes at
    most one [mbedtls_ssl_read] more than the bytes it received, a write at
    most one [mbedtls_ssl_write] more than the bytes it sent, and with a
    library that reports no more than requested that is at most [len + 1]
    calls, each of which may wait for a timeout of its own. *)
Theorem transfers_make_boundedly_many_calls
    (handle buf len timeout_ms : Z) (w : world) :
  (forall v w' evs,
      HAL_iTLS_Read handle buf len timeout_ms w = Some (v, w') ->
      trace w' = trace w ++ evs ->
      Z.of_nat (List.length evs) <= bytes_read evs + 2
      /\ (0 <= len <= INT_MAX -> Forall within_request evs ->
          Z.of_nat (List.length evs) <= len + 2))
  /\ (forall v w' evs,
      HAL_iTLS_Write handle buf len timeout_ms w = Some (v, w') ->
      trace w' = trace w ++ evs ->
      Z.of_nat (List.length evs) <= bytes_written evs + 1
      /\ (0 <= len <= INT_MAX -> Forall within_request evs ->
          Z.of_nat (List.length evs) <= len + 1)).
Proof.
  split; intros v w' evs Hrun Htr.
  - rewrite HAL_iTLS_Read_unfold in Hrun.
    destruct (read_loop _ _ _ _ _ _) as [[x w1]|] eqn:Hloop; [|discriminate].
    assert (Hw : w1 = w') by (destruct x; injection Hrun; auto). subst w1.
    pose proof (read_loop_calls _ _ _ _ _ _ _ _ Hloop) as (evs1 & Htr1 & Hn).
    world_simpl in Htr1. rewrite Htr, <- app_assoc in Htr1.
    apply app_inv_head in Htr1. subst evs.
    cbn [app bytes_read List.length]. split; [lia|].
    intros Hlen Hc.
    apply read_loop_account in Hloop; [|assumption|lia|intros; lia].
    destruct Hloop as (evs2 & Htr2 & Hok).
    world_simpl in Htr2. rewrite Htr, <- app_assoc in Htr2.
    apply app_inv_head in Htr2. injection Htr2 as <-.
    apply Forall_inv_tail in Hc. destruct (Hok Hc) as (_ & Hsum & _). lia.
  - rewrite HAL_iTLS_Write_unfold in Hrun.
    destruct (write_loop _ _ _ _ _ _) as [[x w1]|] eqn:Hloop; [|discriminate].
    assert (Hw : w1 = w') by (destruct x; injection Hrun; auto). subst w1.
    pose proof (write_loop_calls _ _ _ _ _ _ _ _ Hloop) as (evs1 & Htr1 & Hn).
    rewrite Htr in Htr1. apply app_inv_head in Htr1. subst evs.
    split; [exact Hn|]. intros Hlen Hc.
    apply write_loop_sound in Hloop; [|assumption|lia].
    destruct Hloop as (evs2 & Htr2 & Hok).
    rewrite Htr in Htr2. apply app_inv_head in Htr2. subst evs2.
    destruct (Hok Hc) as (Hsum & _). lia.
Qed.

End CallCounts.

(** ** The further properties at concrete inputs *)

Section MoreExamples.
Local Existing Instance mbedtls_codes.

(** A connection at the second address: one socket stays open, the one
    stored in the context. *)
Lemma mbedtls_net_connect_timeout_leaves_no_socket_witness :
  exists fd rest,
    0 <= fd /\ [(4096, 6); (4096, 5)] = (4096, fd) :: rest
    /\ open_sockets []
         [Void signal_SIGPIPE_SIG_IGN;
          Ret (getaddrinfo "iot.example.com" "443" AF_UNSPEC SOCK_STREAM
                 IPPROTO_TCP) 0;
          Ret (socket AF_INET SOCK_STREAM IPPROTO_TCP) 5;
          Ret (setsockopt_SO_SNDTIMEO 5 10 0) 0;
          Ret (connect 5 "192.0.2.1") (-1);
          Void (close 5);
          Ret (socket AF_INET6 SOCK_STREAM IPPROTO_TCP) 6;
          Ret (setsockopt_SO_SNDTIMEO 6 10 0) 0;
          Ret (connect 6 "2001:db8::1") 0;
          Void freeaddrinfo]
       = [fd].
Proof.
  exact (proj1
           (mbedtls_net_connect_timeout_leaves_no_socket 4096
              "iot.example.com" "443" MBEDTLS_NET_PROTO_TCP
              SEND_TIMEOUT_SECONDS
              (initial_world [0; 5; 0; -1; 6; 0; 0] [addr_v4; addr_v6]) 0
              (mk_world 0 [] (fun _ _ => [addr_v4; addr_v6])
                 [(4096, 6); (4096, 5)]
                 [Void signal_SIGPIPE_SIG_IGN;
                  Ret (getaddrinfo "iot.example.com" "443" AF_UNSPEC
                         SOCK_STREAM IPPROTO_TCP) 0;
                  Ret (socket AF_INET SOCK_STREAM IPPROTO_TCP) 5;
                  Ret (setsockopt_SO_SNDTIMEO 5 10 0) 0;
                  Ret (connect 5 "192.0.2.1") (-1);
                  Void (close 5);
                  Ret (socket AF_INET6 SOCK_STREAM IPPROTO_TCP) 6;
                  Ret (setsockopt_SO_SNDTIMEO 6 10 0) 0;
                  Ret (connect 6 "2001:db8::1") 0;
                  Void freeaddrinfo])
              _ [] eq_refl eq_refl)
           eq_refl).
Defined.

(** A read in two steps and a write in two steps of a 10-byte buffer at
    address 1000. *)
Lemma transfers_stay_inside_the_buffer_witness :
  Forall (inside_buffer 1000 10)
    [Void (mbedtls_ssl_conf_read_timeout 7 500);
     Ret (mbedtls_ssl_read 7 1000 10) 4; Ret (mbedtls_ssl_read 7 1004 6) 6]
  /\ Forall (inside_buffer 1000 10)
       [Ret (mbedtls_ssl_write 7 1000 10) 4;
        Ret (mbedtls_ssl_write 7 1004 6) 6].
Proof.
  split.
  - exact (proj1 (transfers_stay_inside_the_buffer 7 1000 10 500
                    (initial_world [4; 6] []) ltac:(unfold INT_MAX; lia))
             10
             (mk_world 0 [] (fun _ _ => []) []
                [Void (mbedtls_ssl_conf_read_timeout 7 500);
                 Ret (mbedtls_ssl_read 7 1000 10) 4;
                 Ret (mbedtls_ssl_read 7 1004 6) 6])
             [Void (mbedtls_ssl_conf_read_timeout 7 500);
              Ret (mbedtls_ssl_read 7 1000 10) 4;
              Ret (mbedtls_ssl_read 7 1004 6) 6]
             eq_refl eq_refl ltac:(repeat constructor; simpl; lia)).
  - exact (proj2 (transfers_stay_inside_the_buffer 7 1000 10 500
                    (initial_world [4; 6] []) ltac:(unfold INT_MAX; lia))
             10
             (mk_world 0 [] (fun _ _ => []) []
                [Ret (mbedtls_ssl_write 7 1000 10) 4;
                 Ret (mbedtls_ssl_write 7 1004 6) 6])
             [Ret (mbedtls_ssl_write 7 1000 10) 4;
              Ret (mbedtls_ssl_write 7 1004 6) 6]
             eq_refl eq_refl ltac:(repeat constructor; simpl; lia)).
Defined.

(** Three bytes are delivered and an error follows: the result is -1 and
    the three bytes are not reported. *)
Lemma HAL_iTLS_Read_accounts_for_bytes_witness :
  HAL_iTLS_Read 7 1000 10 500 (initial_world [3; -0x7100] [])
  = Some (-1,
          mk_world (-1) [] (fun _ _ => []) []
            [Void (mbedtls_ssl_conf_read_timeout 7 500);
             Ret (mbedtls_ssl_read 7 1000 10) 3;
             Ret (mbedtls_ssl_read 7 1003 7) (-0x7100)])
  /\ (-1 <= 10
      /\ 0 <= bytes_read
                [Void (mbedtls_ssl_conf_read_timeout 7 500);
                 Ret (mbedtls_ssl_read 7 1000 10) 3;
                 Ret (mbedtls_ssl_read 7 1003 7) (-0x7100)] <= 10
      /\ (0 <= -1 ->
          -1 = bytes_read
                 [Void (mbedtls_ssl_conf_read_timeout 7 500);
                  Ret (mbedtls_ssl_read 7 1000 10) 3;
                  Ret (mbedtls_ssl_read 7 1003 7) (-0x7100)])
      /\ (-1 < 0 ->
          0 < bytes_read
                [Void (mbedtls_ssl_conf_read_timeout 7 500);
                 Ret (mbedtls_ssl_read 7 1000 10) 3;
                 Ret (mbedtls_ssl_read 7 1003 7) (-0x7100)] ->
          -1 = -1)).
Proof.
  split; [reflexivity|].
  exact (HAL_iTLS_Read_accounts_for_bytes 7 1000 10 500
           (initial_world [3; -0x7100] []) (-1)
           (mk_world (-1) [] (fun _ _ => []) []
              [Void (mbedtls_ssl_conf_read_timeout 7 500);
               Ret (mbedtls_ssl_read 7 1000 10) 3;
               Ret (mbedtls_ssl_read 7 1003 7) (-0x7100)])
           [Void (mbedtls_ssl_conf_read_timeout 7 500);
            Ret (mbedtls_ssl_read 7 1000 10) 3;
            Ret (mbedtls_ssl_read 7 1003 7) (-0x7100)]
           ltac:(unfold INT_MAX; lia) ltac:(left; reflexivity)
           eq_refl eq_refl ltac:(repeat constructor; simpl; lia)).
Defined.

(** After an error was recorded, a read of length 0 returns it again
    without calling the library. *)
Lemma zero_length_transfers_move_nothing_witness :
  HAL_iTLS_Read 7 1000 0 500 (mk_world (-1) [5] (fun _ _ => []) [] [])
  = Some (-1,
          called (mbedtls_ssl_conf_read_timeout 7 500)
            (mk_world (-1) [5] (fun _ _ => []) [] []))
  /\ HAL_iTLS_Write 7 1000 0 500 (mk_world (-1) [5] (fun _ _ => []) [] [])
     = Some (0, mk_world (-1) [5] (fun _ _ => []) [] []).
Proof.
  exact (zero_length_transfers_move_nothing 7 1000 500
           (mk_world (-1) [5] (fun _ _ => []) [] [])
           ltac:(right; left; reflexivity)).
Defined.

(** [len = -1] asks the library for 2^32 - 1 bytes. *)
Lemma negative_len_is_taken_as_unsigned_witness :
  (exists v w',
      HAL_iTLS_Read 7 1000 (-1) 500 (initial_world [0] []) = Some (v, w')
      /\ trace w'
         = trace (initial_world [0] [])
           ++ [Void (mbedtls_ssl_conf_read_timeout 7 500);
               Ret (mbedtls_ssl_read 7 1000 (-1 + 2 ^ 32)) 0])
  /\ (exists v w',
      HAL_iTLS_Write 7 1000 (-1) 500 (initial_world [0] []) = Some (v, w')
      /\ trace w'
         = trace (initial_world [0] [])
           ++ [Ret (mbedtls_ssl_write 7 1000 (-1 + 2 ^ 32)) 0]).
Proof.
  exact (negative_len_is_taken_as_unsigned 7 1000 (-1) 500
           (initial_world [0] []) 0 []
           ltac:(unfold INT_MIN; lia) eq_refl ltac:(lia)).
Defined.

(** A close was recorded; the next read receives 3 bytes, and the read
    after it, which obtains nothing, returns 0. *)
Lemma data_clears_the_recorded_status_witness :
  exists w1 w2,
    HAL_iTLS_Read 7 1000 10 500 (mk_world (-2) [3; 0; 0] (fun _ _ => []) [] [])
    = Some (3, w1)
    /\ net_status w1 = 0
    /\ HAL_iTLS_Read 7 1000 10 500 w1 = Some (0, w2).
Proof.
  exact (data_clears_the_recorded_status 7 1000 10 500 7 1000 10 500
           (mk_world (-2) [3; 0; 0] (fun _ _ => []) [] []) [3] []
           ltac:(repeat constructor) ltac:(discriminate)
           ltac:(unfold INT_MAX; simpl; lia) ltac:(unfold INT_MAX; lia)
           eq_refl).
Defined.

(** Establish outside Linux, with a handshake that asks twice to be called
    again. *)
Lemma HAL_iTLS_Establish_succeeds_witness :
  HAL_iTLS_Establish false "iot.example.com" 443 "a1AbCdEfGhI"
    (initial_world
       [4096; 0; 0; 0; 0; MBEDTLS_ERR_SSL_WANT_READ;
        MBEDTLS_ERR_SSL_WANT_WRITE; 0] [])
  = Some (4096,
          mk_world 0 [] (fun _ _ => []) []
            (([Ret HAL_Malloc 4096; Void (memset 4096 0)]
              ++ init_events 4096
              ++ [Ret (mbedtls_net_connect 4096 "iot.example.com" "443"
                         MBEDTLS_NET_PROTO_TCP) 0])
             ++ setup_events 4096 "a1AbCdEfGhI"
             ++ handshake_events 4096
                  ([MBEDTLS_ERR_SSL_WANT_READ; MBEDTLS_ERR_SSL_WANT_WRITE]
                   ++ [0]))).
Proof.
  exact (HAL_iTLS_Establish_succeeds false "iot.example.com" 443
           "a1AbCdEfGhI"
           (initial_world
              [4096; 0; 0; 0; 0; MBEDTLS_ERR_SSL_WANT_READ;
               MBEDTLS_ERR_SSL_WANT_WRITE; 0] [])
           4096
           [0; 0; 0; 0; MBEDTLS_ERR_SSL_WANT_READ;
            MBEDTLS_ERR_SSL_WANT_WRITE; 0]
           (mk_world 0
              [0; 0; 0; MBEDTLS_ERR_SSL_WANT_READ;
               MBEDTLS_ERR_SSL_WANT_WRITE; 0]
              (fun _ _ => []) []
              ([Ret HAL_Malloc 4096; Void (memset 4096 0)]
               ++ init_events 4096
               ++ [Ret (mbedtls_net_connect 4096 "iot.example.com" "443"
                          MBEDTLS_NET_PROTO_TCP) 0]))
           [MBEDTLS_ERR_SSL_WANT_READ; MBEDTLS_ERR_SSL_WANT_WRITE] []
           eq_refl ltac:(discriminate) eq_refl eq_refl
           ltac:(constructor;
                   [left; reflexivity
                   |constructor; [right; reflexivity|constructor]])).
Defined.


(** Establish, then destroy. *)
Lemma establish_then_destroy_releases_everything_witness :
  exists evs,
    [Ret HAL_Malloc 4096; Void (memset 4096 0);
     Void (mbedtls_ssl_init 4096); Void (mbedtls_net_init 4096);
     Void (mbedtls_ssl_config_init 4096);
     Ret (mbedtls_net_connect 4096 "iot.example.com" "443"
            MBEDTLS_NET_PROTO_TCP) 0;
     Ret (mbedtls_ssl_config_defaults 4096) 0;
     Void (mbedtls_ssl_conf_max_version 4096 3 3);
     Void (mbedtls_ssl_conf_min_version 4096 3 3);
     Void (mbedtls_ssl_conf_rng 4096); Void (mbedtls_ssl_conf_dbg 4096);
     Ret (mbedtls_ssl_conf_auth_extra 4096 "a1AbCdEfGhI" 11) 0;
     Ret (mbedtls_ssl_setup 4096) 0; Void (mbedtls_ssl_set_bio 4096);
     Ret (mbedtls_ssl_handshake 4096) 0]
    = [] ++ evs
    /\ HAL_iTLS_Destroy 4096
         (mk_world 0 [] (fun _ _ => []) []
            [Ret HAL_Malloc 4096; Void (memset 4096 0);
             Void (mbedtls_ssl_init 4096); Void (mbedtls_net_init 4096);
             Void (mbedtls_ssl_config_init 4096);
             Ret (mbedtls_net_connect 4096 "iot.example.com" "443"
                    MBEDTLS_NET_PROTO_TCP) 0;
             Ret (mbedtls_ssl_config_defaults 4096) 0;
             Void (mbedtls_ssl_conf_max_version 4096 3 3);
             Void (mbedtls_ssl_conf_min_version 4096 3 3);
             Void (mbedtls_ssl_conf_rng 4096);
             Void (mbedtls_ssl_conf_dbg 4096);
             Ret (mbedtls_ssl_conf_auth_extra 4096 "a1AbCdEfGhI" 11) 0;
             Ret (mbedtls_ssl_setup 4096) 0;
             Void (mbedtls_ssl_set_bio 4096);
             Ret (mbedtls_ssl_handshake 4096) 0])
       = Some (0, mk_world 0 [] (fun _ _ => []) []
                    ([] ++ evs ++ destroy_events 4096))
    /\ held_after evs
       = [ConfigContext 4096; NetContext 4096; SslContext 4096; Block 4096]
    /\ held_after (evs ++ destroy_events 4096) = [].
Proof.
  exact (establish_then_destroy_releases_everything false "iot.example.com"
           443 "a1AbCdEfGhI" (initial_world [4096; 0; 0; 0; 0; 0] []) 4096
           (mk_world 0 [] (fun _ _ => []) []
              [Ret HAL_Malloc 4096; Void (memset 4096 0);
               Void (mbedtls_ssl_init 4096); Void (mbedtls_net_init 4096);
               Void (mbedtls_ssl_config_init 4096);
               Ret (mbedtls_net_connect 4096 "iot.example.com" "443"
                      MBEDTLS_NET_PROTO_TCP) 0;
               Ret (mbedtls_ssl_config_defaults 4096) 0;
               Void (mbedtls_ssl_conf_max_version 4096 3 3);
               Void (mbedtls_ssl_conf_min_version 4096 3 3);
               Void (mbedtls_ssl_conf_rng 4096);
               Void (mbedtls_ssl_conf_dbg 4096);
               Ret (mbedtls_ssl_conf_auth_extra 4096 "a1AbCdEfGhI" 11) 0;
               Ret (mbedtls_ssl_setup 4096) 0;
               Void (mbedtls_ssl_set_bio 4096);
               Ret (mbedtls_ssl_handshake 4096) 0])
           eq_refl ltac:(discriminate)).
Defined.

(** One byte at a time: a read of 3 bytes makes 3 reads after setting the
    timeout, a write of 3 bytes makes 3 writes. *)
Lemma transfers_make_boundedly_many_calls_witness :
  (Z.of_nat (List.length
               [Void (mbedtls_ssl_conf_read_timeout 7 500);
                Ret (mbedtls_ssl_read 7 1000 3) 1;
                Ret (mbedtls_ssl_read 7 1001 2) 1;
                Ret (mbedtls_ssl_read 7 1002 1) 1])
   <= bytes_read
        [Void (mbedtls_ssl_conf_read_timeout 7 500);
         Ret (mbedtls_ssl_read 7 1000 3) 1;
         Ret (mbedtls_ssl_read 7 1001 2) 1;
         Ret (mbedtls_ssl_read 7 1002 1) 1] + 2)
  /\ (Z.of_nat (List.length
                  [Ret (mbedtls_ssl_write 7 1000 3) 1;
                   Ret (mbedtls_ssl_write 7 1001 2) 1;
                   Ret (mbedtls_ssl_write 7 1002 1) 1])
      <= bytes_written
           [Ret (mbedtls_ssl_write 7 1000 3) 1;
            Ret (mbedtls_ssl_write 7 1001 2) 1;
            Ret (mbedtls_ssl_write 7 1002 1) 1] + 1).
Proof.
  split.
  - exact (proj1 (proj1 (transfers_make_boundedly_many_calls 7 1000 3 500
                           (initial_world [1; 1; 1] []))
                    3
                    (mk_world 0 [] (fun _ _ => []) []
                       [Void (mbedtls_ssl_conf_read_timeout 7 500);
                        Ret (mbedtls_ssl_read 7 1000 3) 1;
                        Ret (mbedtls_ssl_read 7 1001 2) 1;
                        Ret (mbedtls_ssl_read 7 1002 1) 1])
                    _ eq_refl eq_refl)).
  - exact (proj1 (proj2 (transfers_make_boundedly_many_calls 7 1000 3 500
                           (initial_world [1; 1; 1] []))
                    3
                    (mk_world 0 [] (fun _ _ => []) []
                       [Ret (mbedtls_ssl_write 7 1000 3) 1;
                        Ret (mbedtls_ssl_write 7 1001 2) 1;
                        Ret (mbedtls_ssl_write 7 1002 1) 1])
                    _ eq_refl eq_refl)).
Defined.

(** C5, counterexample.  On Linux the only resolved address refuses the
    connection: establish returns NULL and frees the block, the socket is
    closed, and the three contexts it initialised are not passed to their
    [mbedtls_*_free]. *)
Lemma connect_failure_makes_no_context_free_call :
  value (HAL_iTLS_Establish true "iot.example.com" 443 "a1AbCdEfGhI"
           (initial_world [4096; 0; 5; 0; -1] [addr_v4])) = Some NULL
  /\ events_of (HAL_iTLS_Establish true "iot.example.com" 443 "a1AbCdEfGhI"
                  (initial_world [4096; 0; 5; 0; -1] [addr_v4]))
     = refused_connect_events
  /\ filter context_free_call refused_connect_events = [].
Proof. repeat split. Qed.

(** C5, witness: the same run. *)
Lemma failed_establish_frees_block_and_sockets_witness :
  (NULL = NULL /\ refused_connect_events = [Ret HAL_Malloc NULL])
  \/ exists p ans c w1 conn,
       answers (initial_world [4096; 0; 5; 0; -1] [addr_v4]) = p :: ans
       /\ p <> NULL
       /\ start_connection true p "iot.example.com" (sprintf_u 443)
            (after_init (initial_world [4096; 0; 5; 0; -1] [addr_v4]) p ans)
          = Some (c, w1)
       /\ trace w1
          = trace (after_init (initial_world [4096; 0; 5; 0; -1] [addr_v4]) p ans)
            ++ conn
       /\ Forall connect_event conn
       /\ ((c <> 0 /\ NULL = NULL
            /\ refused_connect_events
               = [Ret HAL_Malloc p; Void (memset p 0)] ++ init_events p
                 ++ conn ++ [Void (HAL_Free p)]
            /\ filter context_free_call refused_connect_events = []
            /\ (true = true -> open_sockets [] conn = []))
           \/ (c = 0 /\ NULL = NULL
               /\ exists setup hs,
                   setup <> [] /\ Forall setup_event setup
                   /\ Forall (is_handshake p) hs
                   /\ refused_connect_events
                      = [Ret HAL_Malloc p; Void (memset p 0)]
                        ++ init_events p ++ conn ++ setup ++ hs
                        ++ cleanup_events p ++ [Void (HAL_Free p)])
           \/ (c = 0 /\ NULL = p
               /\ exists wants,
                   Forall is_want wants
                   /\ refused_connect_events
                      = [Ret HAL_Malloc p; Void (memset p 0)]
                        ++ init_events p ++ conn
                        ++ setup_events p "a1AbCdEfGhI"
                        ++ handshake_events p (wants ++ [0]))).
Proof.
  exact (failed_establish_frees_block_and_sockets true "iot.example.com" 443
           "a1AbCdEfGhI" (initial_world [4096; 0; 5; 0; -1] [addr_v4]) NULL
           (mk_world 0 [] (fun _ _ => [addr_v4]) [(4096, 5)]
              refused_connect_events)
           refused_connect_events eq_refl eq_refl).
Defined.

(** C6, witness: an establish outside Linux whose handshake needs two
    calls, run forwards and read backwards from its trace. *)
Lemma version_pinned_and_key_registered_witness :
  HAL_iTLS_Establish false "iot.example.com" 443 "a1AbCdEfGhI"
    (initial_world [4096; 0; 0; 0; 0; MBEDTLS_ERR_SSL_WANT_READ; 0] [])
  = Some (4096,
          mk_world 0 [] (fun _ _ => []) []
            (([Ret HAL_Malloc 4096; Void (memset 4096 0)] ++ init_events 4096
              ++ [Ret (mbedtls_net_connect 4096 "iot.example.com" "443"
                         MBEDTLS_NET_PROTO_TCP) 0])
             ++ setup_events 4096 "a1AbCdEfGhI"
             ++ handshake_events 4096 ([MBEDTLS_ERR_SSL_WANT_READ] ++ [0])))
  /\ ((4096 = NULL
       /\ Forall (fun e => ~ is_handshake_call e) successful_establish_events)
      \/ exists p conn wants h,
           p <> NULL /\ Forall connect_event conn
           /\ Forall is_want wants /\ ~ is_want h
           /\ successful_establish_events
              = [Ret HAL_Malloc p; Void (memset p 0)] ++ init_events p
                ++ conn ++ setup_events p "a1AbCdEfGhI"
                ++ handshake_events p (wants ++ [h])
                ++ (if h =? 0 then []
                    else cleanup_events p ++ [Void (HAL_Free p)])
           /\ 4096 = (if h =? 0 then p else NULL)).
Proof.
  split.
  - exact (proj1 (proj2 (version_pinned_and_key_registered_before_handshake
                           false "iot.example.com" 443 "a1AbCdEfGhI"
                           (initial_world
                              [4096; 0; 0; 0; 0; MBEDTLS_ERR_SSL_WANT_READ; 0]
                              [])))
             4096 [0; 0; 0; 0; MBEDTLS_ERR_SSL_WANT_READ; 0]
             (mk_world 0 [0; 0; 0; MBEDTLS_ERR_SSL_WANT_READ; 0]
                (fun _ _ => []) []
                ([Ret HAL_Malloc 4096; Void (memset 4096 0)]
                 ++ init_events 4096
                 ++ [Ret (mbedtls_net_connect 4096 "iot.example.com" "443"
                            MBEDTLS_NET_PROTO_TCP) 0]))
             [MBEDTLS_ERR_SSL_WANT_READ] []
             eq_refl ltac:(discriminate) eq_refl eq_refl
             ltac:(constructor; [left; reflexivity|constructor])).
  - exact (proj2 (proj2 (version_pinned_and_key_registered_before_handshake
                           false "iot.example.com" 443 "a1AbCdEfGhI"
                           (initial_world
                              [4096; 0; 0; 0; 0; MBEDTLS_ERR_SSL_WANT_READ; 0]
                              [])))
             4096
             (mk_world 0 [] (fun _ _ => []) [] successful_establish_events)
             successful_establish_events eq_refl eq_refl).
Defined.

End MoreExamples.
